(** * harmonic-python-client: the paginated fetch loop, the detail clients
      and the skip-if-exists warehouse sync

    A shallow embedding of
    - [harmonic_client/client.py]            (class [HarmonicClient]),
    - [harmonic_client/error_notifier.py]    (class [HarmonicErrorNotifier]),
    - [harmonic_client/get_full_profile.py], [get_education.py],
      [get_experience.py], [get_profile.py], [search_name.py]
      (the detail clients),
    - [harmonic_client/sync_harmonic_to_bigquery.py]
      (class [HarmonicToBigQuerySync]).

    Python values that come out of [response.json()] are modelled by the
    inductive type [json]; a Python exception is an outcome [Raise e] of the
    type [result]; code that touches the outside (HTTP, the Glue messenger,
    files, the clock, BigQuery) is written in a state-and-exception monad
    over an explicit world.

    What the outside does is an input of a run ([env]): the answer to every
    request (or the failure to connect), the clock readings, the random
    draws, whether the messenger could be built, the row errors BigQuery
    answers.  Writing a file into the working directory and querying
    BigQuery always succeed in the model, while a file below a directory
    needs that directory; [print] is modelled only where evaluating its
    arguments can raise.  The [while True] loop of the pagination is a
    fixpoint over a number of passes that is shown to be enough. *)

From Stdlib Require Import ZArith List String Ascii Bool Lia.
From Stdlib Require Import DecimalString QArith Lqa.
Import ListNotations.

Set Warnings "-register-all".

Local Open Scope Z_scope.
Local Open Scope string_scope.
Local Open Scope list_scope.

(* ================================================================== *)
(** * Python values and the builtin operations the sources use *)
(* ================================================================== *)

Module Py.

(** A parsed JSON document.  A Python [dict] keeps insertion order and holds
    every key once; it is an association list here, read with
    [dict_find] (first binding) and written with [dict_set] (replace in
    place, or append).  Numbers are the integers of the upstream schema;
    strings are sequences of [ascii] characters. *)
Inductive json : Type :=
| JNull
| JBool (b : bool)
| JInt (n : Z)
| JStr (s : string)
| JArr (items : list json)
| JObj (fields : list (string * json)).

(** The exceptions the modelled code can raise.  [PlainException] is the
    repository's own [raise Exception(msg)]. *)
Inductive exn : Type :=
| KeyError (key : string)
| TypeError
| AttributeError
| JSONDecodeError
| HTTPError (status : Z)
| ConnectionError
| FileNotFoundError (path : string)
| PlainException (msg : string).

Inductive result (A : Type) : Type :=
| Ok (a : A)
| Raise (e : exn).
Arguments Ok {A} a.
Arguments Raise {A} e.

Definition is_ok {A} (r : result A) : bool :=
  match r with Ok _ => true | Raise _ => false end.

(** Functions of Python's standard library whose text is not part of the
    repository: [json.dumps], [str] on a list or a dict, [str] on a
    library exception, and [int] on a string ([None] when it raises). *)
Class Runtime : Type := {
  json_dumps : json -> string;
  container_str : json -> string;
  lib_exn_str : exn -> string;
  py_int : string -> option Z
}.

(** [str(e)] for a caught exception. *)
Definition str_of_exn `{Runtime} (e : exn) : string :=
  match e with
  | PlainException m => m
  | _ => lib_exn_str e
  end.

(** ** Strings *)

(** [str(n)] and [f"{n}"] for a Python [int]. *)
Definition str_of_int (n : Z) : string := NilZero.string_of_int (Z.to_int n).

Fixpoint repeat_char (c : ascii) (n : nat) : string :=
  match n with
  | O => EmptyString
  | S k => String c (repeat_char c k)
  end.

(** [f"{n:03d}"]: at least three characters, padded with zeros after the
    sign. *)
Definition format_03d (n : Z) : string :=
  let digits := str_of_int (Z.abs n) in
  if (n <? 0)%Z
  then "-" ++ repeat_char "0" (2 - String.length digits) ++ digits
  else repeat_char "0" (3 - String.length digits) ++ digits.

(** [str(v)] and [f"{v}"] for a value that came out of JSON. *)
Definition py_str `{Runtime} (v : json) : string :=
  match v with
  | JNull => "None"
  | JBool true => "True"
  | JBool false => "False"
  | JInt n => str_of_int n
  | JStr s => s
  | JArr _ | JObj _ => container_str v
  end.

(** [s[:n]] on a [str]. *)
Definition str_prefix (n : nat) (s : string) : string := String.substring 0 n s.

Definition lower_char (c : ascii) : ascii :=
  let n := nat_of_ascii c in
  if andb (Nat.leb 65 n) (Nat.leb n 90) then ascii_of_nat (n + 32) else c.

(** [s.lower()]. *)
Fixpoint lower (s : string) : string :=
  match s with
  | EmptyString => EmptyString
  | String c rest => String (lower_char c) (lower rest)
  end.

(** [needle in haystack] on two [str]. *)
Fixpoint str_contains (needle haystack : string) : bool :=
  if String.prefix needle haystack then true
  else match haystack with
       | EmptyString => false
       | String _ rest => str_contains needle rest
       end.

Fixpoint chars (s : string) : list string :=
  match s with
  | EmptyString => []
  | String c rest => String c EmptyString :: chars rest
  end.

(** [s.rstrip("/")]. *)
Fixpoint rstrip_slash (s : string) : string :=
  match s with
  | EmptyString => EmptyString
  | String c rest =>
      match rstrip_slash rest with
      | EmptyString => if Ascii.eqb c "/" then EmptyString else String c EmptyString
      | r => String c r
      end
  end.

(** [s.split("/")]: never empty. *)
Fixpoint split_slash (s : string) : list string :=
  match s with
  | EmptyString => [EmptyString]
  | String c rest =>
      if Ascii.eqb c "/" then EmptyString :: split_slash rest
      else match split_slash rest with
           | [] => [String c EmptyString]
           | part :: parts => String c part :: parts
           end
  end.

(** [s.rstrip("/").split("/")[-1]]. *)
Definition last_segment (s : string) : string :=
  List.last (split_slash (rstrip_slash s)) EmptyString.

(** ** Dictionaries *)

Fixpoint dict_find (k : string) (kvs : list (string * json)) : option json :=
  match kvs with
  | [] => None
  | (k', v) :: rest => if String.eqb k k' then Some v else dict_find k rest
  end.

Fixpoint dict_set (k : string) (v : json) (kvs : list (string * json))
  : list (string * json) :=
  match kvs with
  | [] => [(k, v)]
  | (k', v') :: rest =>
      if String.eqb k k' then (k, v) :: rest else (k', v') :: dict_set k v rest
  end.

(** [v[k]] with a [str] key. *)
Definition subscript (v : json) (k : string) : result json :=
  match v with
  | JObj kvs =>
      match dict_find k kvs with
      | Some x => Ok x
      | None => Raise (KeyError k)
      end
  | _ => Raise TypeError
  end.

(** [v.get(k, default)]; [v.get(k)] is [get v k JNull].  Only a [dict] has
    the method. *)
Definition get (v : json) (k : string) (default : json) : result json :=
  match v with
  | JObj kvs =>
      match dict_find k kvs with
      | Some x => Ok x
      | None => Ok default
      end
  | _ => Raise AttributeError
  end.

Definition is_str (k : string) (v : json) : bool :=
  match v with
  | JStr s => String.eqb k s
  | _ => false
  end.

(** [k in v] for a [str] [k]: key test on a dict, membership on a list,
    substring test on a string; the other values are not iterable. *)
Definition contains (k : string) (v : json) : result bool :=
  match v with
  | JObj kvs => Ok (match dict_find k kvs with Some _ => true | None => false end)
  | JArr l => Ok (existsb (is_str k) l)
  | JStr s => Ok (str_contains k s)
  | _ => Raise TypeError
  end.

(** [v[k] = x] with a [str] key. *)
Definition setitem (v : json) (k : string) (x : json) : result json :=
  match v with
  | JObj kvs => Ok (JObj (dict_set k x kvs))
  | _ => Raise TypeError
  end.

(** Truth value of a Python object. *)
Definition truthy (v : json) : bool :=
  match v with
  | JNull => false
  | JBool b => b
  | JInt n => negb (n =? 0)%Z
  | JStr s => negb (String.eqb s EmptyString)
  | JArr l => match l with [] => false | _ => true end
  | JObj kvs => match kvs with [] => false | _ => true end
  end.

(** [x is None]. *)
Definition is_none (v : json) : bool :=
  match v with JNull => true | _ => false end.

(** The elements produced by iterating over [v] ([list.extend(v)],
    [for x in v]): the items of a list, the keys of a dict, the characters
    of a string. *)
Definition iterate (v : json) : result (list json) :=
  match v with
  | JArr l => Ok l
  | JObj kvs => Ok (map (fun kv => JStr (fst kv)) kvs)
  | JStr s => Ok (map JStr (chars s))
  | _ => Raise TypeError
  end.

(** [len(v)]. *)
Definition len (v : json) : result Z :=
  match v with
  | JArr l => Ok (Z.of_nat (List.length l))
  | JObj kvs => Ok (Z.of_nat (List.length kvs))
  | JStr s => Ok (Z.of_nat (String.length s))
  | _ => Raise TypeError
  end.

(** The receiver of a [str] method such as [rstrip]: another value has no
    such attribute. *)
Definition as_str (v : json) : result string :=
  match v with
  | JStr s => Ok s
  | _ => Raise AttributeError
  end.

(** [v[:n]]: a prefix of a string or of a list. *)
Definition slice_prefix (n : nat) (v : json) : result json :=
  match v with
  | JStr s => Ok (JStr (str_prefix n s))
  | JArr l => Ok (JArr (firstn n l))
  | _ => Raise TypeError
  end.

(** [a or b]. *)
Definition py_or (a b : json) : json := if truthy a then a else b.

(** [isinstance(v, list)]. *)
Definition is_list (v : json) : bool :=
  match v with JArr _ => true | _ => false end.

(** Sequencing of pure steps that may raise. *)
Definition and_then {A B} (r : result A) (k : A -> result B) : result B :=
  match r with
  | Ok a => k a
  | Raise e => Raise e
  end.

(** ** The state-and-exception monad *)

(** A computation reads and updates a world [W]; an exception keeps the
    world as it was when it was raised. *)
Definition M (W A : Type) : Type := W -> result A * W.

Definition ret {W A} (a : A) : M W A := fun w => (Ok a, w).

Definition throw {W A} (e : exn) : M W A := fun w => (Raise e, w).

Definition bind {W A B} (m : M W A) (k : A -> M W B) : M W B :=
  fun w =>
    match m w with
    | (Ok a, w') => k a w'
    | (Raise e, w') => (Raise e, w')
    end.

(** A pure step that may raise. *)
Definition lift {W A} (r : result A) : M W A := fun w => (r, w).

Definition modify {W} (f : W -> W) : M W unit := fun w => (Ok tt, f w).

Definition gets {W A} (f : W -> A) : M W A := fun w => (Ok (f w), w).

(** [try: m except Exception as e: h e]. *)
Definition try_except {W A} (m : M W A) (h : exn -> M W A) : M W A :=
  fun w =>
    match m w with
    | (Ok a, w') => (Ok a, w')
    | (Raise e, w') => h e w'
    end.

End Py.

Export Py.

Notation "'let?' x ':=' c1 'in' c2" := (and_then c1 (fun x => c2))
  (at level 10, x name, c1 at level 100, c2 at level 200).

Declare Scope py_scope.
Delimit Scope py_scope with py.
Notation "x <- c1 ;; c2" := (bind c1 (fun x => c2))
  (at level 61, c1 at next level, right associativity) : py_scope.
Notation "c1 ;;; c2" := (bind c1 (fun _ => c2))
  (at level 61, right associativity) : py_scope.
Local Open Scope py_scope.

(* ================================================================== *)
(** * The outside world *)
(* ================================================================== *)

Module World.

(** What [requests.post] hands back: the status code and the body, [None]
    when the body is not JSON. *)
Record response : Type := {
  status_code : Z;
  body : option json
}.

(** [response.json()]. *)
Definition response_json (r : response) : result json :=
  match body r with
  | Some d => Ok d
  | None => Raise JSONDecodeError
  end.

(** [response.raise_for_status()]: a 4xx or 5xx status raises. *)
Definition raise_for_status (r : response) : result unit :=
  if andb (400 <=? status_code r)%Z (status_code r <? 600)%Z
  then Raise (HTTPError (status_code r))
  else Ok tt.

Inductive category : Type := AuthFailure | ApiError.

(** One [send_chat_message] call on the Glue messenger. *)
Record message : Type := {
  kind : category;
  text : string;
  unique_by : string
}.

(** One file written with [json.dump]. *)
Inductive file_write : Type :=
| BatchFile (batch_number : Z) (filename : string) (content : json)
| OutputFile (filename : string) (content : json).

(** One call on the BigQuery client. *)
Inductive bq_call : Type :=
| CountQuery (table : string) (column : string) (key : string)
| InsertRows (table : string) (rows : list json).

(** What the run cannot decide by itself. *)
Record env : Type := {
  (** the [k]-th [requests.post] of the run, with its URL and payload *)
  http : nat -> string -> json -> result response;
  (** [HarmonicErrorNotifier.__init__] could build its messenger *)
  messenger : bool;
  (** [datetime.now().strftime("%Y-%m-%d")] *)
  today : string;
  (** [datetime.now().year] *)
  current_year : Z;
  (** the [k]-th [datetime.now()] reading of the pagination code, in
      microseconds *)
  now : nat -> Z;
  (** the [k]-th [random.random()] draw *)
  random : nat -> Q;
  (** the errors [insert_rows_json] answers for a table and its rows *)
  insert_errors : string -> list json -> list json;
  (** the [k]-th [datetime.utcnow().isoformat()] of [insert_mapping] *)
  utcnow_iso : nat -> string
}.

Record world : Type := {
  (** the [requests.post] calls so far: URL and payload *)
  posts : list (string * json);
  (** the messages handed to the Glue messenger *)
  sent : list message;
  (** the files written *)
  files : list file_write;
  (** how many [datetime.now()] readings the pagination code took *)
  clock_reads : nat;
  (** how many [random.random()] draws were taken *)
  draws : nat;
  (** the [time.sleep] calls *)
  slept : list Q;
  (** the warehouse: the rows of every table *)
  tables : list (string * list json);
  (** the calls made on the BigQuery client *)
  bq_log : list bq_call;
  (** the [transform_*] methods entered *)
  transforms : list string
}.

Definition empty_world : world :=
  {| posts := []; sent := []; files := []; clock_reads := 0; draws := 0;
     slept := []; tables := []; bq_log := []; transforms := [] |}.

Definition add_post (url : string) (p : json) (w : world) : world :=
  {| posts := posts w ++ [(url, p)]; sent := sent w; files := files w;
     clock_reads := clock_reads w; draws := draws w; slept := slept w;
     tables := tables w; bq_log := bq_log w;
     transforms := transforms w |}.

Definition add_sent (m : message) (w : world) : world :=
  {| posts := posts w; sent := sent w ++ [m]; files := files w;
     clock_reads := clock_reads w; draws := draws w; slept := slept w;
     tables := tables w; bq_log := bq_log w;
     transforms := transforms w |}.

Definition add_file (f : file_write) (w : world) : world :=
  {| posts := posts w; sent := sent w; files := files w ++ [f];
     clock_reads := clock_reads w; draws := draws w; slept := slept w;
     tables := tables w; bq_log := bq_log w;
     transforms := transforms w |}.

Definition tick_clock (w : world) : world :=
  {| posts := posts w; sent := sent w; files := files w;
     clock_reads := S (clock_reads w); draws := draws w; slept := slept w;
     tables := tables w; bq_log := bq_log w;
     transforms := transforms w |}.

Definition tick_draw (w : world) : world :=
  {| posts := posts w; sent := sent w; files := files w;
     clock_reads := clock_reads w; draws := S (draws w); slept := slept w;
     tables := tables w; bq_log := bq_log w;
     transforms := transforms w |}.

Definition add_sleep (d : Q) (w : world) : world :=
  {| posts := posts w; sent := sent w; files := files w;
     clock_reads := clock_reads w; draws := draws w; slept := slept w ++ [d];
     tables := tables w; bq_log := bq_log w;
     transforms := transforms w |}.

Definition set_tables (t : list (string * list json)) (w : world) : world :=
  {| posts := posts w; sent := sent w; files := files w;
     clock_reads := clock_reads w; draws := draws w; slept := slept w;
     tables := t; bq_log := bq_log w;
     transforms := transforms w |}.

Definition add_bq (c : bq_call) (w : world) : world :=
  {| posts := posts w; sent := sent w; files := files w;
     clock_reads := clock_reads w; draws := draws w; slept := slept w;
     tables := tables w; bq_log := bq_log w ++ [c];
     transforms := transforms w |}.

Definition add_transform (name : string) (w : world) : world :=
  {| posts := posts w; sent := sent w; files := files w;
     clock_reads := clock_reads w; draws := draws w; slept := slept w;
     tables := tables w; bq_log := bq_log w;
     transforms := transforms w ++ [name] |}.

Section Primitives.
Context (E : env).

(** [requests.post(url, headers=self.headers, json=payload)]. *)
Definition requests_post (url : string) (payload : json) : M world response :=
  fun w => (http E (List.length (posts w)) url payload, add_post url payload w).

(** [datetime.now()]. *)
Definition datetime_now : M world Z :=
  fun w => (Ok (now E (clock_reads w)), tick_clock w).

(** [random.uniform(a, b)], which is [a + (b - a) * random()]. *)
Definition random_uniform (a b : Q) : M world Q :=
  fun w => (Ok (a + (b - a) * random E (draws w))%Q, tick_draw w).

(** [time.sleep(d)]. *)
Definition time_sleep (d : Q) : M world unit := modify (add_sleep d).

End Primitives.

End World.

Export World.

(* ================================================================== *)
(** * error_notifier.py *)
(* ================================================================== *)

Module HarmonicErrorNotifier.

Definition nl : string := String (ascii_of_nat 10) EmptyString.

Section Notifier.
Context (E : env).

(** [notify_auth_failure(error_details)].  A failing [send_chat_message] is
    caught by the method; the attempt is what [sent] records. *)
Definition notify_auth_failure (error_details : string) : M world bool :=
  if negb (messenger E) then ret false
  else
    let unique_key := ("harmonic_auth_error_" ++ today E)%string in
    let message :=
      ("Harmonic API authentication failed. The Bearer token may need to be refreshed."
       ++ nl ++ nl ++ "Refresh at: https://console.harmonic.ai")%string in
    let message :=
      if String.eqb error_details EmptyString then message
      else (message ++ nl ++ nl ++ "Error: " ++ error_details)%string in
    modify (add_sent {| kind := AuthFailure; text := message;
                        unique_by := unique_key |}) ;;;
    ret true.

(** [notify_api_error(error_type, error_details)]. *)
Definition notify_api_error (error_type error_details : string) : M world bool :=
  if negb (messenger E) then ret false
  else
    let unique_key := ("harmonic_api_error_" ++ today E)%string in
    let message := ("Harmonic API error: " ++ error_type)%string in
    let message :=
      if String.eqb error_details EmptyString then message
      else (message ++ nl ++ nl ++ "Details: " ++ error_details)%string in
    modify (add_sent {| kind := ApiError; text := message;
                        unique_by := unique_key |}) ;;;
    ret true.

End Notifier.

End HarmonicErrorNotifier.

(* ================================================================== *)
(** * client.py *)
(* ================================================================== *)

Module HarmonicClient.

Import HarmonicErrorNotifier.

(** The [query] argument: a GraphQL string or a ready payload. *)
Inductive query_arg : Type :=
| QueryStr (q : string)
| QueryData (d : json).

(** The local variables of [get_company_saved_search_results]. *)
Record locals : Type := {
  all_edges : list json;
  total_count : json;
  page : Z;
  current_batch : list json;
  batch_number : Z;
  payload : json;
  start_time : Z;
  last_long_break : Z
}.

(** Which [break] left the [while True] loop: the error check (line 116),
    [hasNextPage] false (line 140), or [page >= max_pages] (line 143). *)
Inductive stop : Type := StopError | StopExhausted | StopPageLimit.

Inductive control : Type :=
| Break (reason : stop)
| Continue.

(** The dictionary the method returns. *)
Record fetch_result : Type := {
  r_total_count : json;
  r_companies : list json;
  r_pages_fetched : Z
}.

Record run : Type := {
  returned : fetch_result;
  exit : stop
}.

Definition base_url : string :=
  "https://api.harmonic.ai/graphql?GetCompanySavedSearchResults".

Definition auth_keywords : list string :=
  ["unauthorized"; "unauthenticated"; "token"; "expired"; "invalid";
   "forbidden"; "401"; "403"].

(** [timedelta(minutes=3)] in microseconds. *)
Definition three_minutes : Z := 180000000.

Section Client.
Context (E : env) {R : Runtime}.

Definition is_auth_status (s : Z) : bool := orb (s =? 401)%Z (s =? 403)%Z.

(** The GraphQL half of [_check_and_notify_error] (lines 62 to 76). *)
Definition check_graphql_errors (data : json) : M world bool :=
  if truthy data then
    has_errors <- lift (contains "errors" data) ;;
    if (has_errors : bool) then
      errors <- lift (subscript data "errors") ;;
      let error_str := if is_list errors then json_dumps errors else py_str errors in
      let is_auth_error :=
        existsb (fun keyword => str_contains keyword (lower error_str))
                auth_keywords in
      (if is_auth_error
       then notify_auth_failure E (str_prefix 500 error_str)
       else notify_api_error E "GraphQL Error" (str_prefix 500 error_str)) ;;;
      ret true
    else ret false
  else ret false.

(** [_check_and_notify_error(response, data)]. *)
Definition _check_and_notify_error (response : option response) (data : json)
  : M world bool :=
  match response with
  | Some r =>
      if is_auth_status (status_code r) then
        notify_auth_failure E
          ("HTTP " ++ str_of_int (status_code r)
           ++ ": Authentication/authorization failed")%string ;;;
        ret true
      else check_graphql_errors data
  | None => check_graphql_errors data
  end.

(** [_save_companies_to_json(companies_data, batch_number)]. *)
Definition _save_companies_to_json (companies_data : list json) (number : Z)
  : M world unit :=
  let filename :=
    ("harmonic_companies_batch_" ++ format_03d number ++ ".json")%string in
  modify (add_file (BatchFile number filename
                      (JObj [("companies", JArr companies_data)]))).

(** [_save_all_companies_to_json(all_companies)]. *)
Definition _save_all_companies_to_json (all_companies : list json)
  : M world unit :=
  modify (add_file (OutputFile "harmonic_companies_output.json"
                      (JObj [("companies", JArr all_companies)]))).

(** [_apply_human_like_delay(start_time, last_long_break)].  The method
    returns nothing; the model hands back the value its parameter
    [last_long_break] holds when the method ends, paired with whether the
    long branch ran. *)
Definition _apply_human_like_delay (start_time last_long_break : Z)
  : M world (bool * Z) :=
  current_time <- datetime_now E ;;
  let time_since_last_long_break := (current_time - last_long_break)%Z in
  if (time_since_last_long_break >=? three_minutes)%Z then
    long_delay <- random_uniform E (60 * 3) (60 * 5) ;;
    time_sleep long_delay ;;;
    ret (true, current_time)
  else
    delay <- random_uniform E 2 8 ;;
    time_sleep delay ;;;
    ret (false, last_long_break).

(** [data["data"]["getSavedSearch"]["results"]] (line 119). *)
Definition saved_search_results (data : json) : result json :=
  and_then (subscript data "data") (fun d =>
  and_then (subscript d "getSavedSearch") (fun saved_search =>
  subscript saved_search "results")).

(** Lines 111 to 148: what one pass does with the response it got. *)
Definition process_response (max_pages batch_size : Z) (st : locals)
  (response : response) : M world (control * locals) :=
  data <- lift (response_json response) ;;
  is_error <- _check_and_notify_error (Some response) data ;;
  if (is_error : bool) then
    (* the argument of the print on line 115 *)
    lift (get data "errors"
            (JStr ("HTTP " ++ str_of_int (status_code response))%string)) ;;;
    ret (Break StopError, st)
  else
    search_companies <- lift (saved_search_results data) ;;
    edges <- lift (subscript search_companies "edges") ;;
    new_edges <- lift (iterate edges) ;;
    let all_edges' := (all_edges st ++ new_edges)%list in
    let batch := (current_batch st ++ new_edges)%list in
    lift (len edges) ;;;
    total_count' <-
      (if is_none (total_count st)
       then lift (get search_companies "totalCount" JNull)
       else ret (total_count st)) ;;
    flushed <-
      (if (Z.of_nat (List.length batch) >=? batch_size)%Z
       then _save_companies_to_json batch (batch_number st) ;;;
            ret ([], (batch_number st + 1)%Z)
       else ret (batch, batch_number st)) ;;
    let st1 :=
      {| all_edges := all_edges'; total_count := total_count';
         page := page st; current_batch := fst flushed;
         batch_number := snd flushed; payload := payload st;
         start_time := start_time st;
         last_long_break := last_long_break st |} in
    page_info <- lift (subscript search_companies "pageInfo") ;;
    has_next <- lift (subscript page_info "hasNextPage") ;;
    if negb (truthy has_next) then ret (Break StopExhausted, st1)
    else if (page st >=? max_pages)%Z then ret (Break StopPageLimit, st1)
    else
      end_cursor <- lift (subscript page_info "endCursor") ;;
      variables <- lift (subscript (payload st) "variables") ;;
      variables' <- lift (setitem variables "after" end_cursor) ;;
      payload' <- lift (setitem (payload st) "variables" variables') ;;
      _apply_human_like_delay (start_time st) (last_long_break st) ;;;
      ret (Continue,
           {| all_edges := all_edges'; total_count := total_count';
              page := (page st + 1)%Z; current_batch := fst flushed;
              batch_number := snd flushed; payload := payload';
              start_time := start_time st;
              last_long_break := last_long_break st |}).

(** One pass through the body of the [while True] loop (lines 109 to 148). *)
Definition loop_body (max_pages batch_size : Z) (st : locals)
  : M world (control * locals) :=
  response <- requests_post E base_url (payload st) ;;
  process_response max_pages batch_size st response.

(** The [while True] loop, with a bound on the passes. *)
Fixpoint pagination_loop (fuel : nat) (max_pages batch_size : Z) (st : locals)
  : M world (option (stop * locals)) :=
  match fuel with
  | O => ret None
  | S fuel' =>
      r <- loop_body max_pages batch_size st ;;
      match fst r with
      | Break reason => ret (Some (reason, snd r))
      | Continue => pagination_loop fuel' max_pages batch_size (snd r)
      end
  end.

(** The passes the loop can take: [page] starts at 1, grows by one per pass
    and the pass with [page >= max_pages] is the last. *)
Definition passes (max_pages : Z) : nat := Z.to_nat (Z.max 1 max_pages).

(** Lines 150 to 164: flush the remainder, write the consolidated file and
    build the returned dictionary. *)
Definition finish (reason : stop) (st : locals) : M world run :=
  (match current_batch st with
   | [] => ret tt
   | _ => _save_companies_to_json (current_batch st) (batch_number st)
   end) ;;;
  _save_all_companies_to_json (all_edges st) ;;;
  ret {| returned := {| r_total_count := total_count st;
                        r_companies := all_edges st;
                        r_pages_fetched := page st |};
         exit := reason |}.

(** Lines 91 to 94: the payload out of the [query] argument. *)
Definition payload_of (query : query_arg) : json :=
  match query with
  | QueryStr q => JObj [("query", JStr q)]
  | QueryData d => d
  end.

Definition initial_locals (query : query_arg) (t0 : Z) : locals :=
  {| all_edges := []; total_count := JNull; page := 1; current_batch := [];
     batch_number := 1; payload := payload_of query;
     start_time := t0; last_long_break := t0 |}.

(** [get_company_saved_search_results(query, max_pages, batch_size)];
    [None] would mean that the bound [passes max_pages] was too small. *)
Definition get_company_saved_search_results
  (query : query_arg) (max_pages batch_size : Z) : M world (option run) :=
  t0 <- datetime_now E ;;
  out <- pagination_loop (passes max_pages) max_pages batch_size
           (initial_locals query t0) ;;
  match out with
  | None => ret None
  | Some (reason, st) => r <- finish reason st ;; ret (Some r)
  end.

(** ** [add_saved_search_id], [get_companies_by_id], [add_company_ids] *)

(** [add_saved_search_id(query_data, saved_search_id)]; [JNull] is the
    [None] of the invalid structure.  The method writes into the dictionary
    it was given and returns it. *)
Definition add_saved_search_id (query_data saved_search_id : json) : result json :=
  let? valid :=
    (if truthy query_data then
       let? has_variables := contains "variables" query_data in
       if (has_variables : bool) then
         let? variables := subscript query_data "variables" in
         contains "idOrUrn" variables
       else Ok false
     else Ok false) in
  if (valid : bool) then
    let? variables := subscript query_data "variables" in
    let? variables' := setitem variables "idOrUrn" (JStr (py_str saved_search_id)) in
    setitem query_data "variables" variables'
  else Ok JNull.

Definition by_ids_url : string := "https://api.harmonic.ai/graphql?GetCompaniesByIds".

(** [open(path, "w")] for a path below a directory of the working
    directory: [FileNotFoundError] when that directory is not there. *)
Definition open_below (dir_there : bool) (path : string) : M world unit :=
  if dir_there then ret tt else throw (FileNotFoundError path).

(** [get_companies_by_id(query)]; [package_dir] says whether the working
    directory has the directory [harmonic_client] the output goes to. *)
Definition get_companies_by_id (package_dir : bool) (query : json)
  : M world json :=
  response <- requests_post E by_ids_url query ;;
  data <- lift (response_json response) ;;
  _check_and_notify_error (Some response) data ;;;
  open_below package_dir "harmonic_client/company_by_id_output.json" ;;;
  modify (add_file (OutputFile "harmonic_client/company_by_id_output.json" data)) ;;;
  ret data.

(** [new_id == x] for an [int] [new_id]: an [int] equals the same [int]
    and, [bool] being a subclass of [int], [True] is 1 and [False] is 0. *)
Definition int_eq (new_id : Z) (x : json) : bool :=
  match x with
  | JInt m => (new_id =? m)%Z
  | JBool b => (new_id =? (if b then 1 else 0))%Z
  | _ => false
  end.

(** The body of the [for] loop of [add_company_ids] (lines 224 and 225) on
    the object [existing_ids] is bound to. *)
Definition add_company_id (existing_ids : json) (new_id : Z) : result json :=
  match existing_ids with
  | JArr l =>
      if existsb (int_eq new_id) l then Ok existing_ids
      else Ok (JArr (l ++ [JInt new_id]))
  | JObj _ => Raise AttributeError   (* no key is an int; a dict has no append *)
  | _ => Raise TypeError             (* [int in str], or not iterable *)
  end.

Fixpoint add_each (existing_ids : json) (new_ids : list Z) : result json :=
  match new_ids with
  | [] => Ok existing_ids
  | new_id :: rest =>
      let? existing_ids' := add_company_id existing_ids new_id in
      add_each existing_ids' rest
  end.

(** The [new_ids] argument: one [int], or a list of them. *)
Inductive ids_arg : Type :=
| OneId (new_id : Z)
| ManyIds (new_ids : list Z).

(** [add_company_ids(query_data, new_ids)]; [JNull] is the [None] of the
    invalid structure.  [existing_ids] is the list inside [query_data]:
    what is appended to it is in the dictionary the method returns. *)
Definition add_company_ids (query_data : json) (new_ids : ids_arg) : result json :=
  let? valid :=
    (if truthy query_data then
       let? has_variables := contains "variables" query_data in
       if (has_variables : bool) then
         let? variables := subscript query_data "variables" in
         contains "ids" variables
       else Ok false
     else Ok false) in
  if (valid : bool) then
    let? variables := subscript query_data "variables" in
    let? existing_ids := subscript variables "ids" in
    let new_ids := match new_ids with OneId n => [n] | ManyIds l => l end in
    let? existing_ids' := add_each existing_ids new_ids in
    let? _ := len existing_ids' in           (* the print on line 227 *)
    let? variables' := setitem variables "ids" existing_ids' in
    setitem query_data "variables" variables'
  else Ok JNull.

(** ** [search_people] *)

(** The dictionary [search_people] returns. *)
Record people_result : Type := {
  p_total_count : json;
  p_people : list json;
  p_pages_fetched : Z
}.

(** [_save_people_to_json(people_data, batch_number)]. *)
Definition _save_people_to_json (people_data : list json) (number : Z)
  : M world unit :=
  let filename :=
    ("harmonic_output_batch_" ++ format_03d number ++ ".json")%string in
  modify (add_file (BatchFile number filename
                      (JObj [("people", JArr people_data)]))).

(** [_save_all_people_to_json(all_people)]. *)
Definition _save_all_people_to_json (all_people : list json) : M world unit :=
  modify (add_file (OutputFile "harmonic_output.json"
                      (JObj [("people", JArr all_people)]))).

(** Lines 260 to 297: what one pass of [search_people] does with the
    response it got. *)
Definition process_people_response (max_pages batch_size : Z) (st : locals)
  (response : response) : M world (control * locals) :=
  data <- lift (response_json response) ;;
  is_error <- _check_and_notify_error (Some response) data ;;
  if (is_error : bool) then
    lift (get data "errors"
            (JStr ("HTTP " ++ str_of_int (status_code response))%string)) ;;;
    ret (Break StopError, st)
  else
    search_people <-
      lift (and_then (subscript data "data") (fun d => subscript d "searchPeople")) ;;
    edges <- lift (subscript search_people "edges") ;;
    new_edges <- lift (iterate edges) ;;
    let all_edges' := (all_edges st ++ new_edges)%list in
    let batch := (current_batch st ++ new_edges)%list in
    lift (len edges) ;;;
    total_count' <-
      (if is_none (total_count st)
       then lift (get search_people "totalCount" JNull)
       else ret (total_count st)) ;;
    flushed <-
      (if (Z.of_nat (List.length batch) >=? batch_size)%Z
       then _save_people_to_json batch (batch_number st) ;;;
            ret ([], (batch_number st + 1)%Z)
       else ret (batch, batch_number st)) ;;
    let st1 :=
      {| all_edges := all_edges'; total_count := total_count';
         page := page st; current_batch := fst flushed;
         batch_number := snd flushed; payload := payload st;
         start_time := start_time st;
         last_long_break := last_long_break st |} in
    page_info <- lift (subscript search_people "pageInfo") ;;
    has_next <- lift (subscript page_info "hasNextPage") ;;
    if negb (truthy has_next) then ret (Break StopExhausted, st1)
    else if (page st >=? max_pages)%Z then ret (Break StopPageLimit, st1)
    else
      end_cursor <- lift (subscript page_info "endCursor") ;;
      variables <- lift (subscript (payload st) "variables") ;;
      variables' <- lift (setitem variables "after" end_cursor) ;;
      payload' <- lift (setitem (payload st) "variables" variables') ;;
      _apply_human_like_delay (start_time st) (last_long_break st) ;;;
      ret (Continue,
           {| all_edges := all_edges'; total_count := total_count';
              page := (page st + 1)%Z; current_batch := fst flushed;
              batch_number := snd flushed; payload := payload';
              start_time := start_time st;
              last_long_break := last_long_break st |}).

(** One pass through the [while True] loop of [search_people]. *)
Definition people_loop_body (max_pages batch_size : Z) (st : locals)
  : M world (control * locals) :=
  response <- requests_post E base_url (payload st) ;;
  process_people_response max_pages batch_size st response.

Fixpoint people_loop (fuel : nat) (max_pages batch_size : Z) (st : locals)
  : M world (option (stop * locals)) :=
  match fuel with
  | O => ret None
  | S fuel' =>
      r <- people_loop_body max_pages batch_size st ;;
      match fst r with
      | Break reason => ret (Some (reason, snd r))
      | Continue => people_loop fuel' max_pages batch_size (snd r)
      end
  end.

(** Lines 299 to 313. *)
Definition finish_people (st : locals) : M world people_result :=
  (match current_batch st with
   | [] => ret tt
   | _ => _save_people_to_json (current_batch st) (batch_number st)
   end) ;;;
  _save_all_people_to_json (all_edges st) ;;;
  ret {| p_total_count := total_count st;
         p_people := all_edges st;
         p_pages_fetched := page st |}.

(** [search_people(query, max_pages, batch_size)]: the payload is
    [{"query": query}] whatever [query] is; [None] would mean that the
    bound [passes max_pages] was too small. *)
Definition search_people (query : json) (max_pages batch_size : Z)
  : M world (option people_result) :=
  t0 <- datetime_now E ;;
  out <- people_loop (passes max_pages) max_pages batch_size
           {| all_edges := []; total_count := JNull; page := 1;
              current_batch := []; batch_number := 1;
              payload := JObj [("query", query)];
              start_time := t0; last_long_break := t0 |} ;;
  match out with
  | None => ret None
  | Some (_, st) => r <- finish_people st ;; ret (Some r)
  end.

End Client.

End HarmonicClient.

(* ================================================================== *)
(** * The GraphQL documents *)
(* ================================================================== *)

(** The static [query] texts of the payloads, as they stand in the sources. *)
Module Documents.

(** GetPersonEducation, in [get_full_profile.py] and [get_education.py]. *)
Definition GetPersonEducation : string :=
"fragment School on School {
  name
  linkedinUrl
  logoUrl
  __typename
}

fragment Education on EducationMetadata {
  school {
    ...School
    __typename
  }
  degree
  field
  grade
  startDate
  endDate
  __typename
}

query GetPersonEducation($id: Int!) {
  getPersonById(id: $id) {
    id
    education {
      ...Education
      __typename
    }
    __typename
  }
}".

(** GetPersonExperience, in [get_full_profile.py], [get_experience.py] and [get_profile.py]. *)
Definition GetPersonExperience : string :=
"fragment PersonExperience on ExperienceMetadata {
  title
  department
  description
  company {
    id
    logoUrl
    name
    headcount
    fundingPerEmployee
    funding {
      fundingTotal
      fundingStage
      investors {
        __typename
        ... on Company {
          companyUrn: entityUrn
          logoUrl
          name
          id
          investorUrn
          __typename
        }
        ... on Person {
          personUrn: entityUrn
          logoUrl: profilePictureUrl
          name: fullName
          id
          investorUrn
          __typename
        }
      }
      fundingRounds {
        announcementDate
        fundingAmount
        fundingCurrency
        fundingRoundType
        sourceUrl
        investors {
          entityUrn
          investor {
            __typename
            ... on Company {
              companyUrn: entityUrn
              name
              id
              __typename
            }
            ... on Person {
              personUrn: entityUrn
              name: fullName
              id
              __typename
            }
          }
          investorName
          isLead
          __typename
        }
        __typename
      }
      __typename
    }
    highlights {
      category
      text
      __typename
    }
    foundingDate {
      date
      __typename
    }
    socials {
      linkedin {
        url
        __typename
      }
      __typename
    }
    tractionMetrics {
      headcount {
        ago90d {
          percentChange
          value
          change
          __typename
        }
        metrics {
          timestamp
          metricValue
          __typename
        }
        __typename
      }
      __typename
    }
    relatedCompanies {
      priorStealthAssociation {
        emergenceDate
        previouslyKnownAs
        __typename
      }
      __typename
    }
    __typename
  }
  startDate
  endDate
  isCurrentPosition
  __typename
}

query GetPersonExperience($id: Int!) {
  getPersonById(id: $id, extended: false) {
    id
    experience {
      ...PersonExperience
      __typename
    }
    __typename
  }
}".

(** GetPersonProfileHeader, in [get_full_profile.py]. *)
Definition GetPersonProfileHeader : string :=
"query GetPersonProfileHeader($id: Int!) {
  getPersonById(id: $id) {
    id
    fullName
    highlights {
      category
      text
      __typename
    }
    __typename
  }
}".

(** TypeaheadSearchWithInvestors, in [search_name.py]. *)
Definition TypeaheadSearchWithInvestors : string :=
"query TypeaheadSearchWithInvestors($query: String!) {
  ...TypeaheadCompaniesWithBase
  ...TypeaheadPeople
  ...TypeaheadInvestor
}

fragment TypeaheadCompaniesWithBase on Query {
  getCompaniesWithTypeahead(query: $query) {
    ...BaseCompany
    __typename
  }
  __typename
}

fragment BaseCompany on Company {
  id
  entityUrn
  name
  logoUrl
  description
  shortDescription
  userNotes
  teamNotes
  website {
    url
    domain
    __typename
  }
  location {
    state
    city
    country
    __typename
  }
  foundingDate {
    date
    __typename
  }
  funding {
    lastFundingType
    lastFundingAt
    fundingStage
    fundingTotal
    __typename
  }
  headcount
  webTraffic
  socials {
    ...Socials
    __typename
  }
  initializedDate
  updatedAt
  legal_name: legalName
  external_description: externalDescription
  logo_url: logoUrl
  created_at: initializedDate
  redirectUrn
  __typename
}

fragment Socials on Socials {
  linkedin {
    status
    url
    followerCount
    __typename
  }
  crunchbase {
    status
    url
    followerCount
    __typename
  }
  pitchbook {
    status
    url
    followerCount
    __typename
  }
  angellist {
    status
    url
    followerCount
    __typename
  }
  twitter {
    status
    url
    followerCount
    __typename
  }
  facebook {
    status
    url
    likeCount
    __typename
  }
  instagram {
    url
    followerCount
    status
    __typename
  }
  indeed {
    url
    followerCount
    status
    __typename
  }
  youtube {
    url
    followerCount
    status
    __typename
  }
  monster {
    url
    followerCount
    status
    __typename
  }
  stackoverflow {
    url
    followerCount
    status
    __typename
  }
  __typename
}

fragment TypeaheadPeople on Query {
  getPeopleWithTypeahead(query: $query) {
    ...GetPeopleWithTypeahead
    __typename
  }
  __typename
}

fragment GetPeopleWithTypeahead on Person {
  id
  fullName
  experience {
    company {
      id
      name
      __typename
    }
    title
    department
    isCurrentPosition
    __typename
  }
  watchlists {
    id
    __typename
  }
  profilePictureUrl
  __typename
}

fragment TypeaheadInvestor on Query {
  getInvestorsWithTypeahead(query: $query) {
    investors {
      ...GetInvestorWithTypeahead
      __typename
    }
    __typename
  }
  __typename
}

fragment GetInvestorWithTypeahead on InternalInvestor {
  entityUrn
  details {
    ... on Company {
      id
      name
      logoUrl
      location {
        city
        state
        country
        __typename
      }
      website {
        domain
        __typename
      }
      __typename
    }
    ... on Person {
      id
      name: fullName
      logoUrl: profilePictureUrl
      location {
        city
        state
        country
        __typename
      }
      __typename
    }
    __typename
  }
  __typename
}".

(** GetPersonLinkedIn, in [sync_harmonic_to_bigquery.py]. *)
Definition GetPersonLinkedIn : string :=
"query GetPersonLinkedIn($id: Int!) {
  getPersonById(id: $id) {
    id
    fullName
    socials {
      linkedin {
        url
        __typename
      }
      __typename
    }
    __typename
  }
}".

End Documents.

(* ================================================================== *)
(** * The detail clients *)
(* ================================================================== *)

(** [_make_request] has the same text in [get_full_profile.py],
    [get_education.py], [get_experience.py], [get_profile.py] and
    [search_name.py]. *)
Module GraphQL.

Import HarmonicErrorNotifier.

Definition BASE_URL : string := "https://api.harmonic.ai/graphql".

Definition auth_keywords : list string :=
  ["unauthorized"; "unauthenticated"; "token"; "expired"; "forbidden"].

Section Request.
Context (E : env) {R : Runtime}.

(** [_make_request(operation_name, payload)]. *)
Definition _make_request (operation_name : string) (payload : json)
  : M world json :=
  let url := (BASE_URL ++ "?" ++ operation_name)%string in
  response <- requests_post E url payload ;;
  (if orb (status_code response =? 401)%Z (status_code response =? 403)%Z
   then notify_auth_failure E
          ("HTTP " ++ str_of_int (status_code response) ++ ": "
           ++ operation_name)%string ;;; ret tt
   else ret tt) ;;;
  lift (raise_for_status response) ;;;
  data <- lift (response_json response) ;;
  has_errors <- lift (contains "errors" data) ;;
  (if (has_errors : bool) then
     errors <- lift (subscript data "errors") ;;
     let error_str := str_prefix 500 (json_dumps errors) in
     if existsb (fun kw => str_contains kw (lower error_str)) auth_keywords
     then notify_auth_failure E error_str ;;; ret tt
     else notify_api_error E "GraphQL Error" error_str ;;; ret tt
   else ret tt) ;;;
  ret data.

(** [raise Exception(f"GraphQL errors: {data['errors']}")]. *)
Definition raise_graphql_errors {A} (data : json) : M world A :=
  errors <- lift (subscript data "errors") ;;
  throw (PlainException ("GraphQL errors: " ++ py_str errors)%string).

End Request.

(** The payload of a by-id operation. *)
Definition by_id_payload (operation_name : string) (person_id : Z)
  (document : string) : json :=
  JObj [("operationName", JStr operation_name);
        ("variables", JObj [("id", JInt person_id)]);
        ("query", JStr document)].

End GraphQL.

Module HarmonicFullProfileClient.

Import GraphQL.

(** What a Python [dict] key is compared by: [True == 1] and [False == 0]
    as keys, a list or a dict is not hashable. *)
Inductive hashed : Type :=
| HNone
| HNum (n : Z)
| HStr (s : string).

Definition hash_key (v : json) : result hashed :=
  match v with
  | JNull => Ok HNone
  | JBool b => Ok (HNum (if b then 1 else 0))
  | JInt n => Ok (HNum n)
  | JStr s => Ok (HStr s)
  | JArr _ | JObj _ => Raise TypeError
  end.

Definition hashed_eqb (a b : hashed) : bool :=
  match a, b with
  | HNone, HNone => true
  | HNum m, HNum n => (m =? n)%Z
  | HStr s, HStr t => String.eqb s t
  | _, _ => false
  end.

(** [list(dict.fromkeys(values))]: the first occurrence of every key, in
    order. *)
Fixpoint fromkeys (seen : list hashed) (values : list json) : result (list json) :=
  match values with
  | [] => Ok []
  | v :: rest =>
      and_then (hash_key v) (fun k =>
        if existsb (hashed_eqb k) seen then fromkeys seen rest
        else and_then (fromkeys (k :: seen) rest) (fun tl => Ok (v :: tl)))
  end.

(** [[h.get("category", "") for h in highlights if h.get("category")]]. *)
Fixpoint categories_of (highlights : list json) : result (list json) :=
  match highlights with
  | [] => Ok []
  | h :: rest =>
      and_then (get h "category" JNull) (fun c =>
        if truthy c
        then and_then (get h "category" (JStr EmptyString)) (fun c' =>
             and_then (categories_of rest) (fun tl => Ok (c' :: tl)))
        else categories_of rest)
  end.

Section Client.
Context (E : env) {R : Runtime}.

(** [get_education(person_id)]. *)
Definition get_education (person_id : Z) : M world json :=
  let payload :=
    by_id_payload "GetPersonEducation" person_id Documents.GetPersonEducation in
  data <- _make_request E "GetPersonEducation" payload ;;
  has_errors <- lift (contains "errors" data) ;;
  if (has_errors : bool) then raise_graphql_errors data
  else
    d <- lift (get data "data" (JObj [])) ;;
    result <- lift (get d "getPersonById" (JObj [])) ;;
    lift (get result "education" (JArr [])).

(** [get_experience(person_id)]. *)
Definition get_experience (person_id : Z) : M world json :=
  let payload :=
    by_id_payload "GetPersonExperience" person_id Documents.GetPersonExperience in
  data <- _make_request E "GetPersonExperience" payload ;;
  has_errors <- lift (contains "errors" data) ;;
  if (has_errors : bool) then raise_graphql_errors data
  else
    d <- lift (get data "data" (JObj [])) ;;
    result <- lift (get d "getPersonById" (JObj [])) ;;
    lift (get result "experience" (JArr [])).

(** [get_person_highlights(person_id)]. *)
Definition get_person_highlights (person_id : Z) : M world json :=
  let payload :=
    by_id_payload "GetPersonProfileHeader" person_id
      Documents.GetPersonProfileHeader in
  data <- _make_request E "GetPersonProfileHeader" payload ;;
  has_errors <- lift (contains "errors" data) ;;
  if (has_errors : bool) then ret (JArr [])
  else
    d <- lift (get data "data" (JObj [])) ;;
    person <- lift (get d "getPersonById" (JObj [])) ;;
    highlights <- lift (get person "highlights" (JArr [])) ;;
    items <- lift (iterate highlights) ;;
    categories <- lift (categories_of items) ;;
    unique <- lift (fromkeys [] categories) ;;
    ret (JArr unique).

(** One [try: profile[key] = fetch(person_id) except Exception as e:
    profile["errors"].append(f"{label}: {str(e)}")] of [get_full_profile]. *)
Definition guarded (label : string) (fetch : M world json) (default : json)
  : M world (json * list string) :=
  try_except (v <- fetch ;; ret (v, []))
             (fun e => ret (default, [(label ++ ": " ++ str_of_exn e)%string])).

(** [get_full_profile(person_id)]. *)
Definition get_full_profile (person_id : Z) : M world json :=
  h <- guarded "Highlights" (get_person_highlights person_id) (JArr []) ;;
  ed <- guarded "Education" (get_education person_id) (JArr []) ;;
  ex <- guarded "Experience" (get_experience person_id) (JArr []) ;;
  ret (JObj [("person_id", JInt person_id);
             ("highlights", fst h);
             ("education", fst ed);
             ("experience", fst ex);
             ("errors", JArr (map JStr (snd h ++ snd ed ++ snd ex)%list))]).

End Client.

End HarmonicFullProfileClient.

Module HarmonicEducationClient.

Import GraphQL.

Section Client.
Context (E : env) {R : Runtime}.

(** [get_person_education(person_id)]. *)
Definition get_person_education (person_id : Z) : M world json :=
  let payload :=
    by_id_payload "GetPersonEducation" person_id Documents.GetPersonEducation in
  data <- _make_request E "GetPersonEducation" payload ;;
  has_errors <- lift (contains "errors" data) ;;
  if (has_errors : bool) then raise_graphql_errors data
  else
    d <- lift (get data "data" (JObj [])) ;;
    lift (get d "getPersonById" (JObj [])).

(** [get_education_list(person_id)]. *)
Definition get_education_list (person_id : Z) : M world json :=
  result <- get_person_education person_id ;;
  lift (get result "education" (JArr [])).

End Client.

End HarmonicEducationClient.

(** [get_person_experience] has the same text in [get_experience.py]
    (class [HarmonicExperienceClient]) and [get_profile.py] (class
    [HarmonicProfileClient]). *)
Module HarmonicExperienceClient.

Import GraphQL.

Section Client.
Context (E : env) {R : Runtime}.

(** [get_person_experience(person_id)]. *)
Definition get_person_experience (person_id : Z) : M world json :=
  let payload :=
    by_id_payload "GetPersonExperience" person_id Documents.GetPersonExperience in
  data <- _make_request E "GetPersonExperience" payload ;;
  has_errors <- lift (contains "errors" data) ;;
  if (has_errors : bool) then raise_graphql_errors data
  else
    d <- lift (get data "data" (JObj [])) ;;
    lift (get d "getPersonById" (JObj [])).

End Client.

End HarmonicExperienceClient.

Module HarmonicSearchClient.

Import GraphQL.

Section Client.
Context (E : env) {R : Runtime}.

(** [search(query)]. *)
Definition search (query : string) : M world json :=
  let payload :=
    JObj [("operationName", JStr "TypeaheadSearchWithInvestors");
          ("variables", JObj [("query", JStr query)]);
          ("query", JStr Documents.TypeaheadSearchWithInvestors)] in
  data <- _make_request E "TypeaheadSearchWithInvestors" payload ;;
  has_errors <- lift (contains "errors" data) ;;
  if (has_errors : bool) then raise_graphql_errors data
  else lift (get data "data" (JObj [])).

End Client.

End HarmonicSearchClient.

(* ================================================================== *)
(** * sync_harmonic_to_bigquery.py *)
(* ================================================================== *)

Module HarmonicToBigQuerySync.

Import HarmonicErrorNotifier.

Definition PROJECT_ID : string := "chapter-one-340115".
Definition DATASET : string := "linkedin_internal".
Definition HARMONIC_BASE_URL : string := "https://api.harmonic.ai/graphql".

(** [f"{self.PROJECT_ID}.{self.DATASET}.{table_name}"]. *)
Definition table_ref (table_name : string) : string :=
  (PROJECT_ID ++ "." ++ DATASET ++ "." ++ table_name)%string.

(** One entry of the [results] dictionary of [sync_person]; the mapping
    entry has no ["data"] key and keeps [JNull] there. *)
Record table_report : Type := {
  t_exists : bool;
  t_inserted : Z;
  t_skipped : bool;
  t_data : json
}.

(** The [results] dictionary of [sync_person]. *)
Record sync_report : Type := {
  s_harmonic_id : Z;
  s_linkedin_id : string;
  s_mapping : table_report;
  s_education : table_report;
  s_experience : table_report;
  s_profile : table_report;
  s_errors : list string
}.

Definition skipped_report (initial_data : json) : table_report :=
  {| t_exists := true; t_inserted := 0; t_skipped := true;
     t_data := initial_data |}.

Definition inserted_report (n : Z) (data : json) : table_report :=
  {| t_exists := false; t_inserted := n; t_skipped := false; t_data := data |}.

(** The entries as [sync_person] creates them (lines 523 to 531). *)
Definition untouched_report (initial_data : json) : table_report :=
  {| t_exists := false; t_inserted := 0; t_skipped := false;
     t_data := initial_data |}.

(** ** The warehouse *)

Fixpoint rows_of (table : string) (t : list (string * list json)) : list json :=
  match t with
  | [] => []
  | (name, rows) :: rest =>
      if String.eqb table name then rows else rows_of table rest
  end.

Fixpoint append_rows (table : string) (new : list json)
  (t : list (string * list json)) : list (string * list json) :=
  match t with
  | [] => [(table, new)]
  | (name, rows) :: rest =>
      if String.eqb table name then (name, (rows ++ new)%list) :: rest
      else (name, rows) :: append_rows table new rest
  end.

(** [WHERE column = @key] on one row. *)
Definition row_matches (column key : string) (row : json) : bool :=
  match row with
  | JObj kvs =>
      match dict_find column kvs with
      | Some v => is_str key v
      | None => false
      end
  | _ => false
  end.

(** [SELECT COUNT( * ) ... WHERE column = @key], then [row.count > 0] on the
    one row of the answer. *)
Definition count_query (table column key : string) : M world bool :=
  fun w =>
    (Ok (0 <? Z.of_nat (List.length
                          (filter (row_matches column key)
                                  (rows_of table (tables w)))))%Z,
     add_bq (CountQuery table column key) w).

Section Sync.
Context (E : env) {R : Runtime}.

(** The collaborator [self.harmonic_client.get_full_profile]. *)
Context (harmonic_client_get_full_profile : Z -> M world json).

(** [self.bq_client.insert_rows_json(table, rows)]: the answer is the list
    of row errors; a request with an error inserts nothing. *)
Definition insert_rows_json (table : string) (rows : list json)
  : M world (list json) :=
  fun w =>
    let errors := insert_errors E table rows in
    (Ok errors,
     add_bq (InsertRows table rows)
       (match errors with
        | [] => set_tables (append_rows table rows (tables w)) w
        | _ => w
        end)).

(** [check_user_exists(table_name, linkedin_id)]. *)
Definition check_user_exists (table_name linkedin_id : string) : M world bool :=
  count_query (table_ref table_name) "linkedinId" linkedin_id.

(** [check_mapping_exists(linkedin_id)]. *)
Definition check_mapping_exists (linkedin_id : string) : M world bool :=
  count_query (table_ref "linkedin_harmonic_mapping") "linkedin_id" linkedin_id.

(** [get_linkedin_id_from_harmonic(harmonic_id)]. *)
Definition get_linkedin_id_from_harmonic (harmonic_id : Z)
  : M world (option (string * json)) :=
  let payload :=
    JObj [("operationName", JStr "GetPersonLinkedIn");
          ("variables", JObj [("id", JInt harmonic_id)]);
          ("query", JStr Documents.GetPersonLinkedIn)] in
  try_except
    (response <- requests_post E (HARMONIC_BASE_URL ++ "?GetPersonLinkedIn")%string
                   payload ;;
     (if orb (status_code response =? 401)%Z (status_code response =? 403)%Z
      then notify_auth_failure E
             ("HTTP " ++ str_of_int (status_code response)
              ++ ": get_linkedin_id_from_harmonic")%string ;;; ret tt
      else ret tt) ;;;
     lift (raise_for_status response) ;;;
     data <- lift (response_json response) ;;
     has_errors <- lift (contains "errors" data) ;;
     (if (has_errors : bool) then
        errors <- lift (subscript data "errors") ;;
        notify_api_error E "GraphQL Error" (str_prefix 500 (json_dumps errors)) ;;;
        ret tt
      else ret tt) ;;;
     d <- lift (get data "data" (JObj [])) ;;
     person <- lift (get d "getPersonById" (JObj [])) ;;
     full_name <- lift (get person "fullName" JNull) ;;
     socials <- lift (get person "socials" (JObj [])) ;;
     linkedin <- lift (get socials "linkedin" (JObj [])) ;;
     linkedin_url <- lift (get linkedin "url" JNull) ;;
     if truthy linkedin_url then
       url <- lift (as_str linkedin_url) ;;
       ret (Some (last_segment url, full_name))
     else ret None)
    (fun _ => ret None).

(** ** The transforms *)

(** [x = default; if entry.get(key): try: x = entry[key][:10] except: pass]. *)
Definition date_prefix (entry : json) (key : string) (default : json)
  : result json :=
  let? v := get entry key JNull in
  if truthy v then
    match and_then (subscript entry key) (slice_prefix 10) with
    | Ok d => Ok d
    | Raise _ => Ok default
    end
  else Ok default.

(** Lines 267 to 272: the school URN out of the LinkedIn URL. *)
Definition school_urn_of (linkedin_url : json) : result string :=
  if truthy linkedin_url then
    let? url := as_str linkedin_url in
    Ok ("urn:li:fs_miniSchool:" ++ last_segment url)%string
  else Ok EmptyString.

(** One pass of the loop of [transform_education]. *)
Definition education_row (linkedin_id : string) (idx : Z) (edu : json)
  : result json :=
  let? school := get edu "school" (JObj []) in
  let? school_name := get school "name" (JStr EmptyString) in
  let? linkedin_url := get school "linkedinUrl" (JStr EmptyString) in
  let? logo := get school "logoUrl" JNull in
  let logo_url := py_or logo (JStr EmptyString) in
  let? school_urn := school_urn_of linkedin_url in
  let? start_date := date_prefix edu "startDate" JNull in
  let? end_date := date_prefix edu "endDate" JNull in
  let entity_urn :=
    ("urn:li:fs_education:harmonic_" ++ linkedin_id ++ "_" ++ str_of_int idx)%string in
  let? field := get edu "field" JNull in
  let? degree := get edu "degree" JNull in
  let mini_school :=
    py_or (JStr school_urn)
          (JStr ("urn:li:fs_miniSchool:harmonic_" ++ str_of_int idx)%string) in
  Ok (JObj [("date", JStr (today E));
            ("linkedinId", JStr linkedin_id);
            ("entityUrn", JStr entity_urn);
            ("school_objectUrn",
             py_or (JStr school_urn)
                   (JStr ("urn:li:school:harmonic_" ++ str_of_int idx)%string));
            ("school_entityUrn", mini_school);
            ("school_active", JBool true);
            ("school_schoolName", school_name);
            ("school_trackingId",
             JStr ("harmonic_" ++ linkedin_id ++ "_" ++ str_of_int idx)%string);
            ("school_logoUrl", logo_url);
            ("startDate", start_date);
            ("endDate", end_date);
            ("schoolName", school_name);
            ("fieldOfStudy", py_or field (JStr EmptyString));
            ("schoolUrn", mini_school);
            ("degreeName", degree)]).

(** [for idx, x in enumerate(xs): rows.append(row(idx, x))]. *)
Fixpoint enumerate_rows (row : Z -> json -> result json) (idx : Z)
  (xs : list json) : result (list json) :=
  match xs with
  | [] => Ok []
  | x :: rest =>
      let? r := row idx x in
      let? tl := enumerate_rows row (idx + 1)%Z rest in
      Ok (r :: tl)
  end.

(** [transform_education(education_list, linkedin_id)]. *)
Definition transform_education (education_list : json) (linkedin_id : string)
  : M world (list json) :=
  modify (add_transform "transform_education") ;;;
  items <- lift (iterate education_list) ;;
  lift (enumerate_rows (education_row linkedin_id) 0 items).

(** One pass of the loop of [transform_experience]. *)
Definition experience_row (linkedin_id : string) (idx : Z) (exp : json)
  : result json :=
  let? company := get exp "company" (JObj []) in
  let? company_name := get company "name" (JStr EmptyString) in
  let? logo := get company "logoUrl" JNull in
  let logo_url := py_or logo (JStr EmptyString) in
  let? socials0 := get company "socials" JNull in
  let socials := py_or socials0 (JObj []) in
  let? linkedin0 := get socials "linkedin" JNull in
  let linkedin_info := py_or linkedin0 (JObj []) in
  let? company_linkedin_url := get linkedin_info "url" (JStr EmptyString) in
  let? start_date := date_prefix exp "startDate" (JStr EmptyString) in
  let? end_date := date_prefix exp "endDate" JNull in
  let entity_urn :=
    ("urn:li:fs_position:harmonic_" ++ linkedin_id ++ "_" ++ str_of_int idx)%string in
  let? company_id := get company "id" JNull in
  let company_urn :=
    if truthy company_id
    then JStr ("urn:li:fs_miniCompany:harmonic_" ++ py_str company_id)%string
    else JNull in
  let? description := get exp "description" JNull in
  let? title := get exp "title" JNull in
  Ok (JObj [("date", JStr (today E));
            ("linkedinId", JStr linkedin_id);
            ("entityUrn", JStr entity_urn);
            ("companyName", company_name);
            ("startDate", start_date);
            ("endDate", end_date);
            ("description", description);
            ("title", title);
            ("companyUrn", company_urn);
            ("companyLogoUrl", logo_url);
            ("locationName", JNull);
            ("geoLocationName", JNull);
            ("geoUrn", JNull);
            ("region", JNull)]).

(** [transform_experience(experience_list, linkedin_id)]. *)
Definition transform_experience (experience_list : json) (linkedin_id : string)
  : M world (list json) :=
  modify (add_transform "transform_experience") ;;;
  items <- lift (iterate experience_list) ;;
  lift (enumerate_rows (experience_row linkedin_id) 0 items).

(** Lines 378 to 385: the headline out of the first current position. *)
Fixpoint headline_of (experience : list json) : result json :=
  match experience with
  | [] => Ok JNull
  | exp :: rest =>
      let? current := get exp "isCurrentPosition" JNull in
      if truthy current then
        let? title := get exp "title" (JStr EmptyString) in
        let? company := get exp "company" (JObj []) in
        let? name := get company "name" (JStr EmptyString) in
        if andb (truthy title) (truthy name)
        then Ok (JStr (py_str title ++ " at " ++ py_str name)%string)
        else Ok JNull
      else headline_of rest
  end.

(** Lines 388 to 399: an education entry that ends this year or later. *)
Fixpoint is_student_of (education : list json) : result bool :=
  match education with
  | [] => Ok false
  | edu :: rest =>
      let? end_date := get edu "endDate" (JStr EmptyString) in
      if truthy end_date then
        match end_date with
        | JStr s =>
            match py_int (str_prefix 4 s) with
            | Some end_year =>
                if (end_year >=? current_year E)%Z then Ok true
                else is_student_of rest
            | None => is_student_of rest
            end
        | _ => is_student_of rest
        end
      else is_student_of rest
  end.

(** [transform_profile(harmonic_id, linkedin_id, education_list,
    experience_list)]. *)
Definition transform_profile (harmonic_id : Z) (linkedin_id : string)
  (education_list experience_list : json) : M world json :=
  modify (add_transform "transform_profile") ;;;
  experience <- lift (iterate experience_list) ;;
  headline <- lift (headline_of experience) ;;
  education <- lift (iterate education_list) ;;
  is_student <- lift (is_student_of education) ;;
  let profile_urn := ("urn:li:fs_profile:harmonic_" ++ str_of_int harmonic_id)%string in
  ret (JObj [("date", JStr (today E));
             ("linkedinId", JStr linkedin_id);
             ("industryName", JNull);
             ("lastName", JNull);
             ("locationName", JNull);
             ("student", JBool is_student);
             ("geoCountryName", JNull);
             ("geoCountryUrn", JNull);
             ("geoLocationBackfilled", JBool false);
             ("elt", JBool false);
             ("industryUrn", JNull);
             ("firstName", JNull);
             ("entityUrn", JStr profile_urn);
             ("geoLocation", JNull);
             ("geoLocationName", JNull);
             ("headline", headline);
             ("displayPictureUrl", JNull);
             ("img_100_100", JNull);
             ("img_200_200", JNull);
             ("img_400_400", JNull);
             ("img_800_800", JNull);
             ("profile_id", JStr (str_of_int harmonic_id));
             ("profile_urn", JStr profile_urn);
             ("member_urn",
              JStr ("urn:li:member:harmonic_" ++ str_of_int harmonic_id)%string);
             ("public_id", JStr linkedin_id)]).

(** ** The inserts *)

(** [insert_education(rows)]. *)
Definition insert_education (rows : list json) : M world Z :=
  match rows with
  | [] => ret 0%Z
  | _ =>
      errors <- insert_rows_json (table_ref "linkedin_education") rows ;;
      match errors with
      | [] => ret (Z.of_nat (List.length rows))
      | _ => ret 0%Z
      end
  end.

(** [insert_experience(rows)]. *)
Definition insert_experience (rows : list json) : M world Z :=
  match rows with
  | [] => ret 0%Z
  | _ =>
      errors <- insert_rows_json (table_ref "linkedin_experience") rows ;;
      match errors with
      | [] => ret (Z.of_nat (List.length rows))
      | _ => ret 0%Z
      end
  end.

(** [insert_profile(row)]. *)
Definition insert_profile (row : json) : M world Z :=
  errors <- insert_rows_json (table_ref "linkedin_profile") [row] ;;
  match errors with
  | [] => ret 1%Z
  | _ => ret 0%Z
  end.

(** [insert_mapping(harmonic_id, linkedin_id, full_name, linkedin_url)]. *)
Definition insert_mapping (harmonic_id : Z) (linkedin_id : string)
  (full_name : json) (linkedin_url : string) : M world Z :=
  let row :=
    JObj [("linkedin_id", JStr linkedin_id);
          ("harmonic_id", JInt harmonic_id);
          ("full_name", full_name);
          ("linkedin_url", JStr linkedin_url);
          ("created_at", JStr (utcnow_iso E 0));
          ("updated_at", JStr (utcnow_iso E 1))] in
  errors <- insert_rows_json (table_ref "linkedin_harmonic_mapping") [row] ;;
  match errors with
  | [] => ret 1%Z
  | _ => ret 0%Z
  end.

(** ** [sync_person] *)

(** Lines 551 to 564: the mapping table. *)
Definition sync_mapping (harmonic_id : Z) (linkedin_id : string)
  (full_name : json) (linkedin_url : string) (dry_run : bool)
  : M world table_report :=
  mapping_exists <- check_mapping_exists linkedin_id ;;
  if (mapping_exists : bool) then ret (skipped_report JNull)
  else if dry_run then ret (inserted_report 1 JNull)
  else
    inserted <- insert_mapping harmonic_id linkedin_id full_name linkedin_url ;;
    ret (inserted_report inserted JNull).

(** Lines 566 to 585: the education table. *)
Definition sync_education (linkedin_id : string) (education_list : json)
  (dry_run : bool) : M world table_report :=
  user_exists <- check_user_exists "linkedin_education" linkedin_id ;;
  if (user_exists : bool) then ret (skipped_report (JArr []))
  else
    edu_rows <- transform_education education_list linkedin_id ;;
    if dry_run
    then ret (inserted_report (Z.of_nat (List.length edu_rows)) (JArr edu_rows))
    else
      inserted <- insert_education edu_rows ;;
      ret (inserted_report inserted (JArr edu_rows)).

(** Lines 587 to 606: the experience table. *)
Definition sync_experience (linkedin_id : string) (experience_list : json)
  (dry_run : bool) : M world table_report :=
  user_exists <- check_user_exists "linkedin_experience" linkedin_id ;;
  if (user_exists : bool) then ret (skipped_report (JArr []))
  else
    exp_rows <- transform_experience experience_list linkedin_id ;;
    if dry_run
    then ret (inserted_report (Z.of_nat (List.length exp_rows)) (JArr exp_rows))
    else
      inserted <- insert_experience exp_rows ;;
      ret (inserted_report inserted (JArr exp_rows)).

(** Lines 608 to 628: the profile table. *)
Definition sync_profile (harmonic_id : Z) (linkedin_id : string)
  (education_list experience_list : json) (dry_run : bool)
  : M world table_report :=
  user_exists <- check_user_exists "linkedin_profile" linkedin_id ;;
  if (user_exists : bool) then ret (skipped_report JNull)
  else
    profile_row <- transform_profile harmonic_id linkedin_id
                     education_list experience_list ;;
    if dry_run then ret (inserted_report 1 profile_row)
    else
      inserted <- insert_profile profile_row ;;
      ret (inserted_report inserted profile_row).

(** Lines 541 to 630: what [sync_person] does with the profile it fetched.
    The [verbose] prints read fields of rows the transforms have just built
    and cannot raise; the print on line 544 takes [len] of both lists. *)
Definition sync_fetched (harmonic_id : Z) (linkedin_id : string)
  (dry_run verbose : bool) (profile_data : json) : M world sync_report :=
  education_list <- lift (get profile_data "education" (JArr [])) ;;
  experience_list <- lift (get profile_data "experience" (JArr [])) ;;
  lift (len education_list) ;;;
  lift (len experience_list) ;;;
  linkedin_info <- get_linkedin_id_from_harmonic harmonic_id ;;
  let full_name :=
    match linkedin_info with
    | Some (_, name) => name
    | None => JNull
    end in
  let linkedin_url := ("https://linkedin.com/in/" ++ linkedin_id)%string in
  mapping <- sync_mapping harmonic_id linkedin_id full_name linkedin_url
               dry_run ;;
  education <- sync_education linkedin_id education_list dry_run ;;
  experience <- sync_experience linkedin_id experience_list dry_run ;;
  profile <- sync_profile harmonic_id linkedin_id education_list
               experience_list dry_run ;;
  ret {| s_harmonic_id := harmonic_id; s_linkedin_id := linkedin_id;
         s_mapping := mapping; s_education := education;
         s_experience := experience; s_profile := profile;
         s_errors := [] |}.

(** The report of a failed fetch (lines 523 to 531 and 538). *)
Definition fetch_failed_report (harmonic_id : Z) (linkedin_id : string)
  (failure : string) : sync_report :=
  {| s_harmonic_id := harmonic_id; s_linkedin_id := linkedin_id;
     s_mapping := untouched_report JNull;
     s_education := untouched_report (JArr []);
     s_experience := untouched_report (JArr []);
     s_profile := untouched_report JNull;
     s_errors := [failure] |}.

(** [sync_person(harmonic_id, linkedin_id, dry_run, verbose)]. *)
Definition sync_person (harmonic_id : Z) (linkedin_id : string)
  (dry_run verbose : bool) : M world sync_report :=
  fetched <-
    try_except
      (profile_data <- harmonic_client_get_full_profile harmonic_id ;;
       ret (inl profile_data))
      (fun e =>
         ret (inr ("Failed to fetch from Harmonic: " ++ str_of_exn e)%string)) ;;
  match fetched with
  | inr failure => ret (fetch_failed_report harmonic_id linkedin_id failure)
  | inl profile_data =>
      sync_fetched harmonic_id linkedin_id dry_run verbose profile_data
  end.

End Sync.

End HarmonicToBigQuerySync.

(* ================================================================== *)
(** * lookup_by_linkedin.py *)
(* ================================================================== *)

(** The reader of the mapping table [sync_person] writes, and a caller of
    [get_full_profile]. *)
Module LinkedInToHarmonicLookup.

Import HarmonicToBigQuerySync.

(** A character of the model is a code point below 256, so a string is a
    [str] of such characters.  [c.isspace()] for them: the ASCII whitespace
    (9 to 13, 28 to 32), NEXT LINE (133) and NO-BREAK SPACE (160).  It is
    what [str.strip()] removes and what [\s] matches in a [str] pattern. *)
Definition is_space (c : ascii) : bool :=
  let n := nat_of_ascii c in
  orb (andb (Nat.leb 9 n) (Nat.leb n 13))
      (orb (andb (Nat.leb 28 n) (Nat.leb n 32))
           (orb (Nat.eqb n 133) (Nat.eqb n 160))).

Fixpoint lstrip (s : string) : string :=
  match s with
  | EmptyString => EmptyString
  | String c rest => if is_space c then lstrip rest else s
  end.

Fixpoint rstrip (s : string) : string :=
  match s with
  | EmptyString => EmptyString
  | String c rest =>
      match rstrip rest with
      | EmptyString => if is_space c then EmptyString else String c EmptyString
      | r => String c r
      end
  end.

(** [s.strip()]. *)
Definition strip (s : string) : string := rstrip (lstrip s).

(** The class [[^/?\s]] of the pattern. *)
Definition id_char (c : ascii) : bool :=
  negb (orb (Ascii.eqb c "/") (orb (Ascii.eqb c "?") (is_space c))).

(** The longest prefix of [s] in that class: what the greedy [[^/?\s]+]
    takes, when it is not empty. *)
Fixpoint id_prefix (s : string) : string :=
  match s with
  | EmptyString => EmptyString
  | String c rest => if id_char c then String c (id_prefix rest) else EmptyString
  end.

(** What follows a leading [/in/]. *)
Definition after_in (s : string) : option string :=
  if String.prefix "/in/" s then
    match s with
    | String _ (String _ (String _ (String _ rest))) => Some rest
    | _ => None
    end
  else None.

(** [re.search(r'/in/([^/?\s]+)', s)]: group 1 of the leftmost match. *)
Fixpoint search_in (s : string) : option string :=
  match s with
  | EmptyString => None
  | String _ rest =>
      match after_in s with
      | Some tail =>
          match id_prefix tail with
          | EmptyString => search_in rest
          | group => Some group
          end
      | None => search_in rest
      end
  end.

(** [extract_linkedin_id(url_or_id)]. *)
Definition extract_linkedin_id (url_or_id : string) : string :=
  let url_or_id := strip url_or_id in
  match (if str_contains "linkedin.com" url_or_id
         then search_in url_or_id else None) with
  | Some group => group
  | None => rstrip_slash url_or_id
  end.

(** A column of a row of the answer; a missing one is [NULL]. *)
Definition column (name : string) (row : json) : json :=
  match get row name JNull with
  | Ok v => v
  | Raise _ => JNull
  end.

(** [lookup_harmonic_id(linkedin_id)]: the [SELECT ... WHERE linkedin_id =
    @linkedin_id LIMIT 1] reads the mapping table; the first row of the
    answer is the first matching row of the table. *)
Definition lookup_harmonic_id (linkedin_id : string)
  : M world (option (json * json)) :=
  fun w =>
    (Ok match filter (row_matches "linkedin_id" linkedin_id)
                (rows_of (table_ref "linkedin_harmonic_mapping") (tables w)) with
        | [] => None
        | row :: _ => Some (column "harmonic_id" row, column "full_name" row)
        end,
     w).

(** The [result] dictionary of [lookup]. *)
Definition lookup_result (input linkedin_id : string) (harmonic_id full_name : json)
  (found_in_mapping : bool) (education experience : json) (errors : list json)
  : json :=
  JObj [("input", JStr input);
        ("linkedin_id", JStr linkedin_id);
        ("harmonic_id", harmonic_id);
        ("full_name", full_name);
        ("found_in_mapping", JBool found_in_mapping);
        ("education", education);
        ("experience", experience);
        ("errors", JArr errors)].

Section Lookup.
Context (E : env) {R : Runtime}.

(** [fetch_harmonic_data(harmonic_id)]. *)
Definition fetch_harmonic_data (harmonic_id : Z) : M world json :=
  HarmonicFullProfileClient.get_full_profile E harmonic_id.

(** [lookup(url_or_id)].  The statements of the [try] block assign into
    [result] one after the other: an exception keeps what was assigned
    before it.  [None] stands for a mapping row whose [harmonic_id] is not
    an integer, which [get_full_profile] is not modelled for. *)
Definition lookup (url_or_id : string) : M world (option json) :=
  let linkedin_id := extract_linkedin_id url_or_id in
  mapping <- lookup_harmonic_id linkedin_id ;;
  match mapping with
  | None =>
      ret (Some (lookup_result url_or_id linkedin_id JNull JNull false
                   (JArr []) (JArr [])
                   [JStr ("No Harmonic mapping found for LinkedIn ID: "
                          ++ linkedin_id)%string]))
  | Some (JInt harmonic_id, full_name) =>
      let result := lookup_result url_or_id linkedin_id (JInt harmonic_id)
                      full_name true in
      let failure (e : exn) :=
        JStr ("Failed to fetch from Harmonic: " ++ str_of_exn e)%string in
      fetched <-
        try_except (harmonic_data <- fetch_harmonic_data harmonic_id ;;
                    ret (inl harmonic_data))
                   (fun e => ret (inr e)) ;;
      match fetched with
      | inr e => ret (Some (result (JArr []) (JArr []) [failure e]))
      | inl harmonic_data =>
          match (let? education := get harmonic_data "education" (JArr []) in
                 let? experience := get harmonic_data "experience" (JArr []) in
                 Ok (education, experience)) with
          | Raise e => ret (Some (result (JArr []) (JArr []) [failure e]))
          | Ok (education, experience) =>
              match (let? errors := get harmonic_data "errors" JNull in
                     if truthy errors
                     then let? errors := subscript harmonic_data "errors" in
                          iterate errors
                     else Ok []) with
              | Ok more => ret (Some (result education experience more))
              | Raise e => ret (Some (result education experience [failure e]))
              end
          end
      end
  | Some _ => ret None
  end.

End Lookup.

End LinkedInToHarmonicLookup.

(* ================================================================== *)
(** * Concrete runs *)
(* ================================================================== *)

(** A runtime, servers and warehouses to run the models on. *)
Module Sample.

Import HarmonicClient.

Definition quote : string := String (ascii_of_nat 34) EmptyString.

Fixpoint join (sep : string) (parts : list string) : string :=
  match parts with
  | [] => EmptyString
  | [p] => p
  | p :: rest => (p ++ sep ++ join sep rest)%string
  end.

(** [json.dumps] with its default separators, for text that needs no
    escape. *)
Fixpoint dumps (v : json) : string :=
  match v with
  | JNull => "null"
  | JBool true => "true"
  | JBool false => "false"
  | JInt n => str_of_int n
  | JStr s => (quote ++ s ++ quote)%string
  | JArr l => ("[" ++ join ", " (map dumps l) ++ "]")%string
  | JObj kvs =>
      ("{" ++ join ", "
                (map (fun kv => match kv with
                                | (k, x) => (quote ++ k ++ quote ++ ": " ++ dumps x)%string
                                end) kvs)
           ++ "}")%string
  end.

(** [repr] of a list or a dict, for text that needs no escape. *)
Fixpoint repr (v : json) : string :=
  match v with
  | JNull => "None"
  | JBool true => "True"
  | JBool false => "False"
  | JInt n => str_of_int n
  | JStr s => ("'" ++ s ++ "'")%string
  | JArr l => ("[" ++ join ", " (map repr l) ++ "]")%string
  | JObj kvs =>
      ("{" ++ join ", "
                (map (fun kv => match kv with
                                | (k, x) => ("'" ++ k ++ "': " ++ repr x)%string
                                end) kvs)
           ++ "}")%string
  end.

Definition exn_text (e : exn) : string :=
  match e with
  | KeyError k => ("'" ++ k ++ "'")%string
  | TypeError => "TypeError"
  | AttributeError => "AttributeError"
  | JSONDecodeError => "Expecting value: line 1 column 1 (char 0)"
  | HTTPError s => (str_of_int s ++ " Error")%string
  | ConnectionError => "Connection aborted."
  | FileNotFoundError path =>
      ("[Errno 2] No such file or directory: '" ++ path ++ "'")%string
  | PlainException m => m
  end.

Definition digit_of (c : ascii) : option Z :=
  let n := nat_of_ascii c in
  if andb (Nat.leb 48 n) (Nat.leb n 57) then Some (Z.of_nat (n - 48)) else None.

Fixpoint digits (acc : Z) (s : string) : option Z :=
  match s with
  | EmptyString => Some acc
  | String c rest =>
      match digit_of c with
      | Some d => digits (10 * acc + d)%Z rest
      | None => None
      end
  end.

(** [int(s)] on plain decimal digits. *)
Definition parse_int (s : string) : option Z :=
  match s with
  | EmptyString => None
  | _ => digits 0 s
  end.

Definition runtime : Runtime :=
  {| json_dumps := dumps; container_str := repr; lib_exn_str := exn_text;
     py_int := parse_int |}.

(** A server that answers the [k]-th request with the [k]-th response of a
    list, and fails to connect once the list is used up. *)
Definition serve (responses : list response) (k : nat) (url : string)
  (payload : json) : result response :=
  match nth_error responses k with
  | Some r => Ok r
  | None => Raise ConnectionError
  end.

(** An environment around a list of responses and of clock readings: the
    messenger is there, every random draw is 0 and no insert is rejected. *)
Definition environment (responses : list response) (clock : list Z) : env :=
  {| http := serve responses;
     messenger := true;
     today := "2026-01-15";
     current_year := 2026;
     now := fun k => nth k clock 0%Z;
     random := fun _ => 0%Q;
     insert_errors := fun _ _ => [];
     utcnow_iso := fun _ => "2026-01-15T08:00:00" |}.

(** The body of one page of [GetCompanySavedSearchResults]. *)
Definition page_body (edges : list json) (total : json) (has_next : bool)
  (cursor : json) : json :=
  JObj [("data",
         JObj [("getSavedSearch",
                JObj [("results",
                       JObj [("totalCount", total);
                             ("edges", JArr edges);
                             ("pageInfo",
                              JObj [("hasNextPage", JBool has_next);
                                    ("endCursor", cursor)])])])])].

Definition ok_page (edges : list json) (total : json) (has_next : bool)
  (cursor : json) : response :=
  {| status_code := 200; body := Some (page_body edges total has_next cursor) |}.

Definition company (n : Z) : json :=
  JObj [("node", JObj [("id", JInt n)])].

(** The payload of a saved-search query, with its cursor variable. *)
Definition saved_search_query : json :=
  JObj [("operationName", JStr "GetCompanySavedSearchResults");
        ("variables", JObj [("idOrUrn", JStr "149709"); ("after", JNull)]);
        ("query", JStr "query GetCompanySavedSearchResults { ... }")].

(** The [query] argument of the runs. *)
Definition saved_search : query_arg := QueryData saved_search_query.

(** Three pages of two, two and one records; the third is the last. *)
Definition three_pages : list response :=
  [ok_page [company 1; company 2] (JInt 5) true (JStr "c1");
   ok_page [company 3; company 4] (JInt 99) true (JStr "c2");
   ok_page [company 5] JNull false JNull].

Definition three_pages_env : env :=
  environment three_pages [0; 1000000; 200000000]%Z.

(** An HTTP 401 with a JSON object as body. *)
Definition unauthorized : response :=
  {| status_code := 401;
     body := Some (JObj [("message", JStr "Unauthorized")]) |}.

(** A first page, then an HTTP 401. *)
Definition unauthorized_second_env : env :=
  environment
    [ok_page [company 1; company 2] (JInt 5) true (JStr "c1"); unauthorized]
    [0; 1000000]%Z.

(** A body that passes the error check and has no [edges] and no
    [pageInfo]. *)
Definition no_edges_body : json :=
  JObj [("data",
         JObj [("getSavedSearch",
                JObj [("results", JObj [("totalCount", JInt 0)])])])].

Definition no_edges_response : response :=
  {| status_code := 200; body := Some no_edges_body |}.

Definition no_edges_env : env := environment [no_edges_response] [0]%Z.

(** The locals of a run that starts at clock reading 0. *)
Definition start_locals : locals := initial_locals saved_search 0.

(** A last page without [totalCount] and without [endCursor]. *)
Definition bare_last_page : response :=
  {| status_code := 200;
     body := Some (JObj [("data",
               JObj [("getSavedSearch",
                      JObj [("results",
                             JObj [("edges", JArr [company 1]);
                                   ("pageInfo",
                                    JObj [("hasNextPage", JBool false)])])])])]) |}.

Definition bare_last_page_env : env := environment [bare_last_page] [0]%Z.

(** An HTTP 500 whose body is a last page of one record. *)
Definition server_error_env : env :=
  environment
    [{| status_code := 500;
        body := Some (page_body [company 1] (JInt 1) false JNull) |}]
    [0]%Z.

(** An HTTP 401 as the first answer. *)
Definition unauthorized_first_env : env := environment [unauthorized] [0]%Z.

(** A server whose every answer is a page of one record that reports a
    next page. *)
Definition endless_env : env :=
  {| http := fun _ _ _ => Ok (ok_page [company 1] (JInt 7) true (JStr "next"));
     messenger := true;
     today := "2026-01-15";
     current_year := 2026;
     now := fun _ => 0%Z;
     random := fun _ => 0%Q;
     insert_errors := fun _ _ => [];
     utcnow_iso := fun _ => "2026-01-15T08:00:00" |}.

(** Three pages; the first delay is taken 200 seconds after the start, the
    second at 381 seconds, one second after the first break of 180 seconds
    is over. *)
Definition slow_start_env : env :=
  environment
    [ok_page [company 1] (JInt 3) true (JStr "c1");
     ok_page [company 2] (JInt 3) true (JStr "c2");
     ok_page [company 3] (JInt 3) false JNull]
    [0; 200000000; 381000000]%Z.

(** A 200 whose body carries a top-level [errors] list and no data. *)
Definition graphql_errors : json :=
  JArr [JObj [("message", JStr "Person not found")]].

Definition graphql_error_fields : list (string * json) :=
  [("errors", graphql_errors); ("data", JNull)].

Definition graphql_error_response : response :=
  {| status_code := 200; body := Some (JObj graphql_error_fields) |}.

(** A server whose every answer is that response. *)
Definition graphql_error_env : env :=
  {| http := fun _ _ _ => Ok graphql_error_response;
     messenger := true;
     today := "2026-01-15";
     current_year := 2026;
     now := fun _ => 0%Z;
     random := fun _ => 0%Q;
     insert_errors := fun _ _ => [];
     utcnow_iso := fun _ => "2026-01-15T08:00:00" |}.

(** ** The sync *)

Definition person : Z := 36601930.

Definition linkedin_key : string := "daniel-sun-440493171".

Definition education_item : json :=
  JObj [("school", JObj [("name", JStr "MIT");
                         ("linkedinUrl", JStr "https://linkedin.com/school/mit/");
                         ("logoUrl", JNull)]);
        ("degree", JStr "BS");
        ("field", JStr "Computer Science");
        ("startDate", JStr "2022-09-01T00:00:00Z");
        ("endDate", JStr "2026-06-01T00:00:00Z")].

Definition experience_item : json :=
  JObj [("title", JStr "Engineer");
        ("company", JObj [("id", JInt 42); ("name", JStr "Acme");
                          ("logoUrl", JNull)]);
        ("startDate", JStr "2024-06-01T00:00:00Z");
        ("endDate", JNull);
        ("isCurrentPosition", JBool true)].

Definition ok_body (data : json) : response :=
  {| status_code := 200; body := Some (JObj [("data", data)]) |}.

(** The four answers a sync gets: highlights, education, experience and the
    LinkedIn lookup. *)
Definition profile_answers : list response :=
  [ok_body (JObj [("getPersonById",
                   JObj [("id", JInt person);
                         ("highlights",
                          JArr [JObj [("category", JStr "Top University")]])])]);
   ok_body (JObj [("getPersonById",
                   JObj [("id", JInt person);
                         ("education", JArr [education_item])])]);
   ok_body (JObj [("getPersonById",
                   JObj [("id", JInt person);
                         ("experience", JArr [experience_item])])]);
   ok_body (JObj [("getPersonById",
                   JObj [("id", JInt person);
                         ("fullName", JStr "Daniel Sun");
                         ("socials",
                          JObj [("linkedin",
                                 JObj [("url",
                                        JStr "https://linkedin.com/in/daniel-sun-440493171")])])])])].

Definition sync_env : env := environment profile_answers [].

(** A warehouse that already holds an education row of the person. *)
Definition synced_education : world :=
  set_tables
    [(HarmonicToBigQuerySync.table_ref "linkedin_education",
      [JObj [("date", JStr "2025-12-01"); ("linkedinId", JStr linkedin_key);
             ("schoolName", JStr "MIT")]])]
    empty_world.

(** A client whose [get_full_profile] cannot reach the service. *)
Definition unreachable_client (person_id : Z) : M world json :=
  throw ConnectionError.

End Sample.

(* ================================================================== *)
(** * What the properties are stated with *)
(* ================================================================== *)

Module Observations.

Import HarmonicErrorNotifier HarmonicClient.

(** ** The pagination loop *)

(** The records of one batch file. *)
Definition companies_of (content : json) : list json :=
  match subscript content "companies" with
  | Ok (JArr l) => l
  | _ => []
  end.

Definition batch_of (f : file_write) : list json :=
  match f with
  | BatchFile _ _ content => companies_of content
  | OutputFile _ _ => []
  end.

(** All flushed batches, concatenated in flush order. *)
Definition flushed (w : world) : list json := flat_map batch_of (files w).

(** The records of the page a body carries. *)
Definition page_items (data : json) : result (list json) :=
  let? search_companies := saved_search_results data in
  let? edges := subscript search_companies "edges" in
  iterate edges.

(** The [pageInfo] object of the page a body carries. *)
Definition page_info (data : json) : result json :=
  let? search_companies := saved_search_results data in
  subscript search_companies "pageInfo".

(** The body passes the GraphQL half of the error check: it is falsy or has
    no ["errors"]. *)
Definition no_graphql_errors (data : json) : bool :=
  if truthy data
  then match contains "errors" data with
       | Ok false => true
       | _ => false
       end
  else true.

(** The answer to a request is a page that passes the error check and
    whose page info reports [hasNextPage] true, with an [endCursor]. *)
Definition reports_next (answer : result response) : bool :=
  match answer with
  | Ok r =>
      andb (negb (is_auth_status (status_code r)))
        match body r with
        | Some data =>
            andb (no_graphql_errors data)
              (andb (is_ok (page_items data))
                 match page_info data with
                 | Ok info =>
                     match subscript info "hasNextPage" with
                     | Ok has_next =>
                         andb (truthy has_next)
                              (is_ok (subscript info "endCursor"))
                     | Raise _ => false
                     end
                 | Raise _ => false
                 end)
        | None => false
        end
  | Raise _ => false
  end.

(** The records of the page an answer carries, [[]] when it carries none. *)
Definition items_of (answer : result response) : list json :=
  match answer with
  | Ok r =>
      match body r with
      | Some data =>
          match page_items data with
          | Ok items => items
          | Raise _ => []
          end
      | None => []
      end
  | Raise _ => []
  end.

(** The answers of the server to a list of requests, the first of them
    the [k]-th request of the run. *)
Fixpoint answers (E : env) (k : nat) (requests : list (string * json))
  : list (result response) :=
  match requests with
  | [] => []
  | (url, p) :: rest => http E k url p :: answers E (S k) rest
  end.

(** The answers to the requests that were sent between two worlds. *)
Definition pages_between (E : env) (w w' : world) : list (result response) :=
  answers E (List.length (posts w)) (skipn (List.length (posts w)) (posts w')).

(** The pages that went through the loop: every answer, but for the last
    one when the error check left the loop on it (line 116). *)
Definition fed (reason : stop) (pages : list (result response))
  : list (result response) :=
  match reason with
  | StopError => removelast pages
  | _ => pages
  end.

(** The records of those pages, page after page. *)
Definition records_fed (E : env) (reason : stop) (w w' : world) : list json :=
  flat_map items_of (fed reason (pages_between E w w')).

(** The [totalCount] the page of an answer reports, [None] when it reports
    none. *)
Definition reported_total (answer : result response) : json :=
  match answer with
  | Ok r =>
      match body r with
      | Some data =>
          match saved_search_results data with
          | Ok search_companies =>
              match get search_companies "totalCount" JNull with
              | Ok v => v
              | Raise _ => JNull
              end
          | Raise _ => JNull
          end
      | None => JNull
      end
  | Raise _ => JNull
  end.

(** A dictionary without the key [k]. *)
Definition missing (k : string) (v : json) : Prop :=
  exists kvs, v = JObj kvs /\ dict_find k kvs = None.

(** The payload has a [variables] dictionary to take the cursor. *)
Definition has_variables (p : json) : bool :=
  match subscript p "variables" with
  | Ok (JObj _) => true
  | _ => false
  end.

(** The message [_check_and_notify_error] sends for an HTTP 401 or 403. *)
Definition http_auth_message (E : env) (status : Z) : message :=
  {| kind := AuthFailure;
     text := ("Harmonic API authentication failed. The Bearer token may need to be refreshed."
              ++ nl ++ nl ++ "Refresh at: https://console.harmonic.ai"
              ++ nl ++ nl ++ "Error: " ++ "HTTP " ++ str_of_int status
              ++ ": Authentication/authorization failed")%string;
     unique_by := ("harmonic_auth_error_" ++ today E)%string |}.

(** The same environment behind another server. *)
Definition with_http (E : env)
  (server : nat -> string -> json -> result response) : env :=
  {| http := server; messenger := messenger E; today := today E;
     current_year := current_year E; now := now E; random := random E;
     insert_errors := insert_errors E; utcnow_iso := utcnow_iso E |}.

(** The server of [E] with every status other than 401 and 403 replaced by
    200. *)
Definition relabel_status (E : env) : env :=
  with_http E (fun k url p =>
    match http E k url p with
    | Ok r =>
        if is_auth_status (status_code r) then Ok r
        else Ok {| status_code := 200; body := body r |}
    | Raise e => Raise e
    end).

(** ** The warehouse sync *)

(** The three content tables of [sync_person]. *)
Inductive content_table : Type := Education | Experience | Profile.

Definition table_name (t : content_table) : string :=
  match t with
  | Education => "linkedin_education"
  | Experience => "linkedin_experience"
  | Profile => "linkedin_profile"
  end.

Definition transform_name (t : content_table) : string :=
  match t with
  | Education => "transform_education"
  | Experience => "transform_experience"
  | Profile => "transform_profile"
  end.

(** The entry of a table in the [results] dictionary, and the ["data"] it
    starts with. *)
Definition entry (t : content_table) (report : HarmonicToBigQuerySync.sync_report)
  : HarmonicToBigQuerySync.table_report :=
  match t with
  | Education => HarmonicToBigQuerySync.s_education report
  | Experience => HarmonicToBigQuerySync.s_experience report
  | Profile => HarmonicToBigQuerySync.s_profile report
  end.

Definition initial_data (t : content_table) : json :=
  match t with
  | Education | Experience => JArr []
  | Profile => JNull
  end.

(** The rows a table of the warehouse holds. *)
Definition stored (table : string) (w : world) : list json :=
  HarmonicToBigQuerySync.rows_of table (tables w).

(** What [check_user_exists] answers in a world: the table has a row for
    the key. *)
Definition has_rows (t : content_table) (linkedin_id : string) (w : world)
  : bool :=
  (0 <? Z.of_nat
          (List.length
             (filter (HarmonicToBigQuerySync.row_matches "linkedinId" linkedin_id)
                (stored (HarmonicToBigQuerySync.table_ref (table_name t)) w))))%Z.

(** The row lists handed to [insert_rows_json] for a table. *)
Fixpoint inserts_into (table : string) (log : list bq_call) : list (list json) :=
  match log with
  | [] => []
  | InsertRows name rows :: rest =>
      if String.eqb name table then rows :: inserts_into table rest
      else inserts_into table rest
  | CountQuery _ _ _ :: rest => inserts_into table rest
  end.

(** How often a transform was entered. *)
Definition entered (name : string) (w : world) : list string :=
  filter (String.eqb name) (transforms w).

(** Between two worlds nothing was inserted into the table of [t] and its
    transform was not entered. *)
Definition untouched (t : content_table) (w0 w : world) : Prop :=
  stored (HarmonicToBigQuerySync.table_ref (table_name t)) w
  = stored (HarmonicToBigQuerySync.table_ref (table_name t)) w0 /\
  inserts_into (HarmonicToBigQuerySync.table_ref (table_name t)) (bq_log w)
  = inserts_into (HarmonicToBigQuerySync.table_ref (table_name t)) (bq_log w0) /\
  entered (transform_name t) w = entered (transform_name t) w0.

(** A computation that keeps the table of [t] untouched since [w0], and
    whose result, when it returns, satisfies [Q]. *)
Definition maintains {A} (t : content_table) (w0 : world) (m : M world A)
  (Q : A -> Prop) : Prop :=
  forall w,
    untouched t w0 w ->
    untouched t w0 (snd (m w)) /\ forall a, fst (m w) = Ok a -> Q a.

(** A computation that leaves the warehouse alone: no table changes, no
    call on the BigQuery client, no transform. *)
Definition keeps_warehouse {A} (m : M world A) : Prop :=
  forall w,
    tables (snd (m w)) = tables w /\
    bq_log (snd (m w)) = bq_log w /\
    transforms (snd (m w)) = transforms w.

End Observations.

Export Observations.

(* ================================================================== *)
(** * What a run leaves behind *)
(* ================================================================== *)

Module Traces.

Import HarmonicErrorNotifier HarmonicClient.

(** A computation that leaves a component [f] of the world as it is,
    whatever its outcome. *)
Definition preserves {A X : Type} (f : world -> X) (m : M world A) : Prop :=
  forall w, f (snd (m w)) = f w.

(** The batch files [n], [n + 1], ... in this order, each under the name
    [_save_companies_to_json] gives it. *)
Fixpoint numbered_from (n : Z) (fs : list file_write) : bool :=
  match fs with
  | [] => true
  | BatchFile k name _ :: rest =>
      andb (andb (k =? n)%Z
              (String.eqb name
                 ("harmonic_companies_batch_" ++ format_03d n ++ ".json")%string))
           (numbered_from (n + 1) rest)
  | OutputFile _ _ :: _ => false
  end.

(** Every batch file holds at least [size] records. *)
Definition filled (size : Z) (fs : list file_write) : bool :=
  forallb (fun f => (size <=? Z.of_nat (List.length (batch_of f)))%Z) fs.

(** Every batch file but the last holds at least [size] records, and the
    last one holds a record. *)
Fixpoint filled_but_last (size : Z) (fs : list file_write) : bool :=
  match fs with
  | [] => true
  | [f] => match batch_of f with [] => false | _ => true end
  | f :: rest =>
      andb (size <=? Z.of_nat (List.length (batch_of f)))%Z
           (filled_but_last size rest)
  end.

(** The cursor a payload carries: [payload["variables"]["after"]]. *)
Definition cursor_of (p : json) : result json :=
  let? variables := subscript p "variables" in
  subscript variables "after".

(** The [endCursor] of the page an answer carries. *)
Definition end_cursor_of (answer : result response) : result json :=
  match answer with
  | Ok r =>
      let? data := response_json r in
      let? info := page_info data in
      subscript info "endCursor"
  | Raise e => Raise e
  end.

(** The pauses of the pacer: 2 to 8 seconds, or 3 to 5 minutes. *)
Definition short_pause (d : Q) : Prop := (2 <= d <= 8)%Q.
Definition long_pause (d : Q) : Prop := (180 <= d <= 300)%Q.

(** The answer is an error for [_check_and_notify_error] and its body a
    dictionary: a 401 or 403, or a body with an ["errors"] entry. *)
Definition is_error_answer (r : response) : bool :=
  match body r with
  | Some (JObj kvs) =>
      orb (is_auth_status (status_code r))
          (match dict_find "errors" kvs with Some _ => true | None => false end)
  | _ => false
  end.

End Traces.

Export Traces.

(* ================================================================== *)
(** * What the other methods of the client are observed through *)
(* ================================================================== *)

Module ClientObservations.

Import HarmonicErrorNotifier HarmonicClient.

(** The records and the [pageInfo] of the page of people a body carries. *)
Definition people_of (data : json) : result json :=
  let? d := subscript data "data" in subscript d "searchPeople".

(** The answer is a page of people that passes the error check and reports
    [hasNextPage] true. *)
Definition people_reports_next (answer : result response) : bool :=
  match answer with
  | Ok r =>
      andb (negb (is_auth_status (status_code r)))
        match body r with
        | Some data =>
            andb (no_graphql_errors data)
              match people_of data with
              | Ok search_people =>
                  andb
                    (is_ok (let? edges := subscript search_people "edges" in
                            iterate edges))
                    match subscript search_people "pageInfo" with
                    | Ok info =>
                        match subscript info "hasNextPage" with
                        | Ok has_next =>
                            andb (truthy has_next)
                                 (is_ok (subscript info "endCursor"))
                        | Raise _ => false
                        end
                    | Raise _ => false
                    end
              | Raise _ => false
              end
        | None => false
        end
  | Raise _ => false
  end.

(** [query_data["variables"][k]]. *)
Definition variable (k : string) (query_data : json) : result json :=
  let? variables := subscript query_data "variables" in
  subscript variables k.

(** The ids a [new_ids] argument stands for. *)
Definition listed (new_ids : ids_arg) : list Z :=
  match new_ids with
  | OneId n => [n]
  | ManyIds l => l
  end.

(** [n in ids] for an [int] [n] and a list [ids]. *)
Definition has_id (n : Z) (ids : list json) : bool := existsb (int_eq n) ids.

End ClientObservations.

Export ClientObservations.

(* ================================================================== *)
(** * What the detail clients and the sync are observed through *)
(* ================================================================== *)

Module DetailObservations.

Import HarmonicErrorNotifier GraphQL HarmonicFullProfileClient.

(** The URL and the payload of a by-id operation. *)
Definition by_id_request (operation_name : string) (person_id : Z)
  (document : string) : string * json :=
  ((BASE_URL ++ "?" ++ operation_name)%string,
   by_id_payload operation_name person_id document).

(** The three requests of [get_full_profile], in the order it sends them. *)
Definition profile_requests (person_id : Z) : list (string * json) :=
  [by_id_request "GetPersonProfileHeader" person_id Documents.GetPersonProfileHeader;
   by_id_request "GetPersonEducation" person_id Documents.GetPersonEducation;
   by_id_request "GetPersonExperience" person_id Documents.GetPersonExperience].

(** The status is one [raise_for_status] raises for. *)
Definition is_http_error (status : Z) : bool :=
  andb (400 <=? status)%Z (status <? 600)%Z.

(** Two values are the same dictionary key. *)
Definition same_key (a b : json) : bool :=
  match hash_key a, hash_key b with
  | Ok x, Ok y => hashed_eqb x y
  | _, _ => false
  end.

(** No two elements of the list are the same key. *)
Fixpoint distinct_keys (l : list json) : bool :=
  match l with
  | [] => true
  | x :: rest => andb (negb (existsb (same_key x) rest)) (distinct_keys rest)
  end.

(** The rows handed to [insert_rows_json] for a table so far. *)
Definition inserted_rows (table : string) (w : world) : list (list json) :=
  inserts_into table (bq_log w).

End DetailObservations.

Export DetailObservations.

(** Observations on the warehouse across several steps. *)
Module WarehouseObservations.

(** A computation that only appends to the tables of the warehouse,
    whatever its outcome. *)
Definition only_appends {A : Type} (m : M world A) : Prop :=
  forall w table,
    exists new, stored table (snd (m w)) = (stored table w ++ new)%list.

End WarehouseObservations.

Export WarehouseObservations.

(** Observations on strings and on the answer of [GetPersonLinkedIn]. *)
Module LinkedInObservations.

(** Every character of [s] is [c]; some character of [s] is [c]. *)
Fixpoint only_char (c : ascii) (s : string) : bool :=
  match s with
  | EmptyString => true
  | String a rest => andb (Ascii.eqb a c) (only_char c rest)
  end.

Fixpoint has_char (c : ascii) (s : string) : bool :=
  match s with
  | EmptyString => false
  | String a rest => orb (Ascii.eqb a c) (has_char c rest)
  end.

(** [data.get("data", {}).get("getPersonById", {})]. *)
Definition person_of (data : json) : result json :=
  let? d := get data "data" (JObj []) in
  get d "getPersonById" (JObj []).

(** The [fullName] and the LinkedIn URL of the person a body describes. *)
Definition full_name_of (data : json) : result json :=
  let? person := person_of data in
  get person "fullName" JNull.

Definition linkedin_url_of (data : json) : result json :=
  let? person := person_of data in
  let? socials := get person "socials" (JObj []) in
  let? linkedin := get socials "linkedin" (JObj []) in
  get linkedin "url" JNull.

(** The request failed: no connection, or a 4xx or 5xx status. *)
Definition failed (answer : result response) : bool :=
  match answer with
  | Raise _ => true
  | Ok r => is_http_error (status_code r)
  end.

End LinkedInObservations.

Export LinkedInObservations.

(** Observations on [lookup_by_linkedin.py]. *)
Module LookupObservations.

Import HarmonicToBigQuerySync LinkedInToHarmonicLookup.

(** Every character of [s] satisfies [p]. *)
Fixpoint all_chars (p : ascii -> bool) (s : string) : bool :=
  match s with
  | EmptyString => true
  | String c rest => andb (p c) (all_chars p rest)
  end.

(** No whitespace in [s]. *)
Definition no_space (s : string) : bool :=
  all_chars (fun c => negb (is_space c)) s.

(** What may follow the id in a URL: nothing, or text that starts with a
    character the id cannot contain (a slash, a question mark). *)
Definition ends_id (t : string) : bool :=
  match t with
  | EmptyString => true
  | String c _ => negb (id_char c)
  end.

(** The rows of the mapping table for a LinkedIn id. *)
Definition mapped (linkedin_id : string) (w : world) : list json :=
  filter (row_matches "linkedin_id" linkedin_id)
         (stored (table_ref "linkedin_harmonic_mapping") w).

End LookupObservations.

Export LookupObservations.

(** Observations on the transforms. *)
Module TransformObservations.

(** [isinstance(v, str)]. *)
Definition is_string (v : json) : bool :=
  match v with JStr _ => true | _ => false end.

(** An education entry [transform_education] can take: a dictionary whose
    ["school"] is absent or a dictionary, the school's ["linkedinUrl"]
    absent, falsy or a string.  The dates, the degree and the field may be
    anything. *)
Definition well_formed_education (edu : json) : bool :=
  match edu with
  | JObj kvs =>
      match dict_find "school" kvs with
      | None => true
      | Some (JObj school) =>
          match dict_find "linkedinUrl" school with
          | None => true
          | Some url => orb (negb (truthy url)) (is_string url)
          end
      | Some _ => false
      end
  | _ => false
  end.

(** [isinstance(v, dict)]. *)
Definition is_dictionary (v : json) : bool :=
  match v with JObj _ => true | _ => false end.

(** An experience entry the headline loop passes over: a dictionary whose
    ["isCurrentPosition"] is absent or falsy. *)
Definition not_current (exp : json) : bool :=
  match exp with
  | JObj kvs =>
      match dict_find "isCurrentPosition" kvs with
      | Some v => negb (truthy v)
      | None => true
      end
  | _ => false
  end.

(** An experience entry the headline loop stops at. *)
Definition is_current (exp : json) : bool :=
  match exp with
  | JObj kvs =>
      match dict_find "isCurrentPosition" kvs with
      | Some v => truthy v
      | None => false
      end
  | _ => false
  end.

(** An education entry whose ["endDate"] is a non-empty string, its first
    four characters an integer not before the current year. *)
Definition ends_this_year_or_later {R : Runtime} (E : env) (edu : json) : bool :=
  match edu with
  | JObj kvs =>
      match dict_find "endDate" kvs with
      | Some (JStr s) =>
          andb (truthy (JStr s))
               match py_int (str_prefix 4 s) with
               | Some end_year => (end_year >=? current_year E)%Z
               | None => false
               end
      | _ => false
      end
  | _ => false
  end.

End TransformObservations.

Export TransformObservations.

(* ================================================================== *)
(** * More concrete runs *)
(* ================================================================== *)

Module Scenarios.

Import HarmonicClient Sample.

(** The batch files and the consolidated file of the run over
    [three_pages] with batches of two. *)
Definition three_pages_batches : list file_write :=
  [BatchFile 1 "harmonic_companies_batch_001.json"
     (JObj [("companies", JArr [company 1; company 2])]);
   BatchFile 2 "harmonic_companies_batch_002.json"
     (JObj [("companies", JArr [company 3; company 4])]);
   BatchFile 3 "harmonic_companies_batch_003.json"
     (JObj [("companies", JArr [company 5])])].

Definition three_pages_output : file_write :=
  OutputFile "harmonic_companies_output.json"
    (JObj [("companies",
            JArr [company 1; company 2; company 3; company 4; company 5])]).

(** The first two requests of that run. *)
Definition first_request : string * json := (base_url, saved_search_query).

Definition second_request : string * json :=
  (base_url,
   JObj [("operationName", JStr "GetCompanySavedSearchResults");
         ("variables", JObj [("idOrUrn", JStr "149709"); ("after", JStr "c1")]);
         ("query", JStr "query GetCompanySavedSearchResults { ... }")]).

(** A query given as a string. *)
Definition string_query : query_arg :=
  QueryStr "query GetCompanySavedSearchResults { ... }".

(** A page of people that reports a next page. *)
Definition people_page : response :=
  {| status_code := 200;
     body := Some (JObj [("data",
               JObj [("searchPeople",
                      JObj [("totalCount", JInt 12);
                            ("edges", JArr [company 1]);
                            ("pageInfo",
                             JObj [("hasNextPage", JBool true);
                                   ("endCursor", JStr "p1")])])])]) |}.

Definition people_env : env := environment [people_page; people_page] [0; 1000000]%Z.

Definition people_query : json := JStr "query SearchPeople { ... }".

(** A saved-search query and a by-ids query as they are loaded from the
    [.graphql] files. *)
Definition by_ids_query : json :=
  JObj [("operationName", JStr "GetCompaniesByIds");
        ("variables", JObj [("ids", JArr [JInt 1; JInt 2])]);
        ("query", JStr "query GetCompaniesByIds { ... }")].

Definition new_company_ids : ids_arg := ManyIds [2; 3; 3; 62363328]%Z.

(** An entry whose school and company are [null]. *)
Definition null_entry_fields : list (string * json) :=
  [("school", JNull); ("company", JNull); ("degree", JStr "BS");
   ("title", JStr "Founder")].

Definition null_entry : json := JObj null_entry_fields.

(** The answer to [GetPersonLinkedIn] for the sample person, the URL with
    a trailing slash. *)
Definition linkedin_body : json :=
  JObj [("data",
         JObj [("getPersonById",
                JObj [("id", JInt person);
                      ("fullName", JStr "Daniel Sun");
                      ("socials",
                       JObj [("linkedin",
                              JObj [("url",
                                     JStr "https://linkedin.com/in/daniel-sun-440493171/")])])])])].

Definition linkedin_answer : response :=
  {| status_code := 200; body := Some linkedin_body |}.

Definition linkedin_env : env := environment [linkedin_answer] [].

(** An outage: no request gets through. *)
Definition outage_env : env := environment [] [].

(** The profile URL of the sample person, as a browser shows it. *)
Definition profile_url : string :=
  "https://www.linkedin.com/in/daniel-sun-440493171/".

(** An education entry without a school, its dates no strings. *)
Definition odd_dates_entry : json :=
  JObj [("degree", JInt 3); ("startDate", JInt 2019); ("endDate", JArr [])].

(** A past position, a current one without a title and a current one with
    title and company. *)
Definition past_position : json :=
  JObj [("title", JStr "Intern"); ("company", JObj [("name", JStr "Acme")]);
        ("isCurrentPosition", JBool false)].

Definition untitled_position : json :=
  JObj [("isCurrentPosition", JBool true);
        ("company", JObj [("name", JStr "Acme")])].

Definition complete_position : json :=
  JObj [("isCurrentPosition", JBool true); ("title", JStr "Founder");
        ("company", JObj [("name", JStr "Stealth")])].

End Scenarios.

(* ================================================================== *)
(** * Reasoning about the monad *)
(* ================================================================== *)

Section MonadFacts.
Context {W A B : Type}.

Lemma bind_inv (m : M W A) (k : A -> M W B) (w : W) (r : result B) (w' : W) :
  bind m k w = (r, w') ->
  (exists a w1, m w = (Ok a, w1) /\ k a w1 = (r, w')) \/
  (exists e, m w = (Raise e, w') /\ r = Raise e).
Proof.
  unfold bind. destruct (m w) as [[a | e] w1]; intros H.
  - left. exists a, w1. split; [reflexivity | exact H].
  - right. exists e. inversion H; subst. split; reflexivity.
Qed.

Lemma bind_ok_inv (m : M W A) (k : A -> M W B) (w : W) (b : B) (w' : W) :
  bind m k w = (Ok b, w') ->
  exists a w1, m w = (Ok a, w1) /\ k a w1 = (Ok b, w').
Proof.
  intros H. apply bind_inv in H. destruct H as [H | [e [_ H]]];
    [exact H | discriminate H].
Qed.

Lemma bind_ok (m : M W A) (k : A -> M W B) (w w1 : W) (a : A) :
  m w = (Ok a, w1) -> bind m k w = k a w1.
Proof. intros H. unfold bind. rewrite H. reflexivity. Qed.

Lemma bind_raise (m : M W A) (k : A -> M W B) (w w1 : W) (e : exn) :
  m w = (Raise e, w1) -> bind m k w = (Raise e, w1).
Proof. intros H. unfold bind. rewrite H. reflexivity. Qed.

Lemma lift_inv (x : result A) (w : W) (r : result A) (w' : W) :
  lift x w = (r, w') -> x = r /\ w' = w.
Proof. unfold lift. intros H. inversion H. split; reflexivity. Qed.

Lemma ret_inv (a : A) (w : W) (r : result A) (w' : W) :
  ret a w = (r, w') -> r = Ok a /\ w' = w.
Proof. unfold ret. intros H. inversion H. split; reflexivity. Qed.

End MonadFacts.

(** Steps that take a hypothesis [m w = (Ok a, w')] apart. *)
Tactic Notation "unbind" hyp(H) "as" ident(a) ident(w) ident(H1) :=
  apply bind_ok_inv in H; destruct H as (a & w & H1 & H); cbv beta in H.

Ltac unlift H :=
  apply lift_inv in H; destruct H as [H ?]; subst.

Ltac unret H :=
  apply ret_inv in H;
  let E1 := fresh H in
  destruct H as [E1 ?]; inversion E1; clear E1; subst.

(* ================================================================== *)
(** * The pagination loop: one pass *)
(* ================================================================== *)

Section ClientFacts.
Import HarmonicErrorNotifier HarmonicClient.
Context (E : env) {R : Runtime}.

Lemma notify_auth_failure_world d w r w' :
  notify_auth_failure E d w = (r, w') ->
  w' = w \/ exists m, kind m = AuthFailure /\ w' = add_sent m w.
Proof.
  unfold notify_auth_failure. destruct (messenger E); simpl.
  - unfold bind, modify, ret. intros H. inversion H. right. eexists. split; [|reflexivity]. reflexivity.
  - unfold ret. intros H. inversion H. left. reflexivity.
Qed.

Lemma notify_api_error_world t d w r w' :
  notify_api_error E t d w = (r, w') ->
  w' = w \/ exists m, kind m = ApiError /\ w' = add_sent m w.
Proof.
  unfold notify_api_error. destruct (messenger E); simpl.
  - unfold bind, modify, ret. intros H. inversion H. right. eexists. split; [|reflexivity]. reflexivity.
  - unfold ret. intros H. inversion H. left. reflexivity.
Qed.

Lemma check_graphql_errors_world data w r w' :
  check_graphql_errors E data w = (r, w') ->
  w' = w \/ exists m, w' = add_sent m w.
Proof.
  unfold check_graphql_errors.
  destruct (truthy data); [| intros H; inversion H; auto].
  intros H. apply bind_inv in H. destruct H as [(a & w1 & H1 & H2) | (e & H1 & _)].
  2:{ apply lift_inv in H1. left. apply H1. }
  apply lift_inv in H1. destruct H1 as [_ ->].
  destruct a; [| inversion H2; auto].
  apply bind_inv in H2. destruct H2 as [(a & w2 & H1 & H2) | (e & H1 & _)].
  2:{ apply lift_inv in H1. left. apply H1. }
  apply lift_inv in H1. destruct H1 as [_ ->].
  apply bind_inv in H2. destruct H2 as [(b & w2 & H1 & H2) | (e & H1 & _)].
  - apply ret_inv in H2. destruct H2 as [_ ->].
    destruct (existsb _ _).
    + apply notify_auth_failure_world in H1. destruct H1 as [-> | (m & _ & ->)]; eauto.
    + apply notify_api_error_world in H1. destruct H1 as [-> | (m & _ & ->)]; eauto.
  - destruct (existsb _ _).
    + apply notify_auth_failure_world in H1. destruct H1 as [-> | (m & _ & ->)]; eauto.
    + apply notify_api_error_world in H1. destruct H1 as [-> | (m & _ & ->)]; eauto.
Qed.

Lemma check_and_notify_world resp data w r w' :
  _check_and_notify_error E resp data w = (r, w') ->
  w' = w \/ exists m, w' = add_sent m w.
Proof.
  unfold _check_and_notify_error. destruct resp as [r0|].
  - destruct (is_auth_status _).
    + intros H. apply bind_inv in H. destruct H as [(a & w1 & H1 & H2) | (e & H1 & _)].
      * apply ret_inv in H2. destruct H2 as [_ ->].
        apply notify_auth_failure_world in H1. destruct H1 as [-> | (m & _ & ->)]; eauto.
      * apply notify_auth_failure_world in H1. destruct H1 as [-> | (m & _ & ->)]; eauto.
    + apply check_graphql_errors_world.
  - apply check_graphql_errors_world.
Qed.

Lemma delay_world s l w :
  exists (long : bool) (d : Q), _apply_human_like_delay E s l w =
    (Ok (long, if long then now E (clock_reads w) else l), add_sleep d (tick_draw (tick_clock w))).
Proof.
  unfold _apply_human_like_delay, bind, datetime_now, random_uniform, time_sleep, modify, ret.
  simpl. destruct (_ >=? _); simpl;
    [eexists true, _ | eexists false, _]; reflexivity.
Qed.


Lemma flushed_add_batch n name l w :
  flushed (add_file (BatchFile n name (JObj [("companies", JArr l)])) w)
  = (flushed w ++ l)%list.
Proof.
  unfold flushed. simpl. rewrite flat_map_app. simpl. rewrite app_nil_r. reflexivity.
Qed.

Lemma requests_post_inv url p w r w' :
  requests_post E url p w = (r, w') ->
  http E (List.length (posts w)) url p = r /\ w' = add_post url p w.
Proof. unfold requests_post. intros H. inversion H. auto. Qed.

Lemma loop_body_facts mp bs st w c st' w' :
  loop_body E mp bs st w = (Ok (c, st'), w') ->
  start_time st' = start_time st /\
  last_long_break st' = last_long_break st /\
  (is_none (total_count st) = false -> total_count st' = total_count st) /\
  (is_none (total_count st) = true -> c <> Break StopError ->
   total_count st' =
     reported_total (http E (List.length (posts w)) base_url (payload st))) /\
  page st' = (match c with Continue => page st + 1 | Break _ => page st end) /\
  (c = Continue -> page st < mp) /\
  posts w' = (posts w ++ [(base_url, payload st)])%list /\
  exists items,
    all_edges st' = (all_edges st ++ items)%list /\
    (flushed w' ++ current_batch st' = flushed w ++ current_batch st ++ items)%list.
Proof.
  unfold loop_body, process_response. intros H.
  unbind H as response w1 Hpost.
  apply requests_post_inv in Hpost. destruct Hpost as [Hhttp ->].
  unbind H as data w2 Hjson. unlift Hjson.
  unbind H as is_error w3 Hcheck.
  assert (Hfiles : files w3 = files w /\
                   posts w3 = (posts w ++ [(base_url, payload st)])%list).
  { apply check_and_notify_world in Hcheck.
    destruct Hcheck as [-> | (m & ->)]; split; reflexivity. }
  destruct Hfiles as [Hfiles Hposts].
  destruct is_error.
  - unbind H as x w4 Hget. unlift Hget. unret H.
    repeat split; auto; try congruence.
    exists []. rewrite !app_nil_r. split; [reflexivity|].
    unfold flushed. rewrite Hfiles. reflexivity.
  - unbind H as sc w4 Hsc. unlift Hsc.
    unbind H as edges w4 Hedges. unlift Hedges.
    unbind H as items w4 Hitems. unlift Hitems.
    unbind H as n w4 Hlen. unlift Hlen.
    unbind H as tc w4 Htc.
    unbind H as fl w5 Hfl.
    unbind H as info w6 Hinfo. unlift Hinfo.
    unbind H as has_next w6 Hnext. unlift Hnext.
    assert (Hc : is_none (total_count st) = false -> tc = total_count st).
    { intros Hn. rewrite Hn in Htc. unret Htc. reflexivity. }
    assert (Hr : is_none (total_count st) = true ->
                 tc = reported_total
                        (http E (List.length (posts w)) base_url (payload st))).
    { intros Hn. rewrite Hn in Htc. unlift Htc.
      unfold reported_total. rewrite Hhttp.
      unfold response_json in Hjson. destruct (body response); [| discriminate Hjson].
      inversion Hjson; subst. rewrite Hsc, Htc. reflexivity. }
    assert (Hw4 : w4 = w3).
    { destruct (is_none (total_count st)); [unlift Htc | unret Htc]; reflexivity. }
    subst w4.
    assert (Hflush : (flushed w5 ++ fst fl = flushed w ++ current_batch st ++ items)%list
                     /\ posts w5 = posts w3).
    { replace (flushed w) with (flushed w3) by (unfold flushed; rewrite Hfiles; reflexivity).
      destruct (_ >=? bs).
      - unbind Hfl as u w7 Hsave. unret Hfl.
        unfold _save_companies_to_json, modify in Hsave.
        inversion Hsave; subst. simpl fst. rewrite flushed_add_batch.
        rewrite app_nil_r. split; reflexivity.
      - unret Hfl. split; reflexivity. }
    destruct Hflush as [Hflush Hposts5]. rewrite Hposts in Hposts5.
    destruct (negb (truthy has_next)).
    { unret H. simpl. repeat split; auto; try congruence. exists items. auto. }
    destruct (page st >=? mp) eqn:Hpage.
    { unret H. simpl. repeat split; auto; try congruence. exists items. auto. }
    unbind H as cursor w7 Hcur. unlift Hcur.
    unbind H as vars w7 Hvars. unlift Hvars.
    unbind H as vars' w7 Hvars'. unlift Hvars'.
    unbind H as payload' w7 Hpl. unlift Hpl.
    unbind H as dl w7 Hdelay. unret H.
    destruct (delay_world (start_time st) (last_long_break st) w5) as (long & d & Hd).
    rewrite Hd in Hdelay. inversion Hdelay; subst. simpl.
    repeat split; auto; try lia. exists items. auto.
Qed.

Lemma check_passes r data w :
  is_auth_status (status_code r) = false ->
  no_graphql_errors data = true ->
  _check_and_notify_error E (Some r) data w = (Ok false, w).
Proof.
  intros Hs Hn. unfold _check_and_notify_error. rewrite Hs.
  unfold check_graphql_errors, no_graphql_errors in *.
  destruct (truthy data); [| reflexivity].
  destruct (contains "errors" data) as [[|] | e]; try discriminate Hn.
  reflexivity.
Qed.

Lemma iterate_len v items : iterate v = Ok items -> exists n, len v = Ok n.
Proof. destruct v; simpl; intros H; try discriminate H; eauto. Qed.

Lemma dict_find_set k v kvs : dict_find k (dict_set k v kvs) = Some v.
Proof.
  induction kvs as [| [k' v'] rest IH]; simpl.
  - rewrite String.eqb_refl. reflexivity.
  - destruct (String.eqb k k') eqn:Hk; simpl.
    + rewrite String.eqb_refl. reflexivity.
    + rewrite Hk. exact IH.
Qed.

Lemma reports_next_inv answer :
  reports_next answer = true ->
  exists r data sc edges items info has_next cursor,
    answer = Ok r /\ is_auth_status (status_code r) = false /\
    body r = Some data /\ no_graphql_errors data = true /\
    saved_search_results data = Ok sc /\ subscript sc "edges" = Ok edges /\
    iterate edges = Ok items /\ subscript sc "pageInfo" = Ok info /\
    subscript info "hasNextPage" = Ok has_next /\ truthy has_next = true /\
    subscript info "endCursor" = Ok cursor /\ items_of answer = items.
Proof.
  unfold reports_next, items_of. destruct answer as [r | e]; [| discriminate].
  destruct (is_auth_status (status_code r)) eqn:Hs; [discriminate |].
  destruct (body r) as [data |] eqn:Hb; [| discriminate]. simpl.
  destruct (no_graphql_errors data) eqn:Hn; [| discriminate]. simpl.
  unfold page_items, page_info.
  destruct (saved_search_results data) as [sc | e] eqn:Hsc; simpl; [| discriminate].
  destruct (subscript sc "edges") as [edges | e] eqn:He; simpl; [| discriminate].
  destruct (iterate edges) as [items | e] eqn:Hi; simpl; [| discriminate].
  destruct (subscript sc "pageInfo") as [info | e] eqn:Hp; [| discriminate].
  destruct (subscript info "hasNextPage") as [hn | e] eqn:Hh; [| discriminate].
  destruct (truthy hn) eqn:Ht; [| discriminate]. simpl.
  destruct (subscript info "endCursor") as [cursor | e] eqn:Hc; [| discriminate].
  intros _. exists r, data, sc, edges, items, info, hn, cursor. repeat split; auto.
Qed.

Lemma subscript_ok_dict v k x : subscript v k = Ok x -> exists kvs, v = JObj kvs.
Proof. destruct v; simpl; try discriminate. eauto. Qed.

Lemma get_dict kvs k d : exists y, get (JObj kvs) k d = Ok y.
Proof. simpl. destruct (dict_find k kvs); eauto. Qed.

Lemma has_variables_set p vars c vars' p' :
  subscript p "variables" = Ok vars ->
  has_variables p = true ->
  setitem vars "after" c = Ok vars' ->
  setitem p "variables" vars' = Ok p' ->
  has_variables p' = true.
Proof.
  unfold has_variables. intros Hv Hh Hs1 Hs2. rewrite Hv in Hh.
  destruct vars; try discriminate Hh. simpl in Hs1. inversion Hs1; subst.
  destruct p; try discriminate Hs2. simpl in Hs2. inversion Hs2; subst.
  simpl. rewrite dict_find_set. reflexivity.
Qed.

Lemma loop_body_next mp bs st w :
  reports_next (http E (List.length (posts w)) base_url (payload st)) = true ->
  (page st < mp -> has_variables (payload st) = true) ->
  exists st' w',
    loop_body E mp bs st w =
      (Ok (if page st >=? mp then Break StopPageLimit else Continue, st'), w') /\
    page st' = (if page st >=? mp then page st else page st + 1) /\
    has_variables (payload st') = has_variables (payload st) /\
    all_edges st' =
      (all_edges st
       ++ items_of (http E (List.length (posts w)) base_url (payload st)))%list /\
    posts w' = (posts w ++ [(base_url, payload st)])%list /\
    sent w' = sent w.
Proof.
  intros Hn Hv. apply reports_next_inv in Hn.
  destruct Hn as (r & data & sc & edges & items & info & hn & cursor & Hhttp & Hs & Hb
                  & Hg & Hsc & He & Hi & Hp & Hh & Ht & Hc & Hitems).
  rewrite Hitems.
  destruct (iterate_len _ _ Hi) as [n Hlen].
  destruct (subscript_ok_dict _ _ _ He) as [fields Hfields].
  destruct (get_dict fields "totalCount" JNull) as [tc Htc].
  rewrite <- Hfields in Htc.
  assert (Htotal : exists tc', forall w0 : world,
            (if is_none (total_count st)
             then lift (get sc "totalCount" JNull)
             else ret (total_count st)) w0 = (Ok tc', w0)).
  { destruct (is_none (total_count st)).
    - exists tc. intros w0. unfold lift. rewrite Htc. reflexivity.
    - exists (total_count st). reflexivity. }
  destruct Htotal as [tc' Htotal].
  assert (Hflush : exists fl w1,
            (if Z.of_nat (List.length (current_batch st ++ items)) >=? bs
             then _save_companies_to_json (current_batch st ++ items) (batch_number st) ;;;
                  ret ([], batch_number st + 1)
             else ret ((current_batch st ++ items)%list, batch_number st))
              (add_post base_url (payload st) w) = (Ok fl, w1) /\
            posts w1 = (posts w ++ [(base_url, payload st)])%list /\
            sent w1 = sent w).
  { destruct (_ >=? bs).
    - eexists _, _. split; [reflexivity |]. split; reflexivity.
    - eexists _, _. split; [reflexivity |]. split; reflexivity. }
  destruct Hflush as (fl & w1 & Hflush & Hposts & Hsent).
  unfold loop_body, process_response.
  erewrite bind_ok by (unfold requests_post; rewrite Hhttp; reflexivity).
  erewrite bind_ok by (unfold lift, response_json; rewrite Hb; reflexivity).
  erewrite bind_ok by (apply check_passes; assumption).
  cbv beta iota.
  erewrite bind_ok by (unfold lift; rewrite Hsc; reflexivity).
  erewrite bind_ok by (unfold lift; rewrite He; reflexivity).
  erewrite bind_ok by (unfold lift; rewrite Hi; reflexivity).
  erewrite bind_ok by (unfold lift; rewrite Hlen; reflexivity).
  erewrite bind_ok by (apply Htotal).
  erewrite bind_ok by (exact Hflush).
  erewrite bind_ok by (unfold lift; rewrite Hp; reflexivity).
  erewrite bind_ok by (unfold lift; rewrite Hh; reflexivity).
  rewrite Ht. cbn [negb].
  destruct (page st >=? mp) eqn:Hpage.
  - eexists _, _. split; [reflexivity |]. simpl. repeat split; assumption.
  - assert (Hlt : page st < mp) by lia. specialize (Hv Hlt).
    assert (Hv' := Hv). unfold has_variables in Hv'.
    destruct (subscript (payload st) "variables") as [vars | e] eqn:Hvars;
      [| discriminate Hv'].
    destruct vars as [| | | | | vfields]; try discriminate Hv'.
    destruct (subscript_ok_dict _ _ _ Hvars) as [pfields Hpf].
    destruct (delay_world (start_time st) (last_long_break st) w1) as (long & d & Hd).
    erewrite bind_ok by (unfold lift; rewrite Hc; reflexivity).
    erewrite bind_ok by (unfold lift; reflexivity).
    erewrite bind_ok by (unfold lift; simpl; reflexivity).
    erewrite bind_ok by (unfold lift; rewrite Hpf; simpl; reflexivity).
    erewrite bind_ok by (exact Hd).
    eexists _, _. split; [reflexivity |]. simpl.
    repeat split; try assumption; try reflexivity.
    rewrite Hv. unfold has_variables. simpl. rewrite dict_find_set. reflexivity.
Qed.

End ClientFacts.

(* ================================================================== *)
(** * The pagination loop: the whole run *)
(* ================================================================== *)

Section LoopFacts.
Import HarmonicErrorNotifier HarmonicClient.
Context (E : env) {R : Runtime}.

Lemma pagination_loop_facts mp bs fuel : forall st w reason st' w',
  pagination_loop E fuel mp bs st w = (Ok (Some (reason, st')), w') ->
  start_time st' = start_time st /\
  last_long_break st' = last_long_break st /\
  (is_none (total_count st) = false -> total_count st' = total_count st) /\
  exists items,
    all_edges st' = (all_edges st ++ items)%list /\
    (flushed w' ++ current_batch st' = flushed w ++ current_batch st ++ items)%list.
Proof.
  induction fuel as [| fuel IH]; intros st w reason st' w' H; simpl in H.
  - unret H.
  - unbind H as r w1 Hbody. destruct r as [c st1]. simpl in H.
    apply loop_body_facts in Hbody.
    destruct Hbody as (Hs & Hl & Ht & _ & _ & _ & _ & items & Ha & Hf).
    destruct c as [reason0 |].
    + unret H. repeat split; auto. exists items. auto.
    + apply IH in H. destruct H as (Hs' & Hl' & Ht' & items' & Ha' & Hf').
      repeat split; try congruence.
      * intros Hn. rewrite Ht'; [apply Ht; exact Hn |].
        rewrite (Ht Hn). exact Hn.
      * exists (items ++ items')%list. split.
        -- rewrite Ha', Ha. rewrite app_assoc. reflexivity.
        -- rewrite Hf'. rewrite app_assoc. rewrite Hf. rewrite <- !app_assoc. reflexivity.
Qed.


Lemma pagination_loop_fuel mp bs fuel : forall st w,
  (Z.to_nat (Z.max 1 (mp - page st + 1)) <= fuel)%nat ->
  fst (pagination_loop E fuel mp bs st w) <> Ok None.
Proof.
  induction fuel as [| fuel IH]; intros st w Hfuel.
  - exfalso. lia.
  - simpl. unfold bind at 1.
    destruct (loop_body E mp bs st w) as [[[c st1] | e] w1] eqn:Hbody;
      [| simpl; discriminate].
    apply loop_body_facts in Hbody.
    destruct Hbody as (_ & _ & _ & _ & Hp & Hlt & _).
    simpl. destruct c as [reason |].
    + simpl. discriminate.
    + apply IH. specialize (Hlt eq_refl). lia.
Qed.

Lemma finish_run reason st w :
  finish reason st w =
    (Ok {| returned := {| r_total_count := total_count st;
                          r_companies := all_edges st;
                          r_pages_fetched := page st |};
           exit := reason |},
     add_file (OutputFile "harmonic_companies_output.json"
                 (JObj [("companies", JArr (all_edges st))]))
       (match current_batch st with
        | [] => w
        | _ => add_file
                 (BatchFile (batch_number st)
                    ("harmonic_companies_batch_" ++ format_03d (batch_number st)
                     ++ ".json")
                    (JObj [("companies", JArr (current_batch st))])) w
        end)).
Proof.
  unfold finish. destruct (current_batch st); reflexivity.
Qed.

Lemma flushed_add_output name content w :
  flushed (add_file (OutputFile name content) w) = flushed w.
Proof.
  unfold flushed. simpl. rewrite flat_map_app. simpl. apply app_nil_r.
Qed.

Lemma finish_flushed reason st w r w' :
  finish reason st w = (r, w') ->
  flushed w' = (flushed w ++ current_batch st)%list /\
  posts w' = posts w /\ sent w' = sent w.
Proof.
  rewrite finish_run. intros H. inversion H; subst; clear H.
  rewrite flushed_add_output.
  destruct (current_batch st) as [| x l].
  - rewrite app_nil_r. repeat split; reflexivity.
  - rewrite flushed_add_batch. repeat split; reflexivity.
Qed.

End LoopFacts.

Section RunFacts.
Import HarmonicErrorNotifier HarmonicClient.
Context (E : env) {R : Runtime}.

Lemma run_inv query max_pages batch_size w r w' :
  get_company_saved_search_results E query max_pages batch_size w
    = (Ok (Some r), w') ->
  exists st w2,
    pagination_loop E (passes max_pages) max_pages batch_size
      (initial_locals query (now E (clock_reads w))) (tick_clock w)
      = (Ok (Some (exit r, st)), w2) /\
    finish (exit r) st w2 = (Ok r, w').
Proof.
  unfold get_company_saved_search_results. intros H.
  unbind H as t0 w1 Hnow.
  unfold datetime_now in Hnow. inversion Hnow; subst; clear Hnow.
  unbind H as out w2 Hloop.
  destruct out as [[reason st] |]; [| unret H].
  unbind H as r0 w3 Hfin. unret H.
  pose proof (finish_run reason st w2) as Hrun. rewrite Hfin in Hrun.
  inversion Hrun; subst. simpl. exists st, w2. split; [exact Hloop |].
  rewrite finish_run. reflexivity.
Qed.

Lemma run_of_loop query max_pages batch_size w reason st w2 :
  pagination_loop E (passes max_pages) max_pages batch_size
    (initial_locals query (now E (clock_reads w))) (tick_clock w)
    = (Ok (Some (reason, st)), w2) ->
  exists r w',
    get_company_saved_search_results E query max_pages batch_size w
      = (Ok (Some r), w') /\
    finish reason st w2 = (Ok r, w') /\
    exit r = reason /\
    returned r = {| r_total_count := total_count st;
                    r_companies := all_edges st;
                    r_pages_fetched := page st |}.
Proof.
  intros Hloop. unfold get_company_saved_search_results.
  erewrite bind_ok by (unfold datetime_now; reflexivity).
  erewrite bind_ok by (exact Hloop). cbv beta iota.
  erewrite bind_ok by (apply finish_run).
  eexists _, _. split; [reflexivity |]. split; [apply finish_run |].
  split; reflexivity.
Qed.

Lemma run_flushed query max_pages batch_size w r w' :
  get_company_saved_search_results E query max_pages batch_size w
    = (Ok (Some r), w') ->
  flushed w' = (flushed w ++ r_companies (returned r))%list.
Proof.
  intros H. apply run_inv in H. destruct H as (st & w2 & Hloop & Hfin).
  apply pagination_loop_facts in Hloop.
  destruct Hloop as (_ & _ & _ & items & Ha & Hf).
  pose proof (finish_run (exit r) st w2) as Hrun. rewrite Hfin in Hrun.
  apply finish_flushed in Hfin. destruct Hfin as (Hfl & _ & _).
  injection Hrun as Hr Hw.
  rewrite Hfl, Hf, Hr. simpl. rewrite Ha. reflexivity.
Qed.

(** The bound [passes max_pages] is never used up: the method raises or
    returns a result. *)
Lemma get_company_saved_search_results_returns query max_pages batch_size w :
  fst (get_company_saved_search_results E query max_pages batch_size w) <> Ok None.
Proof.
  unfold get_company_saved_search_results.
  erewrite bind_ok by (unfold datetime_now; reflexivity).
  pose proof (pagination_loop_fuel E max_pages batch_size (passes max_pages)
                (initial_locals query (now E (clock_reads w))) (tick_clock w)) as Hf.
  destruct (pagination_loop E (passes max_pages) max_pages batch_size
              (initial_locals query (now E (clock_reads w))) (tick_clock w))
    as [[[[reason st] |] | e] w2] eqn:Hloop.
  - erewrite bind_ok by (exact Hloop). cbv beta iota.
    erewrite bind_ok by (apply finish_run). simpl. discriminate.
  - exfalso. apply Hf; [| reflexivity]. unfold passes. simpl. lia.
  - erewrite bind_raise by (exact Hloop). simpl. discriminate.
Qed.

(** A 401 or 403 with a JSON object as body. *)
Lemma loop_body_auth mp bs st w r kvs :
  http E (List.length (posts w)) base_url (payload st) = Ok r ->
  is_auth_status (status_code r) = true ->
  body r = Some (JObj kvs) ->
  exists w',
    loop_body E mp bs st w = (Ok (Break StopError, st), w') /\
    posts w' = (posts w ++ [(base_url, payload st)])%list /\
    files w' = files w /\
    sent w' = (sent w ++ if messenger E
                         then [http_auth_message E (status_code r)]
                         else [])%list.
Proof.
  intros Hhttp Hs Hb.
  assert (Hcheck : exists w',
            _check_and_notify_error E (Some r) (JObj kvs)
              (add_post base_url (payload st) w) = (Ok true, w') /\
            posts w' = (posts w ++ [(base_url, payload st)])%list /\
            files w' = files w /\
            sent w' = (sent w ++ if messenger E
                                 then [http_auth_message E (status_code r)]
                                 else [])%list).
  { unfold _check_and_notify_error. rewrite Hs.
    unfold notify_auth_failure. destruct (messenger E) eqn:Hm; simpl.
    - eexists. split; [reflexivity |]. repeat split; reflexivity.
    - eexists. split; [reflexivity |]. repeat split; try reflexivity.
      simpl. rewrite app_nil_r. reflexivity. }
  destruct Hcheck as (w' & Hcheck & Hp & Hf & Hsent).
  destruct (get_dict kvs "errors"
              (JStr ("HTTP " ++ str_of_int (status_code r)))) as [x Hget].
  exists w'. split; [| auto].
  unfold loop_body, process_response.
  erewrite bind_ok by (unfold requests_post; rewrite Hhttp; reflexivity).
  erewrite bind_ok by (unfold lift, response_json; rewrite Hb; reflexivity).
  erewrite bind_ok by (exact Hcheck). cbv beta iota.
  erewrite bind_ok by (unfold lift; rewrite Hget; reflexivity).
  reflexivity.
Qed.

Lemma loop_all_next mp bs :
  (forall k url p, reports_next (http E k url p) = true) ->
  forall n st w,
    Z.of_nat n = mp - page st ->
    (page st < mp -> has_variables (payload st) = true) ->
    exists st' w',
      pagination_loop E (S n) mp bs st w = (Ok (Some (StopPageLimit, st')), w') /\
      page st' = mp /\
      List.length (posts w') = (List.length (posts w) + S n)%nat /\
      sent w' = sent w.
Proof.
  intros Hall. induction n as [| n IH]; intros st w Hn Hv.
  - destruct (loop_body_next E mp bs st w (Hall _ _ _) Hv)
      as (st' & w' & Hbody & Hp & _ & _ & Hposts & Hsent).
    assert (Hge : (page st >=? mp) = true) by lia. rewrite Hge in *.
    exists st', w'. simpl pagination_loop.
    erewrite bind_ok by (exact Hbody). simpl.
    repeat split; try assumption; try lia.
    rewrite Hposts, length_app. simpl. lia.
  - destruct (loop_body_next E mp bs st w (Hall _ _ _) Hv)
      as (st1 & w1 & Hbody & Hp & Hvars & _ & Hposts & Hsent).
    assert (Hge : (page st >=? mp) = false) by lia. rewrite Hge in *.
    destruct (IH st1 w1) as (st' & w' & Hloop & Hp' & Hposts' & Hsent').
    { lia. }
    { intros _. rewrite Hvars. apply Hv. lia. }
    exists st', w'. 
    change (pagination_loop E (S (S n)) mp bs st w)
      with (bind (loop_body E mp bs st) (fun r =>
              match fst r with
              | Break reason => ret (Some (reason, snd r))
              | Continue => pagination_loop E (S n) mp bs (snd r)
              end) w).
    erewrite bind_ok by (exact Hbody). cbn [fst snd].
    split; [exact Hloop |]. repeat split; try assumption; try congruence.
    rewrite Hposts', Hposts, length_app. simpl. lia.
Qed.

End RunFacts.

(* ================================================================== *)
(** * The pagination loop: status codes and missing fields *)
(* ================================================================== *)

Section StatusFacts.
Import HarmonicErrorNotifier HarmonicClient.
Context (E : env) {R : Runtime}.

Lemma bind_ext_k {A B} (m : M world A) (k1 k2 : A -> M world B) w :
  (forall a w1, k1 a w1 = k2 a w1) -> bind m k1 w = bind m k2 w.
Proof.
  intros H. unfold bind. destruct (m w) as [[a | e] w1]; [apply H | reflexivity].
Qed.

Lemma get_default_irrelevant {A} v k d1 d2 (m : M world A) w :
  bind (lift (get v k d1)) (fun _ => m) w = bind (lift (get v k d2)) (fun _ => m) w.
Proof.
  unfold bind, lift. destruct v; simpl; try reflexivity.
  destruct (dict_find k fields); reflexivity.
Qed.

(** The response enters a pass through its body and through the test for
    401 and 403 only. *)
Lemma process_response_status mp bs st r w :
  is_auth_status (status_code r) = false ->
  process_response (relabel_status E) mp bs st
    {| status_code := 200; body := body r |} w
  = process_response E mp bs st r w.
Proof.
  intros Hs. unfold process_response.
  change (_apply_human_like_delay (relabel_status E))
    with (_apply_human_like_delay E).
  change (response_json {| status_code := 200; body := body r |})
    with (response_json r).
  apply bind_ext_k. intros data w1.
  replace (_check_and_notify_error (relabel_status E)
             (Some {| status_code := 200; body := body r |}) data)
    with (_check_and_notify_error E (Some r) data)
    by (unfold _check_and_notify_error; rewrite Hs; reflexivity).
  apply bind_ext_k. intros is_error w2.
  destruct is_error; [| reflexivity].
  apply get_default_irrelevant.
Qed.

Lemma process_response_relabel mp bs st r w :
  process_response (relabel_status E) mp bs st r w
  = process_response E mp bs st r w.
Proof. reflexivity. Qed.

Lemma loop_body_relabel mp bs st w :
  loop_body (relabel_status E) mp bs st w = loop_body E mp bs st w.
Proof.
  unfold loop_body, bind, requests_post. simpl http.
  destruct (http E (List.length (posts w)) base_url (payload st)) as [r | e];
    [| reflexivity].
  destruct (is_auth_status (status_code r)) eqn:Hs.
  - apply process_response_relabel.
  - apply process_response_status. exact Hs.
Qed.

Lemma pagination_loop_relabel mp bs fuel : forall st w,
  pagination_loop (relabel_status E) fuel mp bs st w
  = pagination_loop E fuel mp bs st w.
Proof.
  induction fuel as [| fuel IH]; intros st w; [reflexivity |].
  simpl. unfold bind. rewrite loop_body_relabel.
  destruct (loop_body E mp bs st w) as [[[c st1] | e] w1]; [| reflexivity].
  simpl. destruct c; [reflexivity | apply IH].
Qed.

Lemma run_relabel query mp bs w :
  get_company_saved_search_results (relabel_status E) query mp bs w
  = get_company_saved_search_results E query mp bs w.
Proof.
  unfold get_company_saved_search_results.
  change (datetime_now (relabel_status E)) with (datetime_now E).
  apply bind_ext_k. intros t0 w1. unfold bind.
  rewrite pagination_loop_relabel. reflexivity.
Qed.

(** ** Missing fields *)

Lemma subscript_missing k v : missing k v -> subscript v k = Raise (KeyError k).
Proof. intros (kvs & -> & H). simpl. rewrite H. reflexivity. Qed.

Lemma get_missing k v d : missing k v -> get v k d = Ok d.
Proof. intros (kvs & -> & H). simpl. rewrite H. reflexivity. Qed.

Lemma is_none_null v : is_none v = true -> v = JNull.
Proof. destruct v; simpl; intros H; try discriminate H; reflexivity. Qed.

Lemma total_step (st : locals) sc x (w0 : world) :
  subscript sc "edges" = Ok x ->
  exists tc,
    (if is_none (total_count st)
     then lift (get sc "totalCount" JNull)
     else ret (total_count st)) w0 = (Ok tc, w0) /\
    (missing "totalCount" sc -> tc = total_count st).
Proof.
  intros He. destruct (subscript_ok_dict _ _ _ He) as [fields ->].
  destruct (is_none (total_count st)) eqn:Hn.
  - destruct (get_dict fields "totalCount" JNull) as [tc Htc].
    exists tc. split; [unfold lift; rewrite Htc; reflexivity |].
    intros Hm. rewrite (get_missing _ _ JNull Hm) in Htc.
    apply is_none_null in Hn. congruence.
  - exists (total_count st). split; reflexivity.
Qed.

Lemma flush_step (batch : list json) (number bs : Z) (w0 : world) :
  exists fl w1,
    (if Z.of_nat (List.length batch) >=? bs
     then _save_companies_to_json batch number ;;; ret ([], number + 1)
     else ret (batch, number)) w0 = (Ok fl, w1).
Proof.
  destruct (_ >=? bs); eexists _, _; reflexivity.
Qed.

Section Page.
Variables (mp bs : Z) (st : locals) (w : world) (r : response) (data : json).
Hypothesis Hhttp : http E (List.length (posts w)) base_url (payload st) = Ok r.
Hypothesis Hstatus : is_auth_status (status_code r) = false.
Hypothesis Hbody : body r = Some data.
Hypothesis Hpass : no_graphql_errors data = true.

Lemma loop_body_enters :
  loop_body E mp bs st w =
  bind (lift (saved_search_results data))
    (fun search_companies =>
       edges <- lift (subscript search_companies "edges") ;;
       new_edges <- lift (iterate edges) ;;
       let all_edges' := (all_edges st ++ new_edges)%list in
       let batch := (current_batch st ++ new_edges)%list in
       lift (len edges) ;;;
       total_count' <-
         (if is_none (total_count st)
          then lift (get search_companies "totalCount" JNull)
          else ret (total_count st)) ;;
       flushed <-
         (if (Z.of_nat (List.length batch) >=? bs)%Z
          then _save_companies_to_json batch (batch_number st) ;;;
               ret ([], (batch_number st + 1)%Z)
          else ret (batch, batch_number st)) ;;
       let st1 :=
         {| all_edges := all_edges'; total_count := total_count';
            page := page st; current_batch := fst flushed;
            batch_number := snd flushed; payload := payload st;
            start_time := start_time st;
            last_long_break := last_long_break st |} in
       page_info <- lift (subscript search_companies "pageInfo") ;;
       has_next <- lift (subscript page_info "hasNextPage") ;;
       if negb (truthy has_next) then ret (Break StopExhausted, st1)
       else if (page st >=? mp)%Z then ret (Break StopPageLimit, st1)
       else
         end_cursor <- lift (subscript page_info "endCursor") ;;
         variables <- lift (subscript (payload st) "variables") ;;
         variables' <- lift (setitem variables "after" end_cursor) ;;
         payload' <- lift (setitem (payload st) "variables" variables') ;;
         _apply_human_like_delay E (start_time st) (last_long_break st) ;;;
         ret (Continue,
              {| all_edges := all_edges'; total_count := total_count';
                 page := (page st + 1)%Z; current_batch := fst flushed;
                 batch_number := snd flushed; payload := payload';
                 start_time := start_time st;
                 last_long_break := last_long_break st |}))
    (add_post base_url (payload st) w).
Proof.
  unfold loop_body, process_response.
  erewrite bind_ok by (unfold requests_post; rewrite Hhttp; reflexivity).
  erewrite bind_ok by (unfold lift, response_json; rewrite Hbody; reflexivity).
  erewrite bind_ok by (apply check_passes; assumption).
  reflexivity.
Qed.

Lemma raises_without_results e :
  saved_search_results data = Raise e ->
  fst (loop_body E mp bs st w) = Raise e.
Proof.
  intros H. rewrite loop_body_enters.
  erewrite bind_raise by (unfold lift; rewrite H; reflexivity). reflexivity.
Qed.

Lemma raises_without_edges sc e :
  saved_search_results data = Ok sc ->
  subscript sc "edges" = Raise e ->
  fst (loop_body E mp bs st w) = Raise e.
Proof.
  intros Hsc H. rewrite loop_body_enters.
  erewrite bind_ok by (unfold lift; rewrite Hsc; reflexivity).
  erewrite bind_raise by (unfold lift; rewrite H; reflexivity). reflexivity.
Qed.

Lemma raises_without_page_info sc edges items e :
  saved_search_results data = Ok sc ->
  subscript sc "edges" = Ok edges ->
  iterate edges = Ok items ->
  subscript sc "pageInfo" = Raise e ->
  fst (loop_body E mp bs st w) = Raise e.
Proof.
  intros Hsc He Hi H. rewrite loop_body_enters.
  destruct (iterate_len _ _ Hi) as [n Hlen].
  destruct (total_step st sc edges (add_post base_url (payload st) w) He)
    as (tc & Htc & _).
  destruct (flush_step (current_batch st ++ items) (batch_number st) bs
              (add_post base_url (payload st) w)) as (fl & w1 & Hfl).
  erewrite bind_ok by (unfold lift; rewrite Hsc; reflexivity).
  erewrite bind_ok by (unfold lift; rewrite He; reflexivity).
  erewrite bind_ok by (unfold lift; rewrite Hi; reflexivity).
  erewrite bind_ok by (unfold lift; rewrite Hlen; reflexivity).
  erewrite bind_ok by (exact Htc).
  erewrite bind_ok by (exact Hfl).
  erewrite bind_raise by (unfold lift; rewrite H; reflexivity). reflexivity.
Qed.

Lemma raises_without_has_next sc edges items info e :
  saved_search_results data = Ok sc ->
  subscript sc "edges" = Ok edges ->
  iterate edges = Ok items ->
  subscript sc "pageInfo" = Ok info ->
  subscript info "hasNextPage" = Raise e ->
  fst (loop_body E mp bs st w) = Raise e.
Proof.
  intros Hsc He Hi Hp H. rewrite loop_body_enters.
  destruct (iterate_len _ _ Hi) as [n Hlen].
  destruct (total_step st sc edges (add_post base_url (payload st) w) He)
    as (tc & Htc & _).
  destruct (flush_step (current_batch st ++ items) (batch_number st) bs
              (add_post base_url (payload st) w)) as (fl & w1 & Hfl).
  erewrite bind_ok by (unfold lift; rewrite Hsc; reflexivity).
  erewrite bind_ok by (unfold lift; rewrite He; reflexivity).
  erewrite bind_ok by (unfold lift; rewrite Hi; reflexivity).
  erewrite bind_ok by (unfold lift; rewrite Hlen; reflexivity).
  erewrite bind_ok by (exact Htc).
  erewrite bind_ok by (exact Hfl).
  erewrite bind_ok by (unfold lift; rewrite Hp; reflexivity).
  erewrite bind_raise by (unfold lift; rewrite H; reflexivity). reflexivity.
Qed.

Lemma raises_without_cursor sc edges items info has_next e :
  saved_search_results data = Ok sc ->
  subscript sc "edges" = Ok edges ->
  iterate edges = Ok items ->
  subscript sc "pageInfo" = Ok info ->
  subscript info "hasNextPage" = Ok has_next ->
  truthy has_next = true ->
  page st < mp ->
  subscript info "endCursor" = Raise e ->
  fst (loop_body E mp bs st w) = Raise e.
Proof.
  intros Hsc He Hi Hp Hh Ht Hlt H. rewrite loop_body_enters.
  destruct (iterate_len _ _ Hi) as [n Hlen].
  destruct (total_step st sc edges (add_post base_url (payload st) w) He)
    as (tc & Htc & _).
  destruct (flush_step (current_batch st ++ items) (batch_number st) bs
              (add_post base_url (payload st) w)) as (fl & w1 & Hfl).
  erewrite bind_ok by (unfold lift; rewrite Hsc; reflexivity).
  erewrite bind_ok by (unfold lift; rewrite He; reflexivity).
  erewrite bind_ok by (unfold lift; rewrite Hi; reflexivity).
  erewrite bind_ok by (unfold lift; rewrite Hlen; reflexivity).
  erewrite bind_ok by (exact Htc).
  erewrite bind_ok by (exact Hfl).
  erewrite bind_ok by (unfold lift; rewrite Hp; reflexivity).
  erewrite bind_ok by (unfold lift; rewrite Hh; reflexivity).
  rewrite Ht. cbn [negb].
  assert (Hge : (page st >=? mp) = false) by lia. rewrite Hge.
  erewrite bind_raise by (unfold lift; rewrite H; reflexivity). reflexivity.
Qed.

(** A last page: [hasNextPage] is falsy; neither [totalCount] nor
    [endCursor] is read from a dictionary that lacks it. *)
Lemma last_page_passes sc edges items info has_next :
  saved_search_results data = Ok sc ->
  subscript sc "edges" = Ok edges ->
  iterate edges = Ok items ->
  subscript sc "pageInfo" = Ok info ->
  subscript info "hasNextPage" = Ok has_next ->
  truthy has_next = false ->
  exists st' w',
    loop_body E mp bs st w = (Ok (Break StopExhausted, st'), w') /\
    all_edges st' = (all_edges st ++ items)%list /\
    page st' = page st /\
    (missing "totalCount" sc -> total_count st' = total_count st).
Proof.
  intros Hsc He Hi Hp Hh Ht. rewrite loop_body_enters.
  destruct (iterate_len _ _ Hi) as [n Hlen].
  destruct (total_step st sc edges (add_post base_url (payload st) w) He)
    as (tc & Htc & Hmiss).
  destruct (flush_step (current_batch st ++ items) (batch_number st) bs
              (add_post base_url (payload st) w)) as (fl & w1 & Hfl).
  erewrite bind_ok by (unfold lift; rewrite Hsc; reflexivity).
  erewrite bind_ok by (unfold lift; rewrite He; reflexivity).
  erewrite bind_ok by (unfold lift; rewrite Hi; reflexivity).
  erewrite bind_ok by (unfold lift; rewrite Hlen; reflexivity).
  erewrite bind_ok by (exact Htc).
  erewrite bind_ok by (exact Hfl).
  erewrite bind_ok by (unfold lift; rewrite Hp; reflexivity).
  erewrite bind_ok by (unfold lift; rewrite Hh; reflexivity).
  rewrite Ht. cbn [negb].
  eexists _, _. split; [reflexivity |]. simpl. repeat split. exact Hmiss.
Qed.

End Page.
End StatusFacts.

Section MoreFacts.
Import HarmonicErrorNotifier HarmonicClient.
Context (E : env) {R : Runtime}.

Lemma pagination_loop_S fuel mp bs st w :
  pagination_loop E (S fuel) mp bs st w =
  bind (loop_body E mp bs st)
       (fun r => match fst r with
                 | Break reason => ret (Some (reason, snd r))
                 | Continue => pagination_loop E fuel mp bs (snd r)
                 end) w.
Proof. reflexivity. Qed.

Lemma saved_search_results_missing data :
  (missing "data" data -> saved_search_results data = Raise (KeyError "data")) /\
  (forall d, subscript data "data" = Ok d -> missing "getSavedSearch" d ->
             saved_search_results data = Raise (KeyError "getSavedSearch")) /\
  (forall d s, subscript data "data" = Ok d ->
               subscript d "getSavedSearch" = Ok s -> missing "results" s ->
               saved_search_results data = Raise (KeyError "results")).
Proof.
  unfold saved_search_results. repeat split.
  - intros H. rewrite (subscript_missing _ _ H). reflexivity.
  - intros d Hd H. rewrite Hd. simpl. rewrite (subscript_missing _ _ H). reflexivity.
  - intros d s Hd Hs H. rewrite Hd. simpl. rewrite Hs. simpl.
    apply subscript_missing. exact H.
Qed.

End MoreFacts.

(* ================================================================== *)
(** * The pagination loop: the records of the pages *)
(* ================================================================== *)

Section FedFacts.
Import HarmonicErrorNotifier HarmonicClient.
Context (E : env) {R : Runtime}.

(** A pass that does not stop on the error check takes the records of the
    page it was answered with, all of them and in their order. *)
Lemma loop_body_items mp bs st w c st' w' :
  loop_body E mp bs st w = (Ok (c, st'), w') ->
  all_edges st' =
    (all_edges st
     ++ match c with
        | Break StopError => []
        | _ => items_of (http E (List.length (posts w)) base_url (payload st))
        end)%list.
Proof.
  unfold loop_body, process_response. intros H.
  unbind H as response w1 Hpost.
  apply requests_post_inv in Hpost. destruct Hpost as [Hhttp ->].
  unbind H as data w2 Hjson. unlift Hjson.
  unbind H as is_error w3 Hcheck.
  destruct is_error.
  - unbind H as x w4 Hget. unlift Hget. unret H. rewrite app_nil_r. reflexivity.
  - unbind H as sc w4 Hsc. unlift Hsc.
    unbind H as edges w4 Hedges. unlift Hedges.
    unbind H as items w4 Hitems. unlift Hitems.
    assert (Hpage : (all_edges st
                     ++ items_of (http E (List.length (posts w)) base_url
                                    (payload st)))%list
                    = (all_edges st ++ items)%list).
    { f_equal. rewrite Hhttp. unfold items_of. unfold response_json in Hjson.
      destruct (body response); [| discriminate Hjson].
      inversion Hjson; subst. unfold page_items.
      rewrite Hsc. simpl. rewrite Hedges. simpl. rewrite Hitems. reflexivity. }
    unbind H as n w4 Hlen. unlift Hlen.
    unbind H as tc w4 Htc.
    unbind H as fl w5 Hfl.
    unbind H as info w6 Hinfo. unlift Hinfo.
    unbind H as has_next w6 Hnext. unlift Hnext.
    destruct (negb (truthy has_next)).
    { unret H. simpl. rewrite Hpage. reflexivity. }
    destruct (page st >=? mp).
    { unret H. simpl. rewrite Hpage. reflexivity. }
    unbind H as cursor w7 Hcur. unlift Hcur.
    unbind H as vars w7 Hvars. unlift Hvars.
    unbind H as vars' w7 Hvars'. unlift Hvars'.
    unbind H as payload' w7 Hpl. unlift Hpl.
    unbind H as dl w7 Hdelay. unret H. simpl. rewrite Hpage. reflexivity.
Qed.

Lemma removelast_cons {A : Type} (a : A) (l : list A) :
  l <> [] -> removelast (a :: l) = a :: removelast l.
Proof. destruct l; [congruence | reflexivity]. Qed.

Lemma answers_nonempty k requests :
  requests <> [] -> answers E k requests <> [].
Proof. destruct requests as [| [url p] rest]; [congruence | discriminate]. Qed.

Lemma fed_cons reason a pages :
  pages <> [] -> fed reason (a :: pages) = a :: fed reason pages.
Proof.
  intros Hne. destruct reason; try reflexivity.
  apply removelast_cons, Hne.
Qed.

(** The loop: one request per pass, and the records of the pages in the
    order of the requests. *)
Lemma pagination_loop_items mp bs fuel : forall st w reason st' w',
  pagination_loop E fuel mp bs st w = (Ok (Some (reason, st')), w') ->
  exists requests,
    requests <> [] /\
    posts w' = (posts w ++ requests)%list /\
    all_edges st' =
      (all_edges st
       ++ flat_map items_of
            (fed reason (answers E (List.length (posts w)) requests)))%list.
Proof.
  induction fuel as [| fuel IH]; intros st w reason st' w' H; simpl in H.
  - unret H.
  - unbind H as r w1 Hbody. destruct r as [c st1]. simpl in H.
    pose proof (loop_body_items _ _ _ _ _ _ _ Hbody) as Hitems.
    apply loop_body_facts in Hbody.
    destruct Hbody as (_ & _ & _ & _ & _ & _ & Hposts & _).
    destruct c as [reason0 |].
    + unret H. exists [(base_url, payload st)].
      split; [discriminate |]. split; [exact Hposts |].
      rewrite Hitems. destruct reason0; simpl; rewrite ?app_nil_r; reflexivity.
    + apply IH in H. destruct H as (requests & Hne & Hp & Ha).
      exists ((base_url, payload st) :: requests).
      split; [discriminate |]. split.
      * rewrite Hp, Hposts. rewrite <- app_assoc. reflexivity.
      * rewrite Ha, Hitems, Hposts. rewrite length_app. simpl List.length.
        replace (List.length (posts w) + 1)%nat with (S (List.length (posts w)))
          by lia.
        cbn [answers].
        rewrite fed_cons by (apply answers_nonempty, Hne).
        simpl flat_map. rewrite <- app_assoc. reflexivity.
Qed.

(** The returned records are the records of the pages of the run. *)
Lemma run_items query max_pages batch_size w r w' :
  get_company_saved_search_results E query max_pages batch_size w
    = (Ok (Some r), w') ->
  r_companies (returned r) = records_fed E (exit r) w w'.
Proof.
  intros H. apply run_inv in H. destruct H as (st & w2 & Hloop & Hfin).
  apply pagination_loop_items in Hloop.
  destruct Hloop as (requests & _ & Hp & Ha).
  pose proof (finish_run (exit r) st w2) as Hrun. rewrite Hfin in Hrun.
  apply finish_flushed in Hfin. destruct Hfin as (_ & Hposts & _).
  injection Hrun as Hr Hw. rewrite Hr. cbn [returned r_companies].
  rewrite Ha. simpl.
  unfold records_fed, pages_between. rewrite Hposts, Hp. simpl.
  rewrite skipn_app, skipn_all, Nat.sub_diag. reflexivity.
Qed.

End FedFacts.

(* ================================================================== *)
(** * The pagination loop: the properties *)
(* ================================================================== *)

Section PaginationProperties.
Import HarmonicErrorNotifier HarmonicClient.
Context (E : env) {R : Runtime}.

(** C3.  Batch completeness: whenever [get_company_saved_search_results]
    returns, for every [batch_size] (so for every capacity of at least 1)
    and whatever pages the server sent, the batch files written during the
    run (the full batches flushed inside the loop and the remainder flushed
    after it), concatenated in the order they were written, are exactly
    the returned [companies], and these are exactly the records of the
    pages that went through the loop, page after page in the order the
    pages were requested: nothing lost, nothing twice, order kept.  The
    pages are the server's answers to the requests of the run; the one
    page left out is an answer on which the error check stopped the
    loop. *)
Theorem batch_completeness query max_pages batch_size w r w' :
  get_company_saved_search_results E query max_pages batch_size w
    = (Ok (Some r), w') ->
  flushed w' = (flushed w ++ r_companies (returned r))%list /\
  r_companies (returned r) = records_fed E (exit r) w w' /\
  flushed w' = (flushed w ++ records_fed E (exit r) w w')%list.
Proof.
  intros H. pose proof (run_flushed E _ _ _ _ _ _ H) as Hf.
  pose proof (run_items E _ _ _ _ _ _ H) as Hi.
  split; [exact Hf |]. split; [exact Hi |]. rewrite <- Hi. exact Hf.
Qed.

(** X29.  Termination at the page limit: for [max_pages = N >= 1], when
    every answer of the server is a page that reports [hasNextPage] true
    and, for [N > 1], the payload has a [variables] dictionary for the
    cursor, the run returns after exactly [N] requests, leaves the loop
    through the [page >= max_pages] break and reports [pages_fetched = N];
    all records, a remainder included, are in the batch files.  With
    [N = 1] there is exactly one request and the returned records are that
    page's. *)
Theorem page_limit_termination query N batch_size w :
  1 <= N ->
  (forall k url p, reports_next (http E k url p) = true) ->
  (1 < N -> has_variables (payload_of query) = true) ->
  exists r w',
    get_company_saved_search_results E query N batch_size w = (Ok (Some r), w') /\
    exit r = StopPageLimit /\
    r_pages_fetched (returned r) = N /\
    List.length (posts w') = (List.length (posts w) + Z.to_nat N)%nat /\
    flushed w' = (flushed w ++ r_companies (returned r))%list /\
    (N = 1 ->
     r_companies (returned r)
     = items_of (http E (List.length (posts w)) base_url (payload_of query))).
Proof.
  intros HN Hall Hvars.
  set (st0 := initial_locals query (now E (clock_reads w))).
  destruct (loop_all_next E N batch_size Hall (Z.to_nat (N - 1)) st0 (tick_clock w))
    as (st' & w2 & Hloop & Hpage & Hposts & _).
  { simpl. lia. }
  { simpl. exact Hvars. }
  assert (Hpasses : passes N = S (Z.to_nat (N - 1))) by (unfold passes; lia).
  rewrite <- Hpasses in Hloop.
  destruct (run_of_loop E query N batch_size w _ _ _ Hloop)
    as (r & w' & Hrun & Hfin & Hexit & Hret).
  exists r, w'. split; [exact Hrun |]. split; [exact Hexit |].
  split; [rewrite Hret; exact Hpage |].
  apply finish_flushed in Hfin. destruct Hfin as (_ & Hp & _).
  split; [rewrite Hp, Hposts; simpl; lia |].
  split; [apply (run_flushed E _ _ _ _ _ _ Hrun) |].
  intros H1. rewrite H1 in *. rewrite Hret. simpl.
  rewrite Hpasses in Hloop. change (Z.to_nat (1 - 1)) with 0%nat in Hloop.
  rewrite pagination_loop_S in Hloop.
  destruct (loop_body_next E 1 batch_size st0 (tick_clock w) (Hall _ _ _))
    as (st1 & w1 & Hbody & _ & _ & Hedges & _).
  { simpl. lia. }
  erewrite bind_ok in Hloop by (exact Hbody). simpl in Hloop.
  unfold ret in Hloop. inversion Hloop; subst. exact Hedges.
Qed.


(** C1, as amended.  A first page that reports a next page, then an HTTP 401
    (or 403) with a JSON object as body: the run stops through the error
    break and returns page 1's records with [pages_fetched = 2], the number
    of the page that was being requested; two requests were sent, and the
    notifier was asked once: one auth-failure message when the messenger is
    there, none when it is not. *)
Theorem auth_failure_on_second_page query max_pages batch_size w r2 kvs :
  2 <= max_pages ->
  reports_next (http E (List.length (posts w)) base_url (payload_of query)) = true ->
  has_variables (payload_of query) = true ->
  (forall p, http E (S (List.length (posts w))) base_url p = Ok r2) ->
  is_auth_status (status_code r2) = true ->
  body r2 = Some (JObj kvs) ->
  exists r w',
    get_company_saved_search_results E query max_pages batch_size w
      = (Ok (Some r), w') /\
    exit r = StopError /\
    r_pages_fetched (returned r) = 2 /\
    r_companies (returned r)
      = items_of (http E (List.length (posts w)) base_url (payload_of query)) /\
    List.length (posts w') = (List.length (posts w) + 2)%nat /\
    sent w' = (sent w ++ if messenger E
                         then [http_auth_message E (status_code r2)]
                         else [])%list.
Proof.
  intros Hmp Hfirst Hvars Hsecond Hauth Hbody.
  set (st0 := initial_locals query (now E (clock_reads w))).
  destruct (loop_body_next E max_pages batch_size st0 (tick_clock w) Hfirst)
    as (st1 & w1 & Hpass1 & Hpage1 & _ & Hedges & Hposts1 & Hsent1).
  { intros _. exact Hvars. }
  assert (Hlt : (page st0 >=? max_pages) = false) by (simpl; lia).
  rewrite Hlt in Hpass1, Hpage1.
  assert (Hlen1 : List.length (posts w1) = S (List.length (posts w))).
  { rewrite Hposts1, length_app. simpl. lia. }
  destruct (loop_body_auth E max_pages batch_size st1 w1 r2 kvs)
    as (w2 & Hpass2 & Hposts2 & _ & Hsent2); try assumption.
  { rewrite Hlen1. apply Hsecond. }
  assert (Hpasses : exists fuel, passes max_pages = S (S fuel)).
  { exists (Z.to_nat (max_pages - 2)). unfold passes. lia. }
  destruct Hpasses as [fuel Hpasses].
  assert (Hloop : pagination_loop E (passes max_pages) max_pages batch_size st0
                    (tick_clock w) = (Ok (Some (StopError, st1)), w2)).
  { rewrite Hpasses, pagination_loop_S.
    erewrite bind_ok by (exact Hpass1). cbn [fst snd].
    rewrite pagination_loop_S.
    erewrite bind_ok by (exact Hpass2). reflexivity. }
  destruct (run_of_loop E query max_pages batch_size w _ _ _ Hloop)
    as (r & w' & Hrun & Hfin & Hexit & Hret).
  apply finish_flushed in Hfin. destruct Hfin as (_ & Hp & Hs).
  exists r, w'. split; [exact Hrun |]. split; [exact Hexit |].
  rewrite Hret. simpl.
  split; [rewrite Hpage1; reflexivity |].
  split; [rewrite Hedges; reflexivity |].
  split; [rewrite Hp, Hposts2, length_app, Hlen1; simpl; lia |].
  rewrite Hs, Hsent2, Hsent1. reflexivity.
Qed.

(** C2, as amended.  For a body that passes the error check, a missing
    field of the fixed path makes the pass raise [KeyError]: ["data"],
    ["getSavedSearch"], ["results"], ["edges"], ["pageInfo"],
    ["hasNextPage"], and ["endCursor"] when another page is to be fetched.
    Only [totalCount] may be absent (the total stays as it was), and
    [endCursor] when [hasNextPage] is falsy. *)
Theorem missing_fields_raise max_pages batch_size st w r data :
  http E (List.length (posts w)) base_url (payload st) = Ok r ->
  is_auth_status (status_code r) = false ->
  body r = Some data ->
  no_graphql_errors data = true ->
  (forall e, saved_search_results data = Raise e ->
             fst (loop_body E max_pages batch_size st w) = Raise e) /\
  (missing "data" data -> saved_search_results data = Raise (KeyError "data")) /\
  (forall d, subscript data "data" = Ok d -> missing "getSavedSearch" d ->
             saved_search_results data = Raise (KeyError "getSavedSearch")) /\
  (forall d s, subscript data "data" = Ok d ->
               subscript d "getSavedSearch" = Ok s -> missing "results" s ->
               saved_search_results data = Raise (KeyError "results")) /\
  (forall sc, saved_search_results data = Ok sc ->
     (missing "edges" sc ->
      fst (loop_body E max_pages batch_size st w) = Raise (KeyError "edges")) /\
     (forall edges items,
        subscript sc "edges" = Ok edges -> iterate edges = Ok items ->
        (missing "pageInfo" sc ->
         fst (loop_body E max_pages batch_size st w) = Raise (KeyError "pageInfo")) /\
        (forall info, subscript sc "pageInfo" = Ok info ->
           (missing "hasNextPage" info ->
            fst (loop_body E max_pages batch_size st w)
              = Raise (KeyError "hasNextPage")) /\
           (forall has_next, subscript info "hasNextPage" = Ok has_next ->
              (truthy has_next = true -> page st < max_pages ->
               missing "endCursor" info ->
               fst (loop_body E max_pages batch_size st w)
                 = Raise (KeyError "endCursor")) /\
              (truthy has_next = false ->
               exists st' w',
                 loop_body E max_pages batch_size st w
                   = (Ok (Break StopExhausted, st'), w') /\
                 all_edges st' = (all_edges st ++ items)%list /\
                 (missing "totalCount" sc ->
                  total_count st' = total_count st)))))).
Proof.
  intros Hhttp Hs Hb Hp.
  split; [intros e; apply (raises_without_results E) with (r := r); assumption |].
  destruct (saved_search_results_missing data) as (H1 & H2 & H3).
  split; [exact H1 |]. split; [exact H2 |]. split; [exact H3 |].
  intros sc Hsc. split.
  { intros Hm. apply (raises_without_edges E) with (r := r) (data := data) (sc := sc);
      try assumption. apply subscript_missing. exact Hm. }
  intros edges items He Hi. split.
  { intros Hm.
    apply (raises_without_page_info E) with (r := r) (data := data) (sc := sc)
                                            (edges := edges) (items := items);
      try assumption. apply subscript_missing. exact Hm. }
  intros info Hinfo. split.
  { intros Hm.
    apply (raises_without_has_next E) with (r := r) (data := data) (sc := sc)
                                           (edges := edges) (items := items)
                                           (info := info);
      try assumption. apply subscript_missing. exact Hm. }
  intros has_next Hh. split.
  { intros Ht Hlt Hm.
    apply (raises_without_cursor E) with (r := r) (data := data) (sc := sc)
                                         (edges := edges) (items := items)
                                         (info := info) (has_next := has_next);
      try assumption. apply subscript_missing. exact Hm. }
  intros Ht.
  destruct (last_page_passes E max_pages batch_size st w r data Hhttp Hs Hb Hp
              sc edges items info has_next Hsc He Hi Hinfo Hh Ht)
    as (st' & w' & Hrun & Ha & _ & Hm).
  exists st', w'. repeat split; assumption.
Qed.

(** C5.  Total-count stability: take the pass in which [total_count] is
    still [None] and the page reports a [totalCount] that is not null.
    Whatever the later pages report, the loop ends with that value, and it
    is the [total_count] of the returned dictionary. *)
Theorem total_count_stable max_pages batch_size st w st1 w1 fuel reason st' w' :
  loop_body E max_pages batch_size st w = (Ok (Continue, st1), w1) ->
  is_none (total_count st) = true ->
  is_none (reported_total
             (http E (List.length (posts w)) base_url (payload st))) = false ->
  pagination_loop E fuel max_pages batch_size st1 w1
    = (Ok (Some (reason, st')), w') ->
  total_count st'
    = reported_total (http E (List.length (posts w)) base_url (payload st)) /\
  forall w2 r w3,
    finish reason st' w2 = (Ok r, w3) ->
    r_total_count (returned r)
    = reported_total (http E (List.length (posts w)) base_url (payload st)).
Proof.
  intros Hpass Hnull Hseen Hloop.
  apply loop_body_facts in Hpass.
  destruct Hpass as (_ & _ & _ & Hset & _).
  assert (H1 : total_count st1
               = reported_total
                   (http E (List.length (posts w)) base_url (payload st))).
  { apply Hset; [exact Hnull | discriminate]. }
  apply pagination_loop_facts in Hloop.
  destruct Hloop as (_ & _ & Hkeep & _).
  assert (H2 : total_count st' = total_count st1).
  { apply Hkeep. rewrite H1. exact Hseen. }
  split; [congruence |].
  intros w2 r w3 Hfin. rewrite finish_run in Hfin.
  inversion Hfin; subst. simpl. congruence.
Qed.

(** C7, as amended.  A 401 or 403 (with a JSON object as body) sends the
    auth-failure notification, sends no further request and leaves the loop
    through the error break: the method returns, it does not raise.  Every
    other status is not looked at: replacing it by 200 changes nothing in
    the run. *)
Theorem status_code_handling :
  (forall max_pages batch_size st w r kvs,
     http E (List.length (posts w)) base_url (payload st) = Ok r ->
     is_auth_status (status_code r) = true ->
     body r = Some (JObj kvs) ->
     exists w',
       loop_body E max_pages batch_size st w = (Ok (Break StopError, st), w') /\
       posts w' = (posts w ++ [(base_url, payload st)])%list /\
       sent w' = (sent w ++ if messenger E
                            then [http_auth_message E (status_code r)]
                            else [])%list)
  /\
  (forall query max_pages batch_size w,
     get_company_saved_search_results (relabel_status E) query max_pages
       batch_size w
     = get_company_saved_search_results E query max_pages batch_size w).
Proof.
  split.
  - intros mp bs st w r kvs Hhttp Hs Hb.
    destruct (loop_body_auth E mp bs st w r kvs Hhttp Hs Hb)
      as (w' & H1 & H2 & _ & H3).
    exists w'. repeat split; assumption.
  - intros. apply run_relabel.
Qed.

End PaginationProperties.

(* ================================================================== *)
(** * The pacer *)
(* ================================================================== *)

Section Pacer.
Import HarmonicErrorNotifier HarmonicClient.
Context (E : env) {R : Runtime}.

(** What one call of the pacer does. *)
Lemma human_like_delay_run start last w :
  _apply_human_like_delay E start last w =
  if (now E (clock_reads w) - last >=? three_minutes)%Z
  then (Ok (true, now E (clock_reads w)),
        add_sleep (60 * 3 + (60 * 5 - 60 * 3) * random E (draws w))%Q
          (tick_draw (tick_clock w)))
  else (Ok (false, last),
        add_sleep (2 + (8 - 2) * random E (draws w))%Q
          (tick_draw (tick_clock w))).
Proof.
  unfold _apply_human_like_delay, bind, datetime_now, random_uniform,
    time_sleep, modify, ret. simpl.
  destruct (_ >=? _)%Z; reflexivity.
Qed.

(** [random.random()] is in [[0, 1)]: the long delay is in [[180, 300)],
    the short one in [[2, 8)]. *)
Lemma delay_ranges (u : Q) :
  (0 <= u < 1)%Q ->
  (180 <= 60 * 3 + (60 * 5 - 60 * 3) * u < 300)%Q /\
  (2 <= 2 + (8 - 2) * u < 8)%Q.
Proof. intros [H0 H1]. split; split; lra. Qed.

(** The loop never writes its [last_long_break]: it ends with the value it
    started with. *)
Lemma last_long_break_constant fuel mp bs st w reason st' w' :
  pagination_loop E fuel mp bs st w = (Ok (Some (reason, st')), w') ->
  last_long_break st' = last_long_break st.
Proof.
  intros H. apply pagination_loop_facts in H.
  destruct H as (_ & Hl & _). exact Hl.
Qed.

End Pacer.

(* ================================================================== *)
(** * The detail clients: errors in the body *)
(* ================================================================== *)

Section DetailFacts.
Import HarmonicErrorNotifier GraphQL.
Context (E : env) {R : Runtime}.

Lemma notify_auth_failure_ok d w :
  exists b w', notify_auth_failure E d w = (Ok b, w').
Proof.
  unfold notify_auth_failure. destruct (messenger E); simpl; eexists _, _; reflexivity.
Qed.

Lemma notify_api_error_ok t d w :
  exists b w', notify_api_error E t d w = (Ok b, w').
Proof.
  unfold notify_api_error. destruct (messenger E); simpl; eexists _, _; reflexivity.
Qed.

(** A response that is no 4xx and no 5xx and whose body is a dictionary
    with an ["errors"] entry: [_make_request] notifies and hands the body
    back. *)
Lemma make_request_with_errors operation payload w resp kvs errs :
  http E (List.length (posts w)) (BASE_URL ++ "?" ++ operation)%string payload = Ok resp ->
  raise_for_status resp = Ok tt ->
  body resp = Some (JObj kvs) ->
  dict_find "errors" kvs = Some errs ->
  exists w', _make_request E operation payload w = (Ok (JObj kvs), w').
Proof.
  intros Hhttp Hstatus Hbody Herrs. unfold _make_request.
  erewrite bind_ok by (unfold requests_post; rewrite Hhttp; reflexivity).
  assert (Hnote : exists w1,
            (if orb (status_code resp =? 401)%Z (status_code resp =? 403)%Z
             then notify_auth_failure E
                    ("HTTP " ++ str_of_int (status_code resp) ++ ": " ++ operation)%string ;;;
                  ret tt
             else ret tt) (add_post (BASE_URL ++ "?" ++ operation)%string payload w)
            = (Ok tt, w1)).
  { destruct (orb _ _).
    - destruct (notify_auth_failure_ok
                  ("HTTP " ++ str_of_int (status_code resp) ++ ": " ++ operation)%string
                  (add_post (BASE_URL ++ "?" ++ operation)%string payload w))
        as (b & w1 & Hn).
      exists w1. erewrite bind_ok by (exact Hn). reflexivity.
    - eexists. reflexivity. }
  destruct Hnote as [w1 Hnote].
  erewrite bind_ok by (exact Hnote).
  erewrite bind_ok by (unfold lift; rewrite Hstatus; reflexivity).
  erewrite bind_ok by (unfold lift, response_json; rewrite Hbody; reflexivity).
  erewrite bind_ok by (unfold lift; simpl; rewrite Herrs; reflexivity).
  cbv beta iota.
  assert (Hsend : exists w2,
            (errors <- lift (subscript (JObj kvs) "errors") ;;
             let error_str := str_prefix 500 (json_dumps errors) in
             if existsb (fun kw => str_contains kw (lower error_str)) auth_keywords
             then notify_auth_failure E error_str ;;; ret tt
             else notify_api_error E "GraphQL Error" error_str ;;; ret tt) w1
            = (Ok tt, w2)).
  { erewrite bind_ok by (unfold lift; simpl; rewrite Herrs; reflexivity).
    cbv zeta. destruct (existsb _ _).
    - destruct (notify_auth_failure_ok (str_prefix 500 (json_dumps errs)) w1)
        as (b & w2 & Hn).
      exists w2. erewrite bind_ok by (exact Hn). reflexivity.
    - destruct (notify_api_error_ok "GraphQL Error"
                  (str_prefix 500 (json_dumps errs)) w1) as (b & w2 & Hn).
      exists w2. erewrite bind_ok by (exact Hn). reflexivity. }
  destruct Hsend as [w2 Hsend].
  erewrite bind_ok by (exact Hsend).
  exists w2. reflexivity.
Qed.

Lemma raise_graphql_errors_run {A} kvs errs w :
  dict_find "errors" kvs = Some errs ->
  @raise_graphql_errors R A (JObj kvs) w
  = (Raise (PlainException ("GraphQL errors: " ++ py_str errs)%string), w).
Proof.
  intros H. unfold raise_graphql_errors.
  erewrite bind_ok by (unfold lift; simpl; rewrite H; reflexivity).
  reflexivity.
Qed.

End DetailFacts.

Section DetailProperties.
Import HarmonicErrorNotifier GraphQL.
Context (E : env) {R : Runtime}.

(** C8, as amended.  A response that is no 4xx and no 5xx and whose body
    has a top-level ["errors"] entry: the education, experience and search
    operations raise [Exception("GraphQL errors: ...")] to their caller;
    [get_person_highlights] does not: it returns the empty list. *)
Theorem errors_fatal_except_highlights person_id query w resp kvs errs :
  (forall url p, http E (List.length (posts w)) url p = Ok resp) ->
  raise_for_status resp = Ok tt ->
  body resp = Some (JObj kvs) ->
  dict_find "errors" kvs = Some errs ->
  fst (HarmonicFullProfileClient.get_education E person_id w)
    = Raise (PlainException ("GraphQL errors: " ++ py_str errs)%string) /\
  fst (HarmonicFullProfileClient.get_experience E person_id w)
    = Raise (PlainException ("GraphQL errors: " ++ py_str errs)%string) /\
  fst (HarmonicEducationClient.get_person_education E person_id w)
    = Raise (PlainException ("GraphQL errors: " ++ py_str errs)%string) /\
  fst (HarmonicExperienceClient.get_person_experience E person_id w)
    = Raise (PlainException ("GraphQL errors: " ++ py_str errs)%string) /\
  fst (HarmonicSearchClient.search E query w)
    = Raise (PlainException ("GraphQL errors: " ++ py_str errs)%string) /\
  fst (HarmonicFullProfileClient.get_person_highlights E person_id w)
    = Ok (JArr []).
Proof.
  intros Hhttp Hstatus Hbody Herrs.
  assert (Hin : contains "errors" (JObj kvs) = Ok true)
    by (simpl; rewrite Herrs; reflexivity).
  repeat split.
  - unfold HarmonicFullProfileClient.get_education.
    destruct (make_request_with_errors E "GetPersonEducation"
                (by_id_payload "GetPersonEducation" person_id
                   Documents.GetPersonEducation) w resp kvs errs
                (Hhttp _ _) Hstatus Hbody Herrs) as [w' Hreq].
    cbv zeta. erewrite bind_ok by (exact Hreq).
    erewrite bind_ok by (unfold lift; rewrite Hin; reflexivity).
    cbv beta iota. rewrite (raise_graphql_errors_run kvs errs w' Herrs). reflexivity.
  - unfold HarmonicFullProfileClient.get_experience.
    destruct (make_request_with_errors E "GetPersonExperience"
                (by_id_payload "GetPersonExperience" person_id
                   Documents.GetPersonExperience) w resp kvs errs
                (Hhttp _ _) Hstatus Hbody Herrs) as [w' Hreq].
    cbv zeta. erewrite bind_ok by (exact Hreq).
    erewrite bind_ok by (unfold lift; rewrite Hin; reflexivity).
    cbv beta iota. rewrite (raise_graphql_errors_run kvs errs w' Herrs). reflexivity.
  - unfold HarmonicEducationClient.get_person_education.
    destruct (make_request_with_errors E "GetPersonEducation"
                (by_id_payload "GetPersonEducation" person_id
                   Documents.GetPersonEducation) w resp kvs errs
                (Hhttp _ _) Hstatus Hbody Herrs) as [w' Hreq].
    cbv zeta. erewrite bind_ok by (exact Hreq).
    erewrite bind_ok by (unfold lift; rewrite Hin; reflexivity).
    cbv beta iota. rewrite (raise_graphql_errors_run kvs errs w' Herrs). reflexivity.
  - unfold HarmonicExperienceClient.get_person_experience.
    destruct (make_request_with_errors E "GetPersonExperience"
                (by_id_payload "GetPersonExperience" person_id
                   Documents.GetPersonExperience) w resp kvs errs
                (Hhttp _ _) Hstatus Hbody Herrs) as [w' Hreq].
    cbv zeta. erewrite bind_ok by (exact Hreq).
    erewrite bind_ok by (unfold lift; rewrite Hin; reflexivity).
    cbv beta iota. rewrite (raise_graphql_errors_run kvs errs w' Herrs). reflexivity.
  - unfold HarmonicSearchClient.search.
    destruct (make_request_with_errors E "TypeaheadSearchWithInvestors"
                (JObj [("operationName", JStr "TypeaheadSearchWithInvestors");
                       ("variables", JObj [("query", JStr query)]);
                       ("query", JStr Documents.TypeaheadSearchWithInvestors)])
                w resp kvs errs (Hhttp _ _) Hstatus Hbody Herrs) as [w' Hreq].
    cbv zeta. erewrite bind_ok by (exact Hreq).
    erewrite bind_ok by (unfold lift; rewrite Hin; reflexivity).
    cbv beta iota. rewrite (raise_graphql_errors_run kvs errs w' Herrs). reflexivity.
  - unfold HarmonicFullProfileClient.get_person_highlights.
    destruct (make_request_with_errors E "GetPersonProfileHeader"
                (by_id_payload "GetPersonProfileHeader" person_id
                   Documents.GetPersonProfileHeader) w resp kvs errs
                (Hhttp _ _) Hstatus Hbody Herrs) as [w' Hreq].
    cbv zeta. erewrite bind_ok by (exact Hreq).
    erewrite bind_ok by (unfold lift; rewrite Hin; reflexivity).
    reflexivity.
Qed.

End DetailProperties.

(* ================================================================== *)
(** * The warehouse sync *)
(* ================================================================== *)

Section WarehouseFacts.
Import HarmonicErrorNotifier HarmonicToBigQuerySync.
Context (E : env) {R : Runtime}.

Lemma keeps_ret {A} (a : A) : keeps_warehouse (ret a).
Proof. intros w. repeat split. Qed.

Lemma keeps_throw {A} (e : exn) : keeps_warehouse (@throw world A e).
Proof. intros w. repeat split. Qed.

Lemma keeps_lift {A} (r : result A) : keeps_warehouse (lift r).
Proof. intros w. repeat split. Qed.

Lemma keeps_bind {A B} (m : M world A) (k : A -> M world B) :
  keeps_warehouse m -> (forall a, keeps_warehouse (k a)) ->
  keeps_warehouse (bind m k).
Proof.
  intros Hm Hk w. unfold bind. specialize (Hm w).
  destruct (m w) as [[a | e] w1]; simpl in Hm.
  - destruct (Hk a w1) as (H1 & H2 & H3). destruct Hm as (G1 & G2 & G3).
    repeat split; congruence.
  - exact Hm.
Qed.

Lemma keeps_try_except {A} (m : M world A) (h : exn -> M world A) :
  keeps_warehouse m -> (forall e, keeps_warehouse (h e)) ->
  keeps_warehouse (try_except m h).
Proof.
  intros Hm Hh w. unfold try_except. specialize (Hm w).
  destruct (m w) as [[a | e] w1]; simpl in Hm.
  - exact Hm.
  - destruct (Hh e w1) as (H1 & H2 & H3). destruct Hm as (G1 & G2 & G3).
    repeat split; congruence.
Qed.

Lemma keeps_requests_post url p : keeps_warehouse (requests_post E url p).
Proof. intros w. repeat split. Qed.

Lemma keeps_notify_auth_failure d : keeps_warehouse (notify_auth_failure E d).
Proof.
  intros w. unfold notify_auth_failure. destruct (messenger E); repeat split.
Qed.

Lemma keeps_notify_api_error t d : keeps_warehouse (notify_api_error E t d).
Proof.
  intros w. unfold notify_api_error. destruct (messenger E); repeat split.
Qed.

End WarehouseFacts.

(** Proves that a computation built from the steps above keeps the
    warehouse. *)
Ltac keeps_step :=
  first
    [ apply keeps_ret | apply keeps_throw | apply keeps_lift
    | apply keeps_requests_post | apply keeps_notify_auth_failure
    | apply keeps_notify_api_error
    | apply keeps_bind; [| intros ? ]
    | apply keeps_try_except; [| intros ? ]
    | match goal with
      | |- keeps_warehouse (if ?b then _ else _) => destruct b
      | |- keeps_warehouse (match ?x with _ => _ end) => destruct x
      | |- keeps_warehouse (let _ := _ in _) => cbv zeta
      end ].

Section WarehouseFacts2.
Import HarmonicErrorNotifier HarmonicToBigQuerySync.
Context (E : env) {R : Runtime}.

Lemma keeps_make_request op p : keeps_warehouse (GraphQL._make_request E op p).
Proof. unfold GraphQL._make_request. repeat keeps_step. Qed.

Lemma keeps_raise_graphql_errors {A} d :
  keeps_warehouse (@GraphQL.raise_graphql_errors R A d).
Proof. unfold GraphQL.raise_graphql_errors. repeat keeps_step. Qed.

Lemma keeps_get_full_profile person_id :
  keeps_warehouse (HarmonicFullProfileClient.get_full_profile E person_id).
Proof.
  unfold HarmonicFullProfileClient.get_full_profile,
    HarmonicFullProfileClient.guarded,
    HarmonicFullProfileClient.get_person_highlights,
    HarmonicFullProfileClient.get_education,
    HarmonicFullProfileClient.get_experience.
  repeat first [ apply keeps_make_request | apply keeps_raise_graphql_errors
               | keeps_step ].
Qed.

Lemma keeps_get_linkedin_id harmonic_id :
  keeps_warehouse (get_linkedin_id_from_harmonic E harmonic_id).
Proof. unfold get_linkedin_id_from_harmonic. repeat keeps_step. Qed.

End WarehouseFacts2.

Section MaintainsFacts.
Import HarmonicErrorNotifier HarmonicToBigQuerySync.
Context (E : env) {R : Runtime}.
Variables (t : content_table) (w0 : world).

Lemma keeps_maintains {A} (m : M world A) :
  keeps_warehouse m -> maintains t w0 m (fun _ => True).
Proof.
  intros Hk w Hu. destruct (Hk w) as (H1 & H2 & H3).
  split; [| auto]. unfold untouched, stored, entered in *.
  rewrite H1, H2, H3. exact Hu.
Qed.

Lemma maintains_weaken {A} (m : M world A) (Q Q' : A -> Prop) :
  maintains t w0 m Q -> (forall a, Q a -> Q' a) -> maintains t w0 m Q'.
Proof.
  intros Hm HQ w Hu. destruct (Hm w Hu) as [H1 H2]. split; [exact H1 |].
  intros a Ha. apply HQ, H2, Ha.
Qed.

Lemma maintains_ret {A} (a : A) (Q : A -> Prop) :
  Q a -> maintains t w0 (ret a) Q.
Proof.
  intros HQ w Hu. split; [exact Hu |]. simpl. intros a' Ha. inversion Ha; subst.
  exact HQ.
Qed.

Lemma maintains_bind {A B} (m : M world A) (k : A -> M world B)
  (Q1 : A -> Prop) (Q2 : B -> Prop) :
  maintains t w0 m Q1 ->
  (forall a, Q1 a -> maintains t w0 (k a) Q2) ->
  maintains t w0 (bind m k) Q2.
Proof.
  intros Hm Hk w Hu. destruct (Hm w Hu) as [H1 H2]. unfold bind.
  destruct (m w) as [[a | e] w1]; simpl in *.
  - apply (Hk a (H2 a eq_refl) w1 H1).
  - split; [exact H1 |]. intros b Hb. discriminate Hb.
Qed.

Lemma inserts_into_app table l1 l2 :
  inserts_into table (l1 ++ l2) = inserts_into table l1 ++ inserts_into table l2.
Proof.
  induction l1 as [| c l1 IH]; simpl; [reflexivity |].
  destruct c as [tb col key | name rows]; [exact IH |].
  destruct (String.eqb name table); simpl; rewrite IH; reflexivity.
Qed.

Lemma rows_of_append_other table other new tbls :
  String.eqb other table = false ->
  rows_of table (append_rows other new tbls) = rows_of table tbls.
Proof.
  intros Hne. induction tbls as [| [name rows] rest IH]; simpl.
  - rewrite String.eqb_sym, Hne. reflexivity.
  - destruct (String.eqb other name) eqn:Ho; simpl.
    + apply String.eqb_eq in Ho. subst name.
      rewrite String.eqb_sym, Hne. reflexivity.
    + destruct (String.eqb table name); [reflexivity | exact IH].
Qed.

Lemma count_query_maintains table column key :
  maintains t w0 (count_query table column key) (fun _ => True).
Proof.
  intros w Hu. split; [| auto]. destruct Hu as (H1 & H2 & H3).
  unfold count_query, untouched, stored, entered in *. simpl.
  rewrite inserts_into_app. simpl. rewrite app_nil_r. auto.
Qed.

Lemma check_user_exists_answer key :
  has_rows t key w0 = true ->
  maintains t w0 (check_user_exists (table_name t) key) (fun b => b = true).
Proof.
  intros Hrows w Hu. split.
  - apply (count_query_maintains _ _ _ w Hu).
  - intros b Hb. unfold check_user_exists, count_query in Hb. simpl in Hb.
    inversion Hb; subst. destruct Hu as (H1 & _).
    unfold has_rows in Hrows. unfold stored in *. rewrite H1. exact Hrows.
Qed.

Lemma insert_rows_json_maintains table rows :
  String.eqb table (table_ref (table_name t)) = false ->
  maintains t w0 (insert_rows_json E table rows) (fun _ => True).
Proof.
  intros Hne w Hu. split; [| auto]. destruct Hu as (H1 & H2 & H3).
  unfold insert_rows_json, untouched, stored, entered in *.
  destruct (insert_errors E table rows); simpl.
  - rewrite inserts_into_app. simpl. rewrite Hne, app_nil_r.
    rewrite rows_of_append_other by exact Hne. auto.
  - rewrite inserts_into_app. simpl. rewrite Hne, app_nil_r. auto.
Qed.

Lemma add_transform_maintains name :
  String.eqb (transform_name t) name = false ->
  maintains t w0 (modify (add_transform name)) (fun _ => True).
Proof.
  intros Hne w Hu. split; [| auto]. destruct Hu as (H1 & H2 & H3).
  unfold untouched, stored, entered in *. simpl.
  rewrite filter_app. simpl. rewrite Hne, app_nil_r. auto.
Qed.

Lemma lift_maintains {A} (r : result A) : maintains t w0 (lift r) (fun _ => True).
Proof. apply keeps_maintains, keeps_lift. Qed.

End MaintainsFacts.

Section SyncSteps.
Import HarmonicErrorNotifier HarmonicToBigQuerySync.
Context (E : env) {R : Runtime}.

Lemma sync_mapping_maintains t w0 harmonic_id linkedin_id full_name
  linkedin_url dry_run :
  maintains t w0
    (sync_mapping E harmonic_id linkedin_id full_name linkedin_url dry_run)
    (fun _ => True).
Proof.
  unfold sync_mapping, check_mapping_exists.
  eapply maintains_bind; [apply count_query_maintains |].
  intros b _. destruct b; [apply maintains_ret; exact I |].
  destruct dry_run; [apply maintains_ret; exact I |].
  eapply maintains_bind with (Q1 := fun _ => True).
  - unfold insert_mapping.
    eapply maintains_bind;
      [apply insert_rows_json_maintains; destruct t; reflexivity |].
    intros errors _. destruct errors; apply maintains_ret; exact I.
  - intros n _. apply maintains_ret. exact I.
Qed.

(** The skip branch of a table that has rows. *)
Lemma skip_branch t w0 linkedin_id {A} (rest : M world A) (report : A) :
  has_rows t linkedin_id w0 = true ->
  maintains t w0
    (user_exists <- check_user_exists (table_name t) linkedin_id ;;
     if (user_exists : bool) then ret report else rest)
    (fun r => r = report).
Proof.
  intros Hrows.
  eapply maintains_bind with (Q1 := fun b => b = true).
  - apply check_user_exists_answer. exact Hrows.
  - intros b Hb. rewrite Hb. apply maintains_ret. reflexivity.
Qed.

(** A table other than that of [t]: its check, transform and insert. *)
Lemma other_table_maintains t w0 linkedin_id name {A} (report : A)
  (rest : M world A) :
  maintains t w0 rest (fun _ => True) ->
  maintains t w0
    (user_exists <- check_user_exists name linkedin_id ;;
     if (user_exists : bool) then ret report else rest)
    (fun _ => True).
Proof.
  intros Hrest. eapply maintains_bind; [apply count_query_maintains |].
  intros b _. destruct b; [apply maintains_ret; exact I | exact Hrest].
Qed.

Lemma education_rest_maintains t w0 linkedin_id education_list (dry_run : bool) :
  t <> Education ->
  maintains t w0
    (edu_rows <- transform_education E education_list linkedin_id ;;
     if dry_run
     then ret (inserted_report (Z.of_nat (List.length edu_rows)) (JArr edu_rows))
     else
       inserted <- insert_education E edu_rows ;;
       ret (inserted_report inserted (JArr edu_rows)))
    (fun _ => True).
Proof.
  intros Hne.
  eapply maintains_bind with (Q1 := fun _ => True).
  - unfold transform_education.
    eapply maintains_bind;
      [apply add_transform_maintains; destruct t; try reflexivity; congruence |].
    intros _ _. eapply maintains_bind; [apply lift_maintains |].
    intros items _. apply lift_maintains.
  - intros rows _. destruct dry_run; [apply maintains_ret; exact I |].
    eapply maintains_bind with (Q1 := fun _ => True);
      [| intros; apply maintains_ret; exact I].
    unfold insert_education. destruct rows; [apply maintains_ret; exact I |].
    eapply maintains_bind;
      [apply insert_rows_json_maintains; destruct t; try reflexivity; congruence |].
    intros errors _. destruct errors; apply maintains_ret; exact I.
Qed.

Lemma experience_rest_maintains t w0 linkedin_id experience_list (dry_run : bool) :
  t <> Experience ->
  maintains t w0
    (exp_rows <- transform_experience E experience_list linkedin_id ;;
     if dry_run
     then ret (inserted_report (Z.of_nat (List.length exp_rows)) (JArr exp_rows))
     else
       inserted <- insert_experience E exp_rows ;;
       ret (inserted_report inserted (JArr exp_rows)))
    (fun _ => True).
Proof.
  intros Hne.
  eapply maintains_bind with (Q1 := fun _ => True).
  - unfold transform_experience.
    eapply maintains_bind;
      [apply add_transform_maintains; destruct t; try reflexivity; congruence |].
    intros _ _. eapply maintains_bind; [apply lift_maintains |].
    intros items _. apply lift_maintains.
  - intros rows _. destruct dry_run; [apply maintains_ret; exact I |].
    eapply maintains_bind with (Q1 := fun _ => True);
      [| intros; apply maintains_ret; exact I].
    unfold insert_experience. destruct rows; [apply maintains_ret; exact I |].
    eapply maintains_bind;
      [apply insert_rows_json_maintains; destruct t; try reflexivity; congruence |].
    intros errors _. destruct errors; apply maintains_ret; exact I.
Qed.

Lemma profile_rest_maintains t w0 harmonic_id linkedin_id education_list
  experience_list (dry_run : bool) :
  t <> Profile ->
  maintains t w0
    (profile_row <- transform_profile E harmonic_id linkedin_id
                      education_list experience_list ;;
     if dry_run then ret (inserted_report 1 profile_row)
     else
       inserted <- insert_profile E profile_row ;;
       ret (inserted_report inserted profile_row))
    (fun _ => True).
Proof.
  intros Hne.
  eapply maintains_bind with (Q1 := fun _ => True).
  - unfold transform_profile.
    eapply maintains_bind;
      [apply add_transform_maintains; destruct t; try reflexivity; congruence |].
    intros _ _. eapply maintains_bind; [apply lift_maintains |].
    intros experience _. eapply maintains_bind; [apply lift_maintains |].
    intros headline _. eapply maintains_bind; [apply lift_maintains |].
    intros education _. eapply maintains_bind; [apply lift_maintains |].
    intros is_student _. apply maintains_ret. exact I.
  - intros row _. destruct dry_run; [apply maintains_ret; exact I |].
    eapply maintains_bind with (Q1 := fun _ => True);
      [| intros; apply maintains_ret; exact I].
    unfold insert_profile.
    eapply maintains_bind;
      [apply insert_rows_json_maintains; destruct t; try reflexivity; congruence |].
    intros errors _. destruct errors; apply maintains_ret; exact I.
Qed.

Lemma sync_education_maintains t w0 linkedin_id education_list dry_run :
  has_rows t linkedin_id w0 = true ->
  maintains t w0 (sync_education E linkedin_id education_list dry_run)
    (fun report => t = Education -> report = skipped_report (JArr [])).
Proof.
  intros Hrows. unfold sync_education.
  destruct (match t with Education => true | _ => false end) eqn:Ht.
  - assert (t = Education) by (destruct t; congruence). subst t.
    eapply maintains_weaken; [apply (skip_branch Education); exact Hrows |].
    intros r Hr _. exact Hr.
  - assert (Hne : t <> Education) by (destruct t; congruence).
    eapply maintains_weaken;
      [apply other_table_maintains, education_rest_maintains; exact Hne |].
    intros r _ Heq. contradiction.
Qed.

Lemma sync_experience_maintains t w0 linkedin_id experience_list dry_run :
  has_rows t linkedin_id w0 = true ->
  maintains t w0 (sync_experience E linkedin_id experience_list dry_run)
    (fun report => t = Experience -> report = skipped_report (JArr [])).
Proof.
  intros Hrows. unfold sync_experience.
  destruct (match t with Experience => true | _ => false end) eqn:Ht.
  - assert (t = Experience) by (destruct t; congruence). subst t.
    eapply maintains_weaken; [apply (skip_branch Experience); exact Hrows |].
    intros r Hr _. exact Hr.
  - assert (Hne : t <> Experience) by (destruct t; congruence).
    eapply maintains_weaken;
      [apply other_table_maintains, experience_rest_maintains; exact Hne |].
    intros r _ Heq. contradiction.
Qed.

Lemma sync_profile_maintains t w0 harmonic_id linkedin_id education_list
  experience_list dry_run :
  has_rows t linkedin_id w0 = true ->
  maintains t w0
    (sync_profile E harmonic_id linkedin_id education_list experience_list
       dry_run)
    (fun report => t = Profile -> report = skipped_report JNull).
Proof.
  intros Hrows. unfold sync_profile.
  destruct (match t with Profile => true | _ => false end) eqn:Ht.
  - assert (t = Profile) by (destruct t; congruence). subst t.
    eapply maintains_weaken; [apply (skip_branch Profile); exact Hrows |].
    intros r Hr _. exact Hr.
  - assert (Hne : t <> Profile) by (destruct t; congruence).
    eapply maintains_weaken;
      [apply other_table_maintains, profile_rest_maintains; exact Hne |].
    intros r _ Heq. contradiction.
Qed.

Lemma sync_fetched_maintains t w0 harmonic_id linkedin_id dry_run verbose
  profile_data :
  has_rows t linkedin_id w0 = true ->
  maintains t w0
    (sync_fetched E harmonic_id linkedin_id dry_run verbose profile_data)
    (fun report => entry t report = skipped_report (initial_data t)).
Proof.
  intros Hrows. unfold sync_fetched.
  eapply maintains_bind; [apply lift_maintains |]. intros education_list _.
  eapply maintains_bind; [apply lift_maintains |]. intros experience_list _.
  eapply maintains_bind; [apply lift_maintains |]. intros n1 _.
  eapply maintains_bind; [apply lift_maintains |]. intros n2 _.
  eapply maintains_bind; [apply keeps_maintains, keeps_get_linkedin_id |].
  intros linkedin_info _. cbv zeta.
  eapply maintains_bind; [apply sync_mapping_maintains |]. intros mapping _.
  eapply maintains_bind; [apply sync_education_maintains; exact Hrows |].
  intros education Hed.
  eapply maintains_bind; [apply sync_experience_maintains; exact Hrows |].
  intros experience Hex.
  eapply maintains_bind; [apply sync_profile_maintains; exact Hrows |].
  intros profile Hpr.
  apply maintains_ret. destruct t; simpl; auto.
Qed.

End SyncSteps.

Section SyncProperties.
Import HarmonicErrorNotifier HarmonicToBigQuerySync.
Context (E : env) {R : Runtime}.

(** C9.  Idempotent skip: for each of the three content tables, whatever
    the fetched profile contains and whatever [dry_run] says, when the
    table already has a row for the [linkedin_id] (the existence check
    answers true), [sync_person] leaves the table as it was, hands no rows
    for it to [insert_rows_json], does not enter its transform, and, when
    it returns, reports the table as skipped: [exists] and [skipped] true,
    [inserted] 0, [data] as initialised. *)
Theorem skip_if_exists (t : content_table) (client : Z -> M world json)
  harmonic_id linkedin_id dry_run verbose w profile_data w1 :
  keeps_warehouse (client harmonic_id) ->
  client harmonic_id w = (Ok profile_data, w1) ->
  has_rows t linkedin_id w = true ->
  untouched t w
    (snd (sync_person E client harmonic_id linkedin_id dry_run verbose w)) /\
  forall report,
    fst (sync_person E client harmonic_id linkedin_id dry_run verbose w)
      = Ok report ->
    entry t report = skipped_report (initial_data t).
Proof.
  intros Hkeeps Hfetch Hrows. unfold sync_person.
  erewrite bind_ok
    by (unfold try_except; erewrite bind_ok by (exact Hfetch); reflexivity).
  apply sync_fetched_maintains; [exact Hrows |].
  destruct (Hkeeps w) as (H1 & H2 & H3). rewrite Hfetch in H1, H2, H3.
  simpl in H1, H2, H3. unfold untouched, stored, entered.
  rewrite H1, H2, H3. repeat split.
Qed.

(** C10.  Fetch failure: when [get_full_profile] raises, [sync_person]
    returns at once; its report has one error message, every table entry
    has [inserted = 0] and [skipped = False], and the world is the one the
    failed fetch left: no existence check, no insert, the warehouse
    unchanged. *)
Theorem fetch_failure_report (client : Z -> M world json)
  harmonic_id linkedin_id dry_run verbose w e w1 :
  client harmonic_id w = (Raise e, w1) ->
  exists report,
    sync_person E client harmonic_id linkedin_id dry_run verbose w
      = (Ok report, w1) /\
    s_errors report
      = [("Failed to fetch from Harmonic: " ++ str_of_exn e)%string] /\
    s_errors report <> [] /\
    (forall x,
       In x [s_mapping report; s_education report; s_experience report;
             s_profile report] ->
       t_inserted x = 0 /\ t_skipped x = false) /\
    (keeps_warehouse (client harmonic_id) ->
     tables w1 = tables w /\ bq_log w1 = bq_log w).
Proof.
  intros Hfetch.
  exists (fetch_failed_report harmonic_id linkedin_id
            ("Failed to fetch from Harmonic: " ++ str_of_exn e)%string).
  split.
  { unfold sync_person.
    erewrite bind_ok
      by (unfold try_except; erewrite bind_raise by (exact Hfetch); reflexivity).
    reflexivity. }
  split; [reflexivity |]. split; [discriminate |]. split.
  - intros x Hx. simpl in Hx.
    destruct Hx as [<- | [<- | [<- | [<- | []]]]]; split; reflexivity.
  - intros Hkeeps. destruct (Hkeeps w) as (H1 & H2 & _).
    rewrite Hfetch in H1, H2. split; assumption.
Qed.

End SyncProperties.

(* ================================================================== *)
(** * The properties on concrete runs *)
(* ================================================================== *)

Section PaginationExamples.
Import HarmonicErrorNotifier HarmonicClient Sample.

(** C3 on the three pages, with batches of two: the five records of the
    three pages, in the order the server sent them. *)
Lemma batch_completeness_witness :
  exists r w',
    get_company_saved_search_results (R := runtime) three_pages_env saved_search
      10 2 empty_world = (Ok (Some r), w') /\
    (flushed w' = (flushed empty_world ++ r_companies (returned r))%list /\
     r_companies (returned r)
     = records_fed three_pages_env (exit r) empty_world w' /\
     flushed w'
     = (flushed empty_world
        ++ records_fed three_pages_env (exit r) empty_world w')%list) /\
    records_fed three_pages_env (exit r) empty_world w'
    = [company 1; company 2; company 3; company 4; company 5].
Proof.
  eexists _, _. split; [vm_compute; reflexivity |]. split.
  - apply (batch_completeness three_pages_env (R := runtime) saved_search 10 2
             empty_world).
    vm_compute. reflexivity.
  - vm_compute. reflexivity.
Defined.

(** X29 on the endless server, with a limit of three pages. *)
Lemma page_limit_termination_witness :
  1 <= 3 /\
  (forall k url p, reports_next (http endless_env k url p) = true) /\
  (1 < 3 -> has_variables (payload_of saved_search) = true) /\
  exists r w',
    get_company_saved_search_results (R := runtime) endless_env saved_search 3 2
      empty_world = (Ok (Some r), w') /\
    exit r = StopPageLimit /\
    r_pages_fetched (returned r) = 3 /\
    List.length (posts w') = (List.length (posts empty_world) + Z.to_nat 3)%nat.
Proof.
  assert (H1 : 1 <= 3) by lia.
  assert (H2 : forall k url p, reports_next (http endless_env k url p) = true)
    by (intros; reflexivity).
  assert (H3 : 1 < 3 -> has_variables (payload_of saved_search) = true)
    by (intros; reflexivity).
  split; [exact H1 |]. split; [exact H2 |]. split; [exact H3 |].
  destruct (page_limit_termination endless_env (R := runtime) saved_search 3 2
              empty_world H1 H2 H3) as (r & w' & Hrun & He & Hp & Hn & _).
  exists r, w'. repeat split; assumption.
Defined.

(** C4 on a query given as a string, the input line 78 declares and
    lines 91 and 92 take: every answer of the server reports a next page and
    [max_pages] is 3, but the run sends one request and raises
    [KeyError('variables')] on line 144, before any file is written.  The
    payload [{"query": query}] has no ["variables"] to hold the cursor.
    The same call with the query given as a dictionary sends three
    requests and leaves through the page limit. *)
Theorem string_query_misses_page_limit :
  (forall k url p, reports_next (http endless_env k url p) = true) /\
  (exists w',
     get_company_saved_search_results (R := runtime) endless_env
       (QueryStr "query GetCompanySavedSearchResults { ... }") 3 2 empty_world
     = (Raise (KeyError "variables"), w') /\
     List.length (posts w') = 1%nat /\
     files w' = []) /\
  (exists r w',
     get_company_saved_search_results (R := runtime) endless_env saved_search
       3 2 empty_world = (Ok (Some r), w') /\
     exit r = StopPageLimit /\
     List.length (posts w') = 3%nat).
Proof.
  split; [intros; reflexivity |]. split.
  - eexists. split; [vm_compute; reflexivity |]. split; reflexivity.
  - eexists _, _. split; [vm_compute; reflexivity |]. split; reflexivity.
Qed.

(** C1, the claim as stated fails: after a 401 on page 2 the returned
    [pages_fetched] is 2, not 1. *)
Lemma pages_fetched_counts_failed_page :
  exists r,
    fst (get_company_saved_search_results (R := runtime) unauthorized_second_env
           saved_search 5 200 empty_world) = Ok (Some r) /\
    exit r = StopError /\
    r_pages_fetched (returned r) = 2 /\
    r_pages_fetched (returned r) <> 1.
Proof.
  eexists. split; [vm_compute; reflexivity |].
  simpl. repeat split. discriminate.
Qed.

(** C1, as amended, on a first page followed by a 401. *)
Lemma auth_failure_on_second_page_witness :
  2 <= 5 /\
  reports_next (http unauthorized_second_env (List.length (posts empty_world))
                  base_url (payload_of saved_search)) = true /\
  has_variables (payload_of saved_search) = true /\
  exists r w',
    get_company_saved_search_results (R := runtime) unauthorized_second_env
      saved_search 5 200 empty_world = (Ok (Some r), w') /\
    exit r = StopError /\
    r_pages_fetched (returned r) = 2 /\
    sent w' = [http_auth_message unauthorized_second_env 401].
Proof.
  assert (H1 : 2 <= 5) by lia.
  split; [exact H1 |]. split; [reflexivity |]. split; [reflexivity |].
  destruct (auth_failure_on_second_page unauthorized_second_env (R := runtime)
              saved_search 5 200 empty_world
              unauthorized [("message", JStr "Unauthorized")]
              H1 eq_refl eq_refl (fun _ => eq_refl) eq_refl eq_refl)
    as (r & w' & Hrun & He & Hp & _ & _ & Hs).
  exists r, w'. repeat split; assumption.
Defined.

(** C2, the claim as stated fails: a results object without [edges] makes
    the fetch raise [KeyError]. *)
Lemma missing_edges_crash :
  fst (get_company_saved_search_results (R := runtime) no_edges_env saved_search
         5 200 empty_world) = Raise (KeyError "edges").
Proof. vm_compute. reflexivity. Qed.

(** C2, as amended, on the body without [edges]. *)
Lemma missing_fields_raise_witness :
  http no_edges_env (List.length (posts empty_world)) base_url
    (payload start_locals) = Ok no_edges_response /\
  is_auth_status (status_code no_edges_response) = false /\
  body no_edges_response = Some no_edges_body /\
  no_graphql_errors no_edges_body = true /\
  fst (loop_body (R := runtime) no_edges_env 5 200 start_locals empty_world)
    = Raise (KeyError "edges").
Proof.
  split; [reflexivity |]. split; [reflexivity |]. split; [reflexivity |].
  split; [reflexivity |].
  destruct (missing_fields_raise no_edges_env (R := runtime) 5 200 start_locals
              empty_world no_edges_response no_edges_body
              eq_refl eq_refl eq_refl eq_refl)
    as (_ & _ & _ & _ & H).
  destruct (H (JObj [("totalCount", JInt 0)]) eq_refl) as [Hedges _].
  apply Hedges. exists [("totalCount", JInt 0)]. split; reflexivity.
Defined.

(** C5 on the three pages: the first reports 5, the second 99. *)
Lemma total_count_stable_witness :
  exists st1 w1 st' w',
    loop_body (R := runtime) three_pages_env 10 2 start_locals empty_world
      = (Ok (Continue, st1), w1) /\
    is_none (total_count start_locals) = true /\
    is_none (reported_total
               (http three_pages_env (List.length (posts empty_world)) base_url
                  (payload start_locals))) = false /\
    pagination_loop (R := runtime) three_pages_env 5 10 2 st1 w1
      = (Ok (Some (StopExhausted, st')), w') /\
    total_count st' = JInt 5.
Proof.
  eexists _, _, _, _.
  split; [vm_compute; reflexivity |].
  split; [reflexivity |]. split; [reflexivity |].
  split; [vm_compute; reflexivity |].
  refine (proj1 (total_count_stable three_pages_env (R := runtime) 10 2
                   start_locals empty_world _ _ 5 StopExhausted
                   _ _ _ eq_refl eq_refl _)).
  - vm_compute. reflexivity.
  - vm_compute. reflexivity.
Defined.

(** A last page without [totalCount] and without [endCursor] is accepted:
    the total stays [None]. *)
Example bare_last_page_returns :
  fst (get_company_saved_search_results (R := runtime) bare_last_page_env
         saved_search 5 200 empty_world)
  = Ok (Some {| returned := {| r_total_count := JNull;
                               r_companies := [company 1];
                               r_pages_fetched := 1 |};
                exit := StopExhausted |}).
Proof. vm_compute. reflexivity. Qed.

(** C7, the claim as stated fails: an HTTP 500 whose body is a page is
    processed like a 200, and nothing is raised. *)
Lemma server_error_not_raised :
  exists r,
    fst (get_company_saved_search_results (R := runtime) server_error_env
           saved_search 5 200 empty_world) = Ok (Some r) /\
    exit r = StopExhausted /\
    r_companies (returned r) = [company 1].
Proof.
  eexists. split; [vm_compute; reflexivity |]. split; reflexivity.
Qed.

(** C7, as amended, on a 401 as the first answer. *)
Lemma status_code_handling_witness :
  http unauthorized_first_env (List.length (posts empty_world)) base_url
    (payload start_locals) = Ok unauthorized /\
  is_auth_status (status_code unauthorized) = true /\
  exists w',
    loop_body (R := runtime) unauthorized_first_env 5 200 start_locals
      empty_world = (Ok (Break StopError, start_locals), w') /\
    sent w' = [http_auth_message unauthorized_first_env 401].
Proof.
  split; [reflexivity |]. split; [reflexivity |].
  destruct (proj1 (status_code_handling unauthorized_first_env (R := runtime))
              5 200 start_locals empty_world unauthorized
              [("message", JStr "Unauthorized")]
              eq_refl eq_refl eq_refl) as (w' & H1 & _ & H2).
  exists w'. split; assumption.
Defined.

End PaginationExamples.

Section PacerExample.
Import HarmonicErrorNotifier HarmonicClient Sample.

(** C6, at the failing input: the first page took 200 seconds, so the
    pacer takes the long branch and sets its own [last_long_break] to the
    reading of 200 seconds.  The [last_long_break] of the loop is not
    reset: the next delay, taken one second after the long break is over,
    is measured from the start of the run and is a long break again, and
    the loop ends with [last_long_break] still at the start time. *)
Lemma long_break_reference_not_reset :
  fst (_apply_human_like_delay slow_start_env 0 0 (tick_clock empty_world))
    = Ok (true, 200000000) /\
  exists st' w',
    pagination_loop (R := runtime) slow_start_env 10 10 200 start_locals
      (tick_clock empty_world) = (Ok (Some (StopExhausted, st')), w') /\
    slept w' = [180%Q; 180%Q] /\
    start_time st' = 0 /\
    last_long_break st' = 0.
Proof.
  split; [vm_compute; reflexivity |].
  eexists _, _. split; [vm_compute; reflexivity |].
  repeat split.
Qed.

End PacerExample.

Section DetailExamples.
Import HarmonicErrorNotifier GraphQL Sample.

(** C8, the claim as stated fails: on a body with a top-level [errors] list
    [get_person_highlights] returns its default, the empty list. *)
Lemma highlights_swallow_errors :
  fst (HarmonicFullProfileClient.get_person_highlights (R := runtime)
         graphql_error_env 36601930 empty_world) = Ok (JArr []).
Proof. vm_compute. reflexivity. Qed.

(** C8, as amended, on the body with an [errors] list. *)
Lemma errors_fatal_except_highlights_witness :
  (forall url p,
     http graphql_error_env (List.length (posts empty_world)) url p
     = Ok graphql_error_response) /\
  raise_for_status graphql_error_response = Ok tt /\
  body graphql_error_response = Some (JObj graphql_error_fields) /\
  dict_find "errors" graphql_error_fields = Some graphql_errors /\
  fst (HarmonicEducationClient.get_person_education (R := runtime)
         graphql_error_env 36601930 empty_world)
    = Raise (PlainException
               ("GraphQL errors: " ++ py_str (H := runtime) graphql_errors)%string).
Proof.
  split; [intros; reflexivity |]. split; [reflexivity |].
  split; [reflexivity |]. split; [reflexivity |].
  destruct (errors_fatal_except_highlights graphql_error_env (R := runtime)
              36601930 "daniel" empty_world graphql_error_response
              graphql_error_fields graphql_errors
              (fun _ _ => eq_refl) eq_refl eq_refl eq_refl)
    as (_ & _ & H & _).
  exact H.
Defined.

End DetailExamples.

Section SyncExamples.
Import HarmonicErrorNotifier HarmonicToBigQuerySync Sample.

(** C9 on a warehouse that holds an education row of the person. *)
Lemma skip_if_exists_witness :
  keeps_warehouse
    (HarmonicFullProfileClient.get_full_profile (R := runtime) sync_env person) /\
  has_rows Education linkedin_key synced_education = true /\
  exists profile_data w1 report,
    HarmonicFullProfileClient.get_full_profile (R := runtime) sync_env person
      synced_education = (Ok profile_data, w1) /\
    fst (sync_person (R := runtime) sync_env
           (HarmonicFullProfileClient.get_full_profile (R := runtime) sync_env)
           person linkedin_key false false synced_education) = Ok report /\
    entry Education report = skipped_report (initial_data Education).
Proof.
  split; [apply keeps_get_full_profile |]. split; [reflexivity |].
  eexists _, _, _.
  split; [vm_compute; reflexivity |].
  split; [vm_compute; reflexivity |].
  refine (proj2 (skip_if_exists sync_env (R := runtime) Education
                   (HarmonicFullProfileClient.get_full_profile (R := runtime) sync_env)
                   person linkedin_key false false synced_education _ _
                   (keeps_get_full_profile sync_env person) _ eq_refl) _ _).
  - vm_compute. reflexivity.
  - vm_compute. reflexivity.
Defined.

(** C10 on a client that cannot reach the service. *)
Lemma fetch_failure_report_witness :
  unreachable_client person synced_education
    = (Raise ConnectionError, synced_education) /\
  exists report,
    sync_person (R := runtime) sync_env unreachable_client person linkedin_key
      false false synced_education = (Ok report, synced_education) /\
    s_errors report <> [].
Proof.
  split; [reflexivity |].
  destruct (fetch_failure_report sync_env (R := runtime) unreachable_client
              person linkedin_key false false synced_education ConnectionError
              synced_education eq_refl) as (report & Hrun & _ & Herr & _).
  exists report. split; assumption.
Defined.

End SyncExamples.

(* ================================================================== *)
(** * The pagination loop: requests, files, cursors and pauses *)
(* ================================================================== *)

Section PreservesFacts.
Context {X : Type} (f : world -> X).

Lemma preserves_ret {A} (a : A) : preserves f (ret a).
Proof. intros w. reflexivity. Qed.

Lemma preserves_throw {A} (e : exn) : preserves f (@throw world A e).
Proof. intros w. reflexivity. Qed.

Lemma preserves_lift {A} (r : result A) : preserves f (lift r).
Proof. intros w. reflexivity. Qed.

Lemma preserves_bind {A B} (m : M world A) (k : A -> M world B) :
  preserves f m -> (forall a, preserves f (k a)) -> preserves f (bind m k).
Proof.
  intros Hm Hk w. unfold bind. specialize (Hm w).
  destruct (m w) as [[a | e] w1]; simpl in Hm.
  - rewrite (Hk a w1). exact Hm.
  - exact Hm.
Qed.

Lemma preserves_try_except {A} (m : M world A) (h : exn -> M world A) :
  preserves f m -> (forall e, preserves f (h e)) -> preserves f (try_except m h).
Proof.
  intros Hm Hh w. unfold try_except. specialize (Hm w).
  destruct (m w) as [[a | e] w1]; simpl in Hm.
  - exact Hm.
  - rewrite (Hh e w1). exact Hm.
Qed.

End PreservesFacts.

(** Proves [preserves f m] for a computation built from binds, branches and
    steps that do not touch [f]. *)
Ltac preserves_step :=
  first
    [ apply preserves_ret | apply preserves_throw | apply preserves_lift
    | apply preserves_bind; [| intros ? ]
    | apply preserves_try_except; [| intros ? ]
    | match goal with
      | |- preserves _ (if ?b then _ else _) => destruct b
      | |- preserves _ (match ?x with _ => _ end) => destruct x
      | |- preserves _ (let _ := _ in _) => cbv zeta
      | |- preserves _ (HarmonicErrorNotifier.notify_auth_failure ?E _) =>
          intros ?; unfold HarmonicErrorNotifier.notify_auth_failure;
          destruct (messenger E); reflexivity
      | |- preserves _ (HarmonicErrorNotifier.notify_api_error ?E _ _) =>
          intros ?; unfold HarmonicErrorNotifier.notify_api_error;
          destruct (messenger E); reflexivity
      | |- preserves _ (modify _) => intros ?; reflexivity
      | |- preserves _ (datetime_now _) => intros ?; reflexivity
      | |- preserves _ (random_uniform _ _ _) => intros ?; reflexivity
      | |- preserves _ (time_sleep _) => intros ?; reflexivity
      end ].

Section TraceFacts.
Import HarmonicErrorNotifier HarmonicClient.
Context (E : env) {R : Runtime}.

Lemma process_response_posts mp bs st r :
  preserves posts (process_response E mp bs st r).
Proof.
  unfold process_response, _check_and_notify_error, check_graphql_errors,
    _save_companies_to_json, _apply_human_like_delay.
  repeat preserves_step.
Qed.

(** One pass sends one request, whatever comes of it. *)
Lemma loop_body_posts mp bs st w :
  posts (snd (loop_body E mp bs st w)) = (posts w ++ [(base_url, payload st)])%list.
Proof.
  unfold loop_body, bind, requests_post.
  destruct (http E _ _ _) as [r | e]; [| reflexivity].
  rewrite process_response_posts. reflexivity.
Qed.

Lemma finish_posts reason st : preserves posts (finish reason st).
Proof.
  unfold finish, _save_companies_to_json, _save_all_companies_to_json.
  repeat preserves_step.
Qed.


Lemma pagination_loop_posts_eq mp bs fuel : forall st w reason st' w',
  pagination_loop E fuel mp bs st w = (Ok (Some (reason, st')), w') ->
  page st <= page st' /\
  Z.of_nat (List.length (posts w'))
  = Z.of_nat (List.length (posts w)) + (page st' - page st + 1).
Proof.
  induction fuel as [| fuel IH]; intros st w reason st' w' H; simpl in H.
  - unret H.
  - unbind H as r w1 Hbody. destruct r as [c st1]. simpl in H.
    apply loop_body_facts in Hbody.
    destruct Hbody as (_ & _ & _ & _ & Hp & _ & Hposts & _).
    destruct c as [reason0 |].
    + unret H. rewrite Hposts, length_app. simpl. lia.
    + apply IH in H. destruct H as [Hle H].
      rewrite Hposts, length_app in H. simpl in H. lia.
Qed.

End TraceFacts.

Section RequestProperties.
Import HarmonicErrorNotifier HarmonicClient.
Context (E : env) {R : Runtime}.

(** X1.  [pages_fetched] of a returned result is the number of requests the
    run has sent, and it is at least 1. *)
Theorem pages_fetched_is_request_count query max_pages batch_size w r w' :
  get_company_saved_search_results E query max_pages batch_size w
    = (Ok (Some r), w') ->
  1 <= r_pages_fetched (returned r) /\
  Z.of_nat (List.length (posts w'))
  = Z.of_nat (List.length (posts w)) + r_pages_fetched (returned r).
Proof.
  intros H. apply run_inv in H. destruct H as (st & w2 & Hloop & Hfin).
  apply pagination_loop_posts_eq in Hloop. destruct Hloop as [Hle Hn].
  pose proof (finish_posts (exit r) st w2) as Hp. rewrite Hfin in Hp.
  rewrite finish_run in Hfin. injection Hfin as Hr _.
  simpl in Hp, Hle, Hn. rewrite <- Hr. simpl. rewrite Hp. lia.
Qed.


End RequestProperties.

Section TraceFacts2.
Import HarmonicErrorNotifier HarmonicClient.
Context (E : env) {R : Runtime}.

Lemma check_and_notify_rest resp data w r w' :
  _check_and_notify_error E resp data w = (r, w') ->
  files w' = files w /\ slept w' = slept w /\ draws w' = draws w /\
  clock_reads w' = clock_reads w /\ posts w' = posts w.
Proof.
  intros H. apply check_and_notify_world in H.
  destruct H as [-> | (m & ->)]; repeat split; reflexivity.
Qed.

Lemma cursor_of_set p vars c vars' p' :
  setitem vars "after" c = Ok vars' ->
  setitem p "variables" vars' = Ok p' ->
  cursor_of p' = Ok c.
Proof.
  intros H1 H2. destruct vars; try discriminate H1. simpl in H1.
  destruct p; try discriminate H2. simpl in H2.
  inversion H1; inversion H2; subst.
  unfold cursor_of. simpl. rewrite dict_find_set. simpl.
  rewrite dict_find_set. reflexivity.
Qed.

(** What one pass that does not raise leaves behind: the batch file, the
    pause and the cursor. *)
Lemma loop_body_trace mp bs st w c st' w' :
  loop_body E mp bs st w = (Ok (c, st'), w') ->
  ((files w' = files w /\ batch_number st' = batch_number st) \/
   (exists l,
      files w' =
        (files w ++
         [BatchFile (batch_number st)
            ("harmonic_companies_batch_" ++ format_03d (batch_number st) ++ ".json")
            (JObj [("companies", JArr l)])])%list /\
      batch_number st' = batch_number st + 1 /\
      bs <= Z.of_nat (List.length l) /\
      current_batch st' = [])) /\
  match c with
  | Continue =>
      (exists d,
         slept w' = (slept w ++ [d])%list /\
         (d = (2 + (8 - 2) * random E (draws w))%Q \/
          d = (60 * 3 + (60 * 5 - 60 * 3) * random E (draws w))%Q)) /\
      draws w' = S (draws w) /\
      exists cursor,
        end_cursor_of (http E (List.length (posts w)) base_url (payload st))
          = Ok cursor /\
        cursor_of (payload st') = Ok cursor
  | Break _ => slept w' = slept w /\ draws w' = draws w /\ payload st' = payload st
  end.
Proof.
  unfold loop_body, process_response. intros H.
  unbind H as response w1 Hpost.
  apply requests_post_inv in Hpost. destruct Hpost as [Hhttp ->].
  unbind H as data w2 Hjson. unlift Hjson.
  unbind H as is_error w3 Hcheck.
  apply check_and_notify_rest in Hcheck.
  destruct Hcheck as (Hfiles & Hslept & Hdraws & _ & _). simpl in *.
  destruct is_error.
  - unbind H as x w4 Hget. unlift Hget. unret H.
    split; [left; split; [exact Hfiles | reflexivity] |].
    repeat split; assumption.
  - unbind H as sc w4 Hsc. unlift Hsc.
    unbind H as edges w4 Hedges. unlift Hedges.
    unbind H as items w4 Hitems. unlift Hitems.
    unbind H as n w4 Hlen. unlift Hlen.
    unbind H as tc w4 Htc.
    assert (Hw4 : w4 = w3).
    { destruct (is_none (total_count st)); [unlift Htc | unret Htc]; reflexivity. }
    subst w4.
    unbind H as fl w5 Hfl.
    unbind H as info w6 Hinfo. unlift Hinfo.
    unbind H as has_next w6 Hnext. unlift Hnext.
    assert (Hflush :
      ((files w5 = files w /\ snd fl = batch_number st) \/
       (exists l,
          files w5 =
            (files w ++
             [BatchFile (batch_number st)
                ("harmonic_companies_batch_" ++ format_03d (batch_number st) ++ ".json")
                (JObj [("companies", JArr l)])])%list /\
          snd fl = batch_number st + 1 /\
          bs <= Z.of_nat (List.length l) /\ fst fl = [])) /\
      slept w5 = slept w /\ draws w5 = draws w).
    { destruct (_ >=? bs) eqn:Hge.
      - unbind Hfl as u w7 Hsave. unret Hfl.
        unfold _save_companies_to_json, modify in Hsave.
        inversion Hsave; subst. simpl.
        split; [| split; assumption].
        right. eexists. rewrite Hfiles. split; [reflexivity |].
        split; [reflexivity |]. split; [lia | reflexivity].
      - unret Hfl. simpl. split; [| split; assumption].
        left. split; [exact Hfiles | reflexivity]. }
    destruct Hflush as (Hfl' & Hslept5 & Hdraws5).
    destruct (negb (truthy has_next)).
    { unret H. simpl. split; [exact Hfl' |]. repeat split; assumption. }
    destruct (page st >=? mp) eqn:Hpage.
    { unret H. simpl. split; [exact Hfl' |]. repeat split; assumption. }
    unbind H as cursor w7 Hcur. unlift Hcur.
    unbind H as vars w7 Hvars. unlift Hvars.
    unbind H as vars' w7 Hvars'. unlift Hvars'.
    unbind H as payload' w7 Hpl. unlift Hpl.
    unbind H as dl w7 Hdelay.
    rewrite human_like_delay_run in Hdelay.
    assert (Hcursor : end_cursor_of
                        (http E (List.length (posts w)) base_url (payload st))
                      = Ok cursor).
    { unfold end_cursor_of. rewrite Hhttp, Hjson. simpl.
      unfold page_info. rewrite Hsc. simpl. rewrite Hinfo. simpl. exact Hcur. }
    pose proof (cursor_of_set _ _ _ _ _ Hvars' Hpl) as Hset.
    destruct (_ >=? three_minutes); inversion Hdelay; subst; clear Hdelay;
      unret H; simpl; (split; [exact Hfl' |]);
      rewrite Hslept5, Hdraws5;
      (split; [eexists; split; [reflexivity | auto] |]);
      (split; [reflexivity |]);
      exists cursor; split; assumption.
Qed.

Lemma numbered_from_app n l1 l2 :
  numbered_from n (l1 ++ l2)
  = andb (numbered_from n l1) (numbered_from (n + Z.of_nat (List.length l1)) l2).
Proof.
  revert n. induction l1 as [| f l1 IH]; intros n; simpl.
  - replace (n + 0) with n by lia. reflexivity.
  - destruct f as [k name c | name c]; [| reflexivity].
    rewrite IH. replace (n + 1 + Z.of_nat (List.length l1))
      with (n + Z.pos (Pos.of_succ_nat (List.length l1))) by lia.
    rewrite andb_assoc. reflexivity.
Qed.

Lemma numbered_from_one n l :
  numbered_from n
    [BatchFile n ("harmonic_companies_batch_" ++ format_03d n ++ ".json")
       (JObj [("companies", JArr l)])] = true.
Proof. simpl. rewrite Z.eqb_refl, String.eqb_refl. reflexivity. Qed.

Lemma filled_app size l1 l2 :
  filled size (l1 ++ l2) = andb (filled size l1) (filled size l2).
Proof. unfold filled. apply forallb_app. Qed.

Lemma pagination_loop_files mp bs fuel : forall st w reason st' w',
  pagination_loop E fuel mp bs st w = (Ok (Some (reason, st')), w') ->
  exists batches,
    files w' = (files w ++ batches)%list /\
    numbered_from (batch_number st) batches = true /\
    batch_number st' = batch_number st + Z.of_nat (List.length batches) /\
    filled bs batches = true.
Proof.
  induction fuel as [| fuel IH]; intros st w reason st' w' H; simpl in H.
  - unret H.
  - unbind H as r w1 Hbody. destruct r as [c st1]. simpl in H.
    apply loop_body_trace in Hbody. destruct Hbody as [Hfiles _].
    assert (Hstep : exists b1,
              files w1 = (files w ++ b1)%list /\
              numbered_from (batch_number st) b1 = true /\
              batch_number st1 = batch_number st + Z.of_nat (List.length b1) /\
              filled bs b1 = true).
    { destruct Hfiles as [[Hf Hn] | (l & Hf & Hn & Hl & _)].
      - exists []. rewrite app_nil_r. simpl. repeat split; auto. lia.
      - eexists. split; [exact Hf |]. split; [apply numbered_from_one |].
        split; [simpl; lia |]. unfold filled. simpl. rewrite andb_true_r.
        apply Z.leb_le. exact Hl. }
    destruct Hstep as (b1 & Hf1 & Hn1 & Hb1 & Hfill1).
    destruct c as [reason0 |].
    + unret H. exists b1. auto.
    + apply IH in H. destruct H as (b2 & Hf2 & Hn2 & Hb2 & Hfill2).
      exists (b1 ++ b2)%list. rewrite Hf2, Hf1, <- app_assoc.
      split; [reflexivity |]. split; [| split].
      * rewrite numbered_from_app, Hn1. rewrite <- Hb1. exact Hn2.
      * rewrite length_app. lia.
      * rewrite filled_app, Hfill1, Hfill2. reflexivity.
Qed.

Lemma filled_nonempty size l :
  1 <= size -> filled size l = true -> filled_but_last size l = true.
Proof.
  intros Hs. induction l as [| f l IH]; simpl; [reflexivity |].
  intros H. apply andb_prop in H. destruct H as [Hf Hl].
  destruct l as [| g l].
  - destruct (batch_of f); [simpl in Hf; lia | reflexivity].
  - rewrite Hf. simpl. apply IH. exact Hl.
Qed.

Lemma filled_then_last size l f :
  filled size l = true -> batch_of f <> [] ->
  filled_but_last size (l ++ [f]) = true.
Proof.
  intros Hl Hf. induction l as [| g l IH]; simpl.
  - destruct (batch_of f); [contradiction | reflexivity].
  - simpl in Hl. apply andb_prop in Hl. destruct Hl as [Hg Hl].
    destruct (l ++ [f])%list eqn:Happ.
    + destruct l; discriminate Happ.
    + rewrite Hg. simpl. apply IH. exact Hl.
Qed.

(** The files of a run that returns: the batch files flushed inside the
    loop, the remainder if there is one, and the consolidated file. *)
Lemma run_files query max_pages batch_size w r w' :
  get_company_saved_search_results E query max_pages batch_size w
    = (Ok (Some r), w') ->
  exists batches,
    files w' =
      (files w ++ batches ++
       [OutputFile "harmonic_companies_output.json"
          (JObj [("companies", JArr (r_companies (returned r)))])])%list /\
    numbered_from 1 batches = true /\
    (1 <= batch_size -> filled_but_last batch_size batches = true).
Proof.
  intros H. apply run_inv in H. destruct H as (st & w2 & Hloop & Hfin).
  apply pagination_loop_files in Hloop.
  destruct Hloop as (b & Hf & Hn & Hb & Hfill).
  cbn [batch_number initial_locals] in Hn, Hb.
  rewrite finish_run in Hfin. injection Hfin as Hr Hw. subst w'.
  rewrite <- Hr. simpl.
  destruct (current_batch st) as [| x rest] eqn:Hcur.
  - exists b. simpl. rewrite Hf, <- app_assoc. split; [reflexivity |].
    split; [exact Hn |]. intros Hs. apply filled_nonempty; assumption.
  - eexists (b ++ [_])%list. simpl. rewrite Hf, <- !app_assoc.
    split; [reflexivity |]. split.
    + rewrite numbered_from_app, Hn. rewrite <- Hb. apply numbered_from_one.
    + intros _. apply filled_then_last; [exact Hfill |]. simpl.
      unfold companies_of. simpl. discriminate.
Qed.

End TraceFacts2.

Section FileProperties.
Import HarmonicErrorNotifier HarmonicClient.
Context (E : env) {R : Runtime}.

(** X3.  The files a returning run writes are, in this order, the batch
    files numbered 1, 2, 3, ... without a gap, each named
    [harmonic_companies_batch_NNN.json] after its number, and then
    [harmonic_companies_output.json], which holds exactly the returned
    companies. *)
Theorem batch_files_numbered query max_pages batch_size w r w' :
  get_company_saved_search_results E query max_pages batch_size w
    = (Ok (Some r), w') ->
  exists batches,
    files w' =
      (files w ++ batches ++
       [OutputFile "harmonic_companies_output.json"
          (JObj [("companies", JArr (r_companies (returned r)))])])%list /\
    numbered_from 1 batches = true.
Proof.
  intros H. apply run_files in H. destruct H as (b & Hf & Hn & _).
  exists b. split; assumption.
Qed.

(** X4.  [batch_size] is a threshold, not a capacity: for
    [batch_size >= 1], every batch file of a returning run except the last
    holds at least [batch_size] records, and no batch file is empty. *)
Theorem batch_files_filled query max_pages batch_size w r w' batches out :
  1 <= batch_size ->
  get_company_saved_search_results E query max_pages batch_size w
    = (Ok (Some r), w') ->
  files w' = (files w ++ batches ++ [out])%list ->
  filled_but_last batch_size batches = true.
Proof.
  intros Hs H Hfiles. apply run_files in H. destruct H as (b & Hf & _ & Hfill).
  rewrite Hf in Hfiles. apply app_inv_head in Hfiles.
  apply app_inj_tail in Hfiles. destruct Hfiles as [<- _].
  apply Hfill. exact Hs.
Qed.

End FileProperties.

Section TraceFacts3.
Import HarmonicErrorNotifier HarmonicClient.
Context (E : env) {R : Runtime}.

Lemma pagination_loop_posts_shape mp bs fuel : forall st w,
  exists added,
    posts (snd (pagination_loop E fuel mp bs st w)) = (posts w ++ added)%list /\
    match fuel with
    | O => added = []
    | S _ => exists rest, added = (base_url, payload st) :: rest
    end.
Proof.
  induction fuel as [| fuel IH]; intros st w.
  - exists []. simpl. rewrite app_nil_r. split; reflexivity.
  - rewrite pagination_loop_S. unfold bind.
    pose proof (loop_body_posts E mp bs st w) as Hposts.
    destruct (loop_body E mp bs st w) as [[[c st1] | e] w1]; simpl in Hposts.
    + destruct c as [reason |]; simpl.
      * eexists. split; [exact Hposts |]. eexists. reflexivity.
      * destruct (IH st1 w1) as (added & Hadd & _).
        eexists. rewrite Hadd, Hposts, <- app_assoc. simpl.
        split; [reflexivity |]. eexists. reflexivity.
    + simpl. eexists. split; [exact Hposts |]. eexists. reflexivity.
Qed.

Lemma nth_error_beyond {A} (l : list A) x k :
  nth_error (l ++ [x]) (List.length l + S k) = None.
Proof. apply nth_error_None. rewrite length_app. simpl. lia. Qed.

Lemma nth_error_at {A} (l rest : list A) x :
  nth_error (l ++ x :: rest) (List.length l + 0) = Some x.
Proof.
  rewrite Nat.add_0_r. rewrite nth_error_app2 by lia.
  rewrite Nat.sub_diag. reflexivity.
Qed.

Lemma pagination_loop_cursors mp bs fuel : forall st w k p q,
  nth_error (posts (snd (pagination_loop E fuel mp bs st w)))
    (List.length (posts w) + k) = Some p ->
  nth_error (posts (snd (pagination_loop E fuel mp bs st w)))
    (List.length (posts w) + S k) = Some q ->
  exists cursor,
    end_cursor_of (http E (List.length (posts w) + k) (fst p) (snd p)) = Ok cursor /\
    cursor_of (snd q) = Ok cursor.
Proof.
  induction fuel as [| fuel IH]; intros st w k p q Hp Hq.
  - simpl in Hp. exfalso.
    assert (Hnone : nth_error (posts w) (List.length (posts w) + k) = None)
      by (apply nth_error_None; lia).
    congruence.
  - rewrite pagination_loop_S in Hp, Hq. unfold bind in Hp, Hq.
    pose proof (loop_body_posts E mp bs st w) as Hposts.
    destruct (loop_body E mp bs st w) as [[[c st1] | e] w1] eqn:Hbody;
      simpl in Hposts.
    + destruct c as [reason |]; simpl in Hp, Hq.
      * rewrite Hposts, nth_error_beyond in Hq. discriminate Hq.
      * assert (Hlen : List.length (posts w1) = S (List.length (posts w)))
          by (rewrite Hposts, length_app; simpl; lia).
        destruct k as [| k].
        -- destruct (pagination_loop_posts_shape mp bs fuel st1 w1)
             as (added & Hadd & Hshape).
           rewrite Hadd in Hp, Hq.
           rewrite Hposts, <- app_assoc in Hp. simpl in Hp.
           rewrite nth_error_at in Hp. injection Hp as <-.
           replace (List.length (posts w) + 1)%nat
             with (List.length (posts w1) + 0)%nat in Hq by lia.
           destruct fuel as [| fuel].
           ++ subst added. rewrite app_nil_r in Hq.
              assert (Hnone : nth_error (posts w1) (List.length (posts w1) + 0) = None)
                by (apply nth_error_None; lia).
              congruence.
           ++ destruct Hshape as [rest ->].
              rewrite nth_error_at in Hq. injection Hq as <-.
              apply loop_body_trace in Hbody.
              destruct Hbody as (_ & _ & _ & cursor & Hend & Hcur).
              exists cursor. rewrite Nat.add_0_r. simpl. split; assumption.
        -- replace (List.length (posts w) + S k)%nat
             with (List.length (posts w1) + k)%nat in * by lia.
           replace (List.length (posts w) + S (S k))%nat
             with (List.length (posts w1) + S k)%nat in Hq by lia.
           apply (IH st1 w1 k p q); assumption.
    + simpl in Hp, Hq. rewrite Hposts, nth_error_beyond in Hq. discriminate Hq.
Qed.

(** The requests of a run are those of its loop. *)
Lemma run_posts query max_pages batch_size w :
  posts (snd (get_company_saved_search_results E query max_pages batch_size w))
  = posts (snd (pagination_loop E (passes max_pages) max_pages batch_size
                  (initial_locals query (now E (clock_reads w))) (tick_clock w))).
Proof.
  unfold get_company_saved_search_results.
  erewrite bind_ok by (unfold datetime_now; reflexivity).
  unfold bind at 1.
  destruct (pagination_loop E (passes max_pages) max_pages batch_size
              (initial_locals query (now E (clock_reads w))) (tick_clock w))
    as [[[[reason st] |] | e] w2]; simpl; try reflexivity.
  unfold bind at 1.
  pose proof (finish_posts reason st w2) as Hp.
  destruct (finish reason st w2) as [[r0 | e] w3]; simpl in Hp; simpl; exact Hp.
Qed.

Lemma pagination_loop_pauses mp bs fuel :
  (forall k, (0 <= random E k < 1)%Q) ->
  forall st w reason st' w',
    pagination_loop E fuel mp bs st w = (Ok (Some (reason, st')), w') ->
    exists pauses,
      slept w' = (slept w ++ pauses)%list /\
      Z.of_nat (List.length pauses) = page st' - page st /\
      Forall (fun d => short_pause d \/ long_pause d) pauses.
Proof.
  intros Hrand.
  induction fuel as [| fuel IH]; intros st w reason st' w' H; simpl in H.
  - unret H.
  - unbind H as r w1 Hbody. destruct r as [c st1]. simpl in H.
    pose proof (loop_body_facts E _ _ _ _ _ _ _ Hbody)
      as (_ & _ & _ & _ & Hpage & _).
    apply loop_body_trace in Hbody. destruct Hbody as [_ Hpause].
    destruct c as [reason0 |].
    + unret H. destruct Hpause as (Hs & _ & _).
      exists []. rewrite app_nil_r. split; [exact Hs |].
      split; [simpl; lia | constructor].
    + apply IH in H. destruct H as (pauses & Hs & Hn & Hall).
      destruct Hpause as ((d & Hd & Hrange) & _ & _).
      exists (d :: pauses). rewrite Hs, Hd, <- app_assoc.
      split; [reflexivity |]. split; [simpl List.length; lia |].
      constructor; [| exact Hall].
      destruct (delay_ranges (random E (draws w)) (Hrand _)) as [Hlong Hshort].
      destruct Hrange as [-> | ->]; [left | right];
        unfold short_pause, long_pause; split; lra.
Qed.

Lemma finish_slept reason st : preserves slept (finish reason st).
Proof.
  unfold finish, _save_companies_to_json, _save_all_companies_to_json.
  repeat preserves_step.
Qed.

Lemma notify_auth_failure_count d w :
  exists b w',
    notify_auth_failure E d w = (Ok b, w') /\
    files w' = files w /\
    List.length (sent w')
    = (List.length (sent w) + if messenger E then 1 else 0)%nat.
Proof.
  unfold notify_auth_failure. destruct (messenger E); simpl;
    eexists _, _; (split; [reflexivity |]); simpl;
    (split; [reflexivity |]); [rewrite length_app; reflexivity | lia].
Qed.

Lemma notify_api_error_count t d w :
  exists b w',
    notify_api_error E t d w = (Ok b, w') /\
    files w' = files w /\
    List.length (sent w')
    = (List.length (sent w) + if messenger E then 1 else 0)%nat.
Proof.
  unfold notify_api_error. destruct (messenger E); simpl;
    eexists _, _; (split; [reflexivity |]); simpl;
    (split; [reflexivity |]); [rewrite length_app; reflexivity | lia].
Qed.

(** An answer with a dictionary as body that the error check flags: the
    pass leaves the loop with the locals as they were, after one
    notification. *)
Lemma loop_body_error mp bs st w r :
  http E (List.length (posts w)) base_url (payload st) = Ok r ->
  is_error_answer r = true ->
  exists w',
    loop_body E mp bs st w = (Ok (Break StopError, st), w') /\
    files w' = files w /\
    List.length (sent w')
    = (List.length (sent w) + if messenger E then 1 else 0)%nat.
Proof.
  intros Hhttp Herr. unfold is_error_answer in Herr.
  destruct (body r) as [[| | | | | kvs] |] eqn:Hb; try discriminate Herr.
  destruct (is_auth_status (status_code r)) eqn:Hs.
  - destruct (loop_body_auth E mp bs st w r kvs Hhttp Hs Hb)
      as (w' & Hbody & _ & Hf & Hsent).
    exists w'. split; [exact Hbody |]. split; [exact Hf |].
    rewrite Hsent, length_app. destruct (messenger E); reflexivity.
  - simpl in Herr.
    destruct (dict_find "errors" kvs) as [errs |] eqn:Herrs; [| discriminate Herr].
    assert (Htruthy : truthy (JObj kvs) = true).
    { destruct kvs; [discriminate Herrs | reflexivity]. }
    assert (Hcheck : exists w',
              _check_and_notify_error E (Some r) (JObj kvs)
                (add_post base_url (payload st) w) = (Ok true, w') /\
              files w' = files w /\
              List.length (sent w')
              = (List.length (sent w) + if messenger E then 1 else 0)%nat).
    { unfold _check_and_notify_error. rewrite Hs.
      unfold check_graphql_errors. rewrite Htruthy.
      erewrite bind_ok by (unfold lift; simpl; rewrite Herrs; reflexivity).
      cbv beta iota.
      erewrite bind_ok by (unfold lift; simpl; rewrite Herrs; reflexivity).
      cbv zeta. destruct (existsb _ _).
      - destruct (notify_auth_failure_count
                    (str_prefix 500 (if is_list errs then json_dumps errs
                                     else py_str errs))
                    (add_post base_url (payload st) w)) as (b & w' & Hn & Hf & Hl).
        exists w'. erewrite bind_ok by (exact Hn).
        split; [reflexivity |]. split; assumption.
      - destruct (notify_api_error_count "GraphQL Error"
                    (str_prefix 500 (if is_list errs then json_dumps errs
                                     else py_str errs))
                    (add_post base_url (payload st) w)) as (b & w' & Hn & Hf & Hl).
        exists w'. erewrite bind_ok by (exact Hn).
        split; [reflexivity |]. split; assumption. }
    destruct Hcheck as (w' & Hcheck & Hf & Hl).
    exists w'. split; [| split; assumption].
    unfold loop_body, process_response.
    erewrite bind_ok by (unfold requests_post; rewrite Hhttp; reflexivity).
    erewrite bind_ok by (unfold lift, response_json; rewrite Hb; reflexivity).
    erewrite bind_ok by (exact Hcheck). cbv beta iota.
    erewrite bind_ok by (unfold lift; simpl; rewrite Herrs; reflexivity).
    reflexivity.
Qed.

(** A page that reports a next page, below the page limit, with a payload
    that has no ["variables"]: writing the cursor raises. *)
Lemma raises_without_variables mp bs st w e :
  reports_next (http E (List.length (posts w)) base_url (payload st)) = true ->
  page st < mp ->
  subscript (payload st) "variables" = Raise e ->
  fst (loop_body E mp bs st w) = Raise e.
Proof.
  intros Hn Hlt Hv. apply reports_next_inv in Hn.
  destruct Hn as (r & data & sc & edges & items & info & hn & cursor & Hhttp & Hs & Hb
                  & Hg & Hsc & He & Hi & Hp & Hh & Ht & Hc & _).
  rewrite (loop_body_enters E mp bs st w r data Hhttp Hs Hb Hg).
  destruct (iterate_len _ _ Hi) as [n Hlen].
  destruct (total_step st sc edges (add_post base_url (payload st) w) He)
    as (tc & Htc & _).
  destruct (flush_step (current_batch st ++ items) (batch_number st) bs
              (add_post base_url (payload st) w)) as (fl & w1 & Hfl).
  erewrite bind_ok by (unfold lift; rewrite Hsc; reflexivity).
  erewrite bind_ok by (unfold lift; rewrite He; reflexivity).
  erewrite bind_ok by (unfold lift; rewrite Hi; reflexivity).
  erewrite bind_ok by (unfold lift; rewrite Hlen; reflexivity).
  erewrite bind_ok by (exact Htc).
  erewrite bind_ok by (exact Hfl).
  erewrite bind_ok by (unfold lift; rewrite Hp; reflexivity).
  erewrite bind_ok by (unfold lift; rewrite Hh; reflexivity).
  rewrite Ht. cbn [negb].
  assert (Hge : (page st >=? mp) = false) by lia. rewrite Hge.
  erewrite bind_ok by (unfold lift; rewrite Hc; reflexivity).
  erewrite bind_raise by (unfold lift; rewrite Hv; reflexivity). reflexivity.
Qed.

End TraceFacts3.

Section CursorProperties.
Import HarmonicErrorNotifier HarmonicClient.
Context (E : env) {R : Runtime}.

(** X5.  Cursor chaining: of any two consecutive requests of a run, whether
    the run returns or raises, the second carries in
    [variables.after] the [endCursor] of the page that answered the
    first. *)
Theorem cursor_chain query max_pages batch_size w k p q :
  nth_error
    (posts (snd (get_company_saved_search_results E query max_pages batch_size w)))
    (List.length (posts w) + k) = Some p ->
  nth_error
    (posts (snd (get_company_saved_search_results E query max_pages batch_size w)))
    (List.length (posts w) + S k) = Some q ->
  exists cursor,
    end_cursor_of (http E (List.length (posts w) + k) (fst p) (snd p)) = Ok cursor /\
    cursor_of (snd q) = Ok cursor.
Proof.
  rewrite run_posts. intros Hp Hq.
  exact (pagination_loop_cursors E max_pages batch_size (passes max_pages)
           (initial_locals query (now E (clock_reads w))) (tick_clock w) k p q
           Hp Hq).
Qed.

(** X6.  Pacing: with every [random.random()] in [[0, 1)], a run that
    returns has paused once between any two consecutive requests, that is
    [pages_fetched - 1] times, and every pause was of 2 to 8 seconds or of
    180 to 300 seconds. *)
Theorem pauses_between_requests query max_pages batch_size w r w' :
  (forall k, (0 <= random E k < 1)%Q) ->
  get_company_saved_search_results E query max_pages batch_size w
    = (Ok (Some r), w') ->
  exists pauses,
    slept w' = (slept w ++ pauses)%list /\
    Z.of_nat (List.length pauses) = r_pages_fetched (returned r) - 1 /\
    Forall (fun d => short_pause d \/ long_pause d) pauses.
Proof.
  intros Hrand H. apply run_inv in H. destruct H as (st & w2 & Hloop & Hfin).
  apply (pagination_loop_pauses E _ _ _ Hrand) in Hloop.
  destruct Hloop as (pauses & Hs & Hn & Hall).
  pose proof (finish_slept (exit r) st w2) as Hp. rewrite Hfin in Hp. simpl in Hp.
  rewrite finish_run in Hfin. injection Hfin as Hr _.
  exists pauses. rewrite Hp. split; [exact Hs |]. split; [| exact Hall].
  rewrite <- Hr. simpl. simpl in Hn. exact Hn.
Qed.

(** X7.  An error on the first page (a 401 or 403, or a body with an
    ["errors"] entry, the body being a JSON object): the run does not raise.
    It returns no company, no total and [pages_fetched = 1], notifies once,
    and still writes [harmonic_companies_output.json], with an empty
    list. *)
Theorem first_page_error_returns_empty query max_pages batch_size w r1 :
  http E (List.length (posts w)) base_url (payload_of query) = Ok r1 ->
  is_error_answer r1 = true ->
  exists r w',
    get_company_saved_search_results E query max_pages batch_size w
      = (Ok (Some r), w') /\
    exit r = StopError /\
    returned r = {| r_total_count := JNull; r_companies := [];
                    r_pages_fetched := 1 |} /\
    files w' =
      (files w ++ [OutputFile "harmonic_companies_output.json"
                     (JObj [("companies", JArr [])])])%list /\
    List.length (sent w')
    = (List.length (sent w) + if messenger E then 1 else 0)%nat.
Proof.
  intros Hhttp Herr.
  set (st0 := initial_locals query (now E (clock_reads w))).
  destruct (loop_body_error E max_pages batch_size st0 (tick_clock w) r1 Hhttp Herr)
    as (w1 & Hbody & Hf & Hl).
  assert (Hpasses : exists fuel, passes max_pages = S fuel).
  { exists (Z.to_nat (Z.max 1 max_pages - 1)). unfold passes. lia. }
  destruct Hpasses as [fuel Hpasses].
  assert (Hloop : pagination_loop E (passes max_pages) max_pages batch_size st0
                    (tick_clock w) = (Ok (Some (StopError, st0)), w1)).
  { rewrite Hpasses, pagination_loop_S.
    erewrite bind_ok by (exact Hbody). reflexivity. }
  destruct (run_of_loop E query max_pages batch_size w _ _ _ Hloop)
    as (r & w' & Hrun & Hfin & Hexit & Hret).
  exists r, w'. split; [exact Hrun |]. split; [exact Hexit |].
  split; [exact Hret |].
  rewrite finish_run in Hfin. injection Hfin as _ Hw. subst w'. simpl.
  rewrite Hf, Hl. split; reflexivity.
Qed.

(** X8.  A query given as a string cannot be paginated: the payload built
    from it has no ["variables"], so when the first page reports a next
    page and [max_pages] is at least 2, the run raises
    [KeyError('variables')] after its first request and returns
    nothing. *)
Theorem string_query_cannot_paginate q max_pages batch_size w :
  2 <= max_pages ->
  reports_next
    (http E (List.length (posts w)) base_url (payload_of (QueryStr q))) = true ->
  fst (get_company_saved_search_results E (QueryStr q) max_pages batch_size w)
    = Raise (KeyError "variables") /\
  List.length
    (posts (snd (get_company_saved_search_results E (QueryStr q) max_pages
                   batch_size w)))
  = S (List.length (posts w)).
Proof.
  intros Hmp Hnext.
  set (st0 := initial_locals (QueryStr q) (now E (clock_reads w))).
  assert (Hpasses : exists fuel, passes max_pages = S fuel).
  { exists (Z.to_nat (Z.max 1 max_pages - 1)). unfold passes. lia. }
  destruct Hpasses as [fuel Hpasses].
  pose proof (raises_without_variables E max_pages batch_size st0 (tick_clock w)
                (KeyError "variables") Hnext) as Hraise.
  specialize (Hraise ltac:(simpl; lia) eq_refl).
  pose proof (loop_body_posts E max_pages batch_size st0 (tick_clock w)) as Hposts.
  destruct (loop_body E max_pages batch_size st0 (tick_clock w)) as [res w1] eqn:Hbody.
  simpl in Hraise, Hposts. subst res.
  assert (Hloop : pagination_loop E (passes max_pages) max_pages batch_size st0
                    (tick_clock w) = (Raise (KeyError "variables"), w1)).
  { rewrite Hpasses, pagination_loop_S.
    erewrite bind_raise by (exact Hbody). reflexivity. }
  unfold get_company_saved_search_results.
  erewrite bind_ok by (unfold datetime_now; reflexivity).
  erewrite bind_raise by (exact Hloop). simpl.
  split; [reflexivity |]. rewrite Hposts, length_app. simpl. lia.
Qed.

End CursorProperties.

(* ================================================================== *)
(** * [search_people] *)
(* ================================================================== *)

Section PeopleFacts.
Import HarmonicErrorNotifier HarmonicClient.
Context (E : env) {R : Runtime}.

Lemma process_people_response_posts mp bs st r :
  preserves posts (process_people_response E mp bs st r).
Proof.
  unfold process_people_response, _check_and_notify_error, check_graphql_errors,
    _save_people_to_json, _apply_human_like_delay.
  repeat preserves_step.
Qed.

Lemma people_loop_body_posts mp bs st w :
  posts (snd (people_loop_body E mp bs st w))
  = (posts w ++ [(base_url, payload st)])%list.
Proof.
  unfold people_loop_body, bind, requests_post.
  destruct (http E _ _ _) as [r | e]; [| reflexivity].
  rewrite process_people_response_posts. reflexivity.
Qed.

Lemma finish_people_run st w :
  exists w',
    finish_people st w =
      (Ok {| p_total_count := total_count st; p_people := all_edges st;
             p_pages_fetched := page st |}, w') /\
    posts w' = posts w.
Proof.
  unfold finish_people. destruct (current_batch st);
    eexists; split; reflexivity.
Qed.

(** A pass goes on to the next page only after reading
    [payload["variables"]]; a pass that leaves the loop keeps [page]. *)
Lemma people_loop_body_inv mp bs st w c st' w' :
  people_loop_body E mp bs st w = (Ok (c, st'), w') ->
  match c with
  | Continue => exists v, subscript (payload st) "variables" = Ok v
  | Break _ => page st' = page st
  end.
Proof.
  unfold people_loop_body, process_people_response. intros H.
  unbind H as response w1 Hpost.
  unbind H as data w2 Hjson.
  unbind H as is_error w3 Hcheck.
  destruct is_error.
  - unbind H as x w4 Hget. unret H. reflexivity.
  - unbind H as sc w4 Hsc.
    unbind H as edges w5 Hedges.
    unbind H as items w6 Hitems.
    unbind H as n w7 Hlen.
    unbind H as tc w8 Htc.
    unbind H as fl w9 Hfl.
    unbind H as info w10 Hinfo.
    unbind H as has_next w11 Hnext.
    destruct (negb (truthy has_next)).
    { unret H. reflexivity. }
    destruct (page st >=? mp).
    { unret H. reflexivity. }
    unbind H as cursor w12 Hcur.
    unbind H as vars w13 Hvars. unlift Hvars.
    unbind H as vars' w13 Hvars'.
    unbind H as payload' w14 Hpl.
    unbind H as dl w15 Hdelay. unret H.
    exists vars. exact Hvars.
Qed.

Lemma people_reports_next_inv answer :
  people_reports_next answer = true ->
  exists r data sc edges items info has_next cursor,
    answer = Ok r /\ is_auth_status (status_code r) = false /\
    body r = Some data /\ no_graphql_errors data = true /\
    people_of data = Ok sc /\ subscript sc "edges" = Ok edges /\
    iterate edges = Ok items /\ subscript sc "pageInfo" = Ok info /\
    subscript info "hasNextPage" = Ok has_next /\ truthy has_next = true /\
    subscript info "endCursor" = Ok cursor.
Proof.
  unfold people_reports_next. destruct answer as [r | e]; [| discriminate].
  destruct (is_auth_status (status_code r)) eqn:Hs; [discriminate |].
  destruct (body r) as [data |] eqn:Hb; [| discriminate]. simpl.
  destruct (no_graphql_errors data) eqn:Hn; [| discriminate]. simpl.
  destruct (people_of data) as [sc | e] eqn:Hsc; [| discriminate].
  destruct (subscript sc "edges") as [edges | e] eqn:He; simpl; [| discriminate].
  destruct (iterate edges) as [items | e] eqn:Hi; simpl; [| discriminate].
  destruct (subscript sc "pageInfo") as [info | e] eqn:Hp; [| discriminate].
  destruct (subscript info "hasNextPage") as [hn | e] eqn:Hh; [| discriminate].
  destruct (truthy hn) eqn:Ht; [| discriminate]. simpl.
  destruct (subscript info "endCursor") as [cursor | e] eqn:Hc; [| discriminate].
  intros _. exists r, data, sc, edges, items, info, hn, cursor. repeat split; auto.
Qed.

Lemma people_raises_without_variables mp bs st w e :
  people_reports_next (http E (List.length (posts w)) base_url (payload st)) = true ->
  page st < mp ->
  subscript (payload st) "variables" = Raise e ->
  fst (people_loop_body E mp bs st w) = Raise e.
Proof.
  intros Hn Hlt Hv. apply people_reports_next_inv in Hn.
  destruct Hn as (r & data & sc & edges & items & info & hn & cursor & Hhttp & Hs & Hb
                  & Hg & Hsc & He & Hi & Hp & Hh & Ht & Hc).
  destruct (iterate_len _ _ Hi) as [n Hlen].
  destruct (total_step st sc edges (add_post base_url (payload st) w) He)
    as (tc & Htc & _).
  assert (Hfl : exists fl w1,
            (if Z.of_nat (List.length (current_batch st ++ items)) >=? bs
             then _save_people_to_json (current_batch st ++ items) (batch_number st) ;;;
                  ret ([], batch_number st + 1)
             else ret ((current_batch st ++ items)%list, batch_number st))
              (add_post base_url (payload st) w) = (Ok fl, w1)).
  { destruct (_ >=? bs); eexists _, _; reflexivity. }
  destruct Hfl as (fl & w1 & Hfl).
  unfold people_loop_body, process_people_response.
  erewrite bind_ok by (unfold requests_post; rewrite Hhttp; reflexivity).
  erewrite bind_ok by (unfold lift, response_json; rewrite Hb; reflexivity).
  erewrite bind_ok by (apply check_passes; assumption).
  cbv beta iota.
  erewrite bind_ok by (unfold lift; exact (f_equal (fun x => (x, _)) Hsc)).
  erewrite bind_ok by (unfold lift; rewrite He; reflexivity).
  erewrite bind_ok by (unfold lift; rewrite Hi; reflexivity).
  erewrite bind_ok by (unfold lift; rewrite Hlen; reflexivity).
  erewrite bind_ok by (exact Htc).
  erewrite bind_ok by (exact Hfl).
  erewrite bind_ok by (unfold lift; rewrite Hp; reflexivity).
  erewrite bind_ok by (unfold lift; rewrite Hh; reflexivity).
  rewrite Ht. cbn [negb].
  assert (Hge : (page st >=? mp) = false) by lia. rewrite Hge.
  erewrite bind_ok by (unfold lift; rewrite Hc; reflexivity).
  erewrite bind_raise by (unfold lift; rewrite Hv; reflexivity). reflexivity.
Qed.

End PeopleFacts.

Section PeopleProperties.
Import HarmonicErrorNotifier HarmonicClient.
Context (E : env) {R : Runtime}.

(** X9.  [search_people] never gets past its first page: whatever the
    query, the limits and the server, a call sends exactly one request;
    when it returns, [pages_fetched] is 1. *)
Theorem search_people_single_request query max_pages batch_size w :
  List.length (posts (snd (search_people E query max_pages batch_size w)))
  = S (List.length (posts w)) /\
  match fst (search_people E query max_pages batch_size w) with
  | Ok (Some r) => p_pages_fetched r = 1
  | Ok None => False
  | Raise _ => True
  end.
Proof.
  unfold search_people.
  erewrite bind_ok by (unfold datetime_now; reflexivity).
  set (st0 := {| all_edges := []; total_count := JNull; page := 1;
                 current_batch := []; batch_number := 1;
                 payload := JObj [("query", query)];
                 start_time := now E (clock_reads w);
                 last_long_break := now E (clock_reads w) |}).
  assert (Hpasses : exists fuel, passes max_pages = S fuel).
  { exists (Z.to_nat (Z.max 1 max_pages - 1)). unfold passes. lia. }
  destruct Hpasses as [fuel ->].
  pose proof (people_loop_body_posts E max_pages batch_size st0 (tick_clock w))
    as Hposts.
  assert (Hlen : forall w1 : world,
            posts w1 = (posts (tick_clock w) ++ [(base_url, payload st0)])%list ->
            List.length (posts w1) = S (List.length (posts w))).
  { intros w1 ->. rewrite length_app. simpl. lia. }
  cbn [people_loop].
  destruct (people_loop_body E max_pages batch_size st0 (tick_clock w))
    as [[[c st1] | e] w1] eqn:Hbody; simpl in Hposts.
  - pose proof (people_loop_body_inv E _ _ _ _ _ _ _ Hbody) as Hinv.
    destruct c as [reason |].
    + destruct (finish_people_run st1 w1) as (w2 & Hfin & Hp).
      erewrite bind_ok by (erewrite bind_ok by (exact Hbody); reflexivity).
      cbv beta iota.
      erewrite bind_ok by (exact Hfin). simpl.
      rewrite Hp. split; [apply Hlen; exact Hposts | exact Hinv].
    + destruct Hinv as [v Hv]. discriminate Hv.
  - erewrite bind_raise by (erewrite bind_raise by (exact Hbody); reflexivity).
    simpl. split; [apply Hlen; exact Hposts | exact I].
Qed.

(** X10.  When the first page of people reports a next page and
    [max_pages] is at least 2, [search_people] raises
    [KeyError('variables')]: the payload [{"query": query}] has nothing to
    put the cursor in. *)
Theorem search_people_raises_on_next_page query max_pages batch_size w :
  2 <= max_pages ->
  people_reports_next
    (http E (List.length (posts w)) base_url (JObj [("query", query)])) = true ->
  fst (search_people E query max_pages batch_size w) = Raise (KeyError "variables").
Proof.
  intros Hmp Hnext. unfold search_people.
  erewrite bind_ok by (unfold datetime_now; reflexivity).
  set (st0 := {| all_edges := []; total_count := JNull; page := 1;
                 current_batch := []; batch_number := 1;
                 payload := JObj [("query", query)];
                 start_time := now E (clock_reads w);
                 last_long_break := now E (clock_reads w) |}).
  assert (Hpasses : exists fuel, passes max_pages = S fuel).
  { exists (Z.to_nat (Z.max 1 max_pages - 1)). unfold passes. lia. }
  destruct Hpasses as [fuel ->].
  pose proof (people_raises_without_variables E max_pages batch_size st0
                (tick_clock w) (KeyError "variables") Hnext) as Hraise.
  specialize (Hraise ltac:(simpl; lia) eq_refl).
  destruct (people_loop_body E max_pages batch_size st0 (tick_clock w))
    as [res w1] eqn:Hbody.
  simpl in Hraise. subst res.
  cbn [people_loop].
  erewrite bind_raise; [reflexivity |].
  erewrite bind_raise by (exact Hbody). reflexivity.
Qed.

End PeopleProperties.

(* ================================================================== *)
(** * [add_saved_search_id], [add_company_ids], [get_companies_by_id] *)
(* ================================================================== *)

Section DictFacts.

Lemma dict_find_set_other k k' v kvs :
  k <> k' -> dict_find k (dict_set k' v kvs) = dict_find k kvs.
Proof.
  intros Hk. induction kvs as [| [k0 v0] rest IH]; simpl.
  - destruct (String.eqb k k') eqn:He; [| reflexivity].
    apply String.eqb_eq in He. contradiction.
  - destruct (String.eqb k' k0) eqn:H0; simpl.
    + apply String.eqb_eq in H0. subst k0.
      destruct (String.eqb k k') eqn:He; [| reflexivity].
      apply String.eqb_eq in He. contradiction.
    + destruct (String.eqb k k0); [reflexivity | exact IH].
Qed.

Lemma dict_set_idem k v kvs :
  dict_set k v (dict_set k v kvs) = dict_set k v kvs.
Proof.
  induction kvs as [| [k0 v0] rest IH]; simpl.
  - rewrite String.eqb_refl. reflexivity.
  - destruct (String.eqb k k0) eqn:H0; simpl.
    + rewrite String.eqb_refl. reflexivity.
    + rewrite H0, IH. reflexivity.
Qed.

Lemma dict_set_twice k v v' kvs :
  dict_set k v (dict_set k v' kvs) = dict_set k v kvs.
Proof.
  induction kvs as [| [k0 v0] rest IH]; simpl.
  - rewrite String.eqb_refl. reflexivity.
  - destruct (String.eqb k k0) eqn:H0; simpl.
    + rewrite String.eqb_refl. reflexivity.
    + rewrite H0, IH. reflexivity.
Qed.

Lemma subscript_set_other k k' v kvs :
  k <> k' -> subscript (JObj (dict_set k' v kvs)) k = subscript (JObj kvs) k.
Proof. intros Hk. simpl. rewrite dict_find_set_other by exact Hk. reflexivity. Qed.

Lemma variable_inv k q x :
  variable k q = Ok x ->
  exists kvs vkvs,
    q = JObj kvs /\ dict_find "variables" kvs = Some (JObj vkvs) /\
    dict_find k vkvs = Some x.
Proof.
  unfold variable. destruct q as [| | | | | kvs]; try discriminate. simpl.
  destruct (dict_find "variables" kvs) as [vars |] eqn:Hv; [| discriminate]. simpl.
  destruct vars as [| | | | | vkvs]; try discriminate. simpl.
  destruct (dict_find k vkvs) as [y |] eqn:Hk; [| discriminate].
  intros H. inversion H; subst. exists kvs, vkvs. auto.
Qed.

End DictFacts.

Section QueryFacts.
Import HarmonicErrorNotifier HarmonicClient.
Context {R : Runtime}.

Lemma add_each_list ids : forall l,
  exists added,
    add_each (JArr l) ids = Ok (JArr (l ++ added)) /\
    (forall n, In n ids -> has_id n (l ++ added) = true) /\
    (forall x, In x added -> exists n, x = JInt n /\ In n ids /\ has_id n l = false) /\
    NoDup added.
Proof.
  induction ids as [| n ids IH]; intros l.
  - exists []. rewrite app_nil_r. simpl. repeat split; try contradiction.
    constructor.
  - cbn [add_each add_company_id].
    destruct (existsb (int_eq n) l) eqn:Hn; cbn [and_then].
    + destruct (IH l) as (added & Hrun & Hall & Hnew & Hnd).
      exists added. split; [exact Hrun |]. split; [| split; [| exact Hnd]].
      * intros m [<- | Hin]; [| apply Hall; exact Hin].
        unfold has_id. rewrite existsb_app. unfold has_id in Hn.
        rewrite Hn. reflexivity.
      * intros x Hx. destruct (Hnew x Hx) as (m & -> & Hin & Hm).
        exists m. split; [reflexivity |]. split; [right; exact Hin | exact Hm].
    + destruct (IH (l ++ [JInt n])%list) as (added & Hrun & Hall & Hnew & Hnd).
      exists (JInt n :: added). rewrite <- app_assoc in Hrun. simpl in Hrun.
      split; [exact Hrun |]. split; [| split].
      * intros m [<- | Hin].
        -- unfold has_id. rewrite existsb_app. simpl. rewrite Z.eqb_refl.
           simpl. apply orb_true_r.
        -- specialize (Hall m Hin). rewrite <- app_assoc in Hall. exact Hall.
      * intros x [<- | Hx].
        -- exists n. split; [reflexivity |]. split; [left; reflexivity | exact Hn].
        -- destruct (Hnew x Hx) as (m & -> & Hin & Hm).
           exists m. split; [reflexivity |]. split; [right; exact Hin |].
           unfold has_id in *. rewrite existsb_app in Hm.
           apply orb_false_elim in Hm. apply Hm.
      * constructor; [| exact Hnd].
        intros Hin. destruct (Hnew _ Hin) as (m & Heq & _ & Hm).
        inversion Heq; subst m.
        unfold has_id in Hm. rewrite existsb_app in Hm.
        apply orb_false_elim in Hm. destruct Hm as [_ Hm].
        simpl in Hm. rewrite Z.eqb_refl in Hm. discriminate Hm.
Qed.

Lemma add_each_present ids : forall l,
  (forall n, In n ids -> has_id n l = true) ->
  add_each (JArr l) ids = Ok (JArr l).
Proof.
  induction ids as [| n ids IH]; intros l Hall; [reflexivity |].
  cbn [add_each add_company_id].
  pose proof (Hall n (or_introl eq_refl)) as Hn. unfold has_id in Hn.
  rewrite Hn. cbn [and_then]. apply IH.
  intros m Hm. apply Hall. right. exact Hm.
Qed.

Lemma add_company_ids_run kvs vkvs l new_ids :
  dict_find "variables" kvs = Some (JObj vkvs) ->
  dict_find "ids" vkvs = Some (JArr l) ->
  add_company_ids (JObj kvs) new_ids =
  let? existing_ids' := add_each (JArr l) (listed new_ids) in
  Ok (JObj (dict_set "variables" (JObj (dict_set "ids" existing_ids' vkvs)) kvs)).
Proof.
  intros Hv Hi. unfold add_company_ids.
  assert (Ht : truthy (JObj kvs) = true)
    by (destruct kvs; [discriminate Hv | reflexivity]).
  rewrite Ht. simpl contains. simpl subscript. rewrite Hv. cbn [and_then].
  simpl contains. simpl subscript. rewrite Hi. cbn [and_then].
  fold (listed new_ids).
  destruct (add_each_list (listed new_ids) l) as (added & Hrun & _).
  rewrite Hrun. reflexivity.
Qed.

End QueryFacts.

Section QueryProperties.
Import HarmonicErrorNotifier HarmonicClient.
Context {R : Runtime}.

(** X11.  [add_saved_search_id] replaces, never adds: when it returns a
    query (not [None]), the query it was given already had
    [variables.idOrUrn]; the result has it set to [str(saved_search_id)],
    still has its [variables] dictionary, and is otherwise what was
    given. *)
Theorem add_saved_search_id_replaces query_data saved_search_id q' :
  add_saved_search_id query_data saved_search_id = Ok q' ->
  q' <> JNull ->
  (exists old, variable "idOrUrn" query_data = Ok old) /\
  variable "idOrUrn" q' = Ok (JStr (py_str saved_search_id)) /\
  has_variables q' = true /\
  (forall k, k <> "idOrUrn" -> variable k q' = variable k query_data) /\
  (forall k, k <> "variables" -> subscript q' k = subscript query_data k).
Proof.
  unfold add_saved_search_id. intros H Hnn.
  destruct (truthy query_data); cbn [and_then] in H;
    [| inversion H; subst; contradiction].
  destruct (contains "variables" query_data) as [[|] | e]; cbn [and_then] in H;
    try (inversion H; subst; contradiction); try discriminate H.
  destruct (subscript query_data "variables") as [vars | e] eqn:Hvars;
    cbn [and_then] in H; [| discriminate H].
  destruct (contains "idOrUrn" vars) as [[|] | e] eqn:Hc; cbn [and_then] in H;
    try (inversion H; subst; contradiction); try discriminate H.
  destruct vars as [| | | | | vkvs]; try discriminate H.
  destruct query_data as [| | | | | kvs]; try discriminate Hvars.
  simpl in H. inversion H; subst q'; clear H.
  simpl in Hc. simpl in Hvars.
  destruct (dict_find "variables" kvs) as [v |] eqn:Hv; [| discriminate Hvars].
  inversion Hvars; subst v; clear Hvars.
  destruct (dict_find "idOrUrn" vkvs) as [old |] eqn:Hold; [| discriminate Hc].
  split; [| split; [| split; [| split]]].
  - exists old. unfold variable. simpl. rewrite Hv. simpl. rewrite Hold. reflexivity.
  - unfold variable. simpl. rewrite dict_find_set. simpl.
    rewrite dict_find_set. reflexivity.
  - unfold has_variables. simpl. rewrite dict_find_set. reflexivity.
  - intros k Hk. unfold variable. simpl. rewrite dict_find_set, Hv. simpl.
    rewrite dict_find_set_other by exact Hk. reflexivity.
  - intros k Hk. apply subscript_set_other. exact Hk.
Qed.

(** X12.  [add_company_ids] on a query whose [variables.ids] is a list:
    it returns the query with the list extended at its end; the ids that
    were there stay in place, every new id is in the list afterwards, and
    what was appended are new ids that were not there, each once. *)
Theorem add_company_ids_appends query_data new_ids l :
  variable "ids" query_data = Ok (JArr l) ->
  exists q' added,
    add_company_ids query_data new_ids = Ok q' /\
    variable "ids" q' = Ok (JArr (l ++ added)) /\
    (forall n, In n (listed new_ids) -> has_id n (l ++ added) = true) /\
    (forall x, In x added ->
       exists n, x = JInt n /\ In n (listed new_ids) /\ has_id n l = false) /\
    NoDup added.
Proof.
  intros H. apply variable_inv in H. destruct H as (kvs & vkvs & -> & Hv & Hi).
  rewrite (add_company_ids_run kvs vkvs l new_ids Hv Hi).
  destruct (add_each_list (listed new_ids) l) as (added & Hrun & Hall & Hnew & Hnd).
  rewrite Hrun. cbn [and_then].
  eexists _, added. split; [reflexivity |].
  split; [| split; [exact Hall | split; [exact Hnew | exact Hnd]]].
  unfold variable. simpl. rewrite dict_find_set. simpl.
  rewrite dict_find_set. reflexivity.
Qed.

(** X13.  Adding the same ids a second time changes nothing. *)
Theorem add_company_ids_idempotent query_data new_ids l :
  variable "ids" query_data = Ok (JArr l) ->
  exists q',
    add_company_ids query_data new_ids = Ok q' /\
    add_company_ids q' new_ids = Ok q'.
Proof.
  intros H. apply variable_inv in H. destruct H as (kvs & vkvs & -> & Hv & Hi).
  rewrite (add_company_ids_run kvs vkvs l new_ids Hv Hi).
  destruct (add_each_list (listed new_ids) l) as (added & Hrun & Hall & _).
  rewrite Hrun. cbn [and_then].
  eexists. split; [reflexivity |].
  erewrite add_company_ids_run;
    [| apply dict_find_set | apply dict_find_set].
  rewrite (add_each_present (listed new_ids) (l ++ added) Hall). cbn [and_then].
  rewrite dict_set_idem, dict_set_twice. reflexivity.
Qed.

End QueryProperties.

(* ================================================================== *)
(** * The detail clients: HTTP errors, [get_full_profile], highlights *)
(* ================================================================== *)

Section RequestFacts.
Import HarmonicErrorNotifier GraphQL.
Context (E : env) {R : Runtime}.

(** [_make_request] sends one request, whatever comes of it. *)
Lemma make_request_posts op p w :
  posts (snd (_make_request E op p w))
  = (posts w ++ [((BASE_URL ++ "?" ++ op)%string, p)])%list.
Proof.
  unfold _make_request. cbv zeta. unfold bind at 1. unfold requests_post at 1.
  destruct (http E _ _ _) as [r | e]; [| reflexivity].
  match goal with
  | |- posts (snd (?m ?w0)) = _ =>
      assert (Hp : preserves posts m) by (repeat preserves_step);
      rewrite (Hp w0)
  end.
  reflexivity.
Qed.

Lemma get_full_profile_step_posts (op : string) (p : json)
  (rest : json -> M world json) w :
  (forall d, preserves posts (rest d)) ->
  posts (snd ((data <- _make_request E op p ;; rest data) w))
  = (posts w ++ [((BASE_URL ++ "?" ++ op)%string, p)])%list.
Proof.
  intros Hrest. unfold bind.
  pose proof (make_request_posts op p w) as Hp.
  destruct (_make_request E op p w) as [[d | e] w1]; simpl in Hp.
  - rewrite Hrest. exact Hp.
  - exact Hp.
Qed.

End RequestFacts.

Section ProfileFacts.
Import HarmonicErrorNotifier GraphQL HarmonicFullProfileClient.
Context (E : env) {R : Runtime}.

Lemma get_person_highlights_posts person_id w :
  posts (snd (get_person_highlights E person_id w))
  = (posts w ++ [by_id_request "GetPersonProfileHeader" person_id
                   Documents.GetPersonProfileHeader])%list.
Proof.
  unfold get_person_highlights. cbv zeta.
  apply get_full_profile_step_posts. intros d. repeat preserves_step.
Qed.

Lemma get_education_posts person_id w :
  posts (snd (get_education E person_id w))
  = (posts w ++ [by_id_request "GetPersonEducation" person_id
                   Documents.GetPersonEducation])%list.
Proof.
  unfold get_education. cbv zeta.
  apply get_full_profile_step_posts. intros d.
  unfold raise_graphql_errors. repeat preserves_step.
Qed.

Lemma get_experience_posts person_id w :
  posts (snd (get_experience E person_id w))
  = (posts w ++ [by_id_request "GetPersonExperience" person_id
                   Documents.GetPersonExperience])%list.
Proof.
  unfold get_experience. cbv zeta.
  apply get_full_profile_step_posts. intros d.
  unfold raise_graphql_errors. repeat preserves_step.
Qed.

(** A guarded fetch never raises: it hands back what the fetch returned, or
    the default with one error message. *)
Lemma guarded_total label (fetch : M world json) default w :
  exists v errs,
    guarded label fetch default w = (Ok (v, errs), snd (fetch w)) /\
    (List.length errs <= 1)%nat /\
    (errs = [] <-> exists a, fst (fetch w) = Ok a).
Proof.
  unfold guarded, try_except, bind.
  destruct (fetch w) as [[a | e] w1]; simpl.
  - exists a, []. split; [reflexivity |]. split; [simpl; lia |].
    split; [eauto | reflexivity].
  - eexists default, [_]. split; [reflexivity |]. split; [simpl; lia |].
    split; [discriminate | intros [a Ha]; discriminate Ha].
Qed.

Lemma get_full_profile_run person_id w :
  exists h ed ex (errs : list string) w',
    get_full_profile E person_id w =
      (Ok (JObj [("person_id", JInt person_id); ("highlights", h);
                 ("education", ed); ("experience", ex);
                 ("errors", JArr (map JStr errs))]), w') /\
    posts w' = (posts w ++ profile_requests person_id)%list /\
    (List.length errs <= 3)%nat.
Proof.
  unfold get_full_profile.
  destruct (guarded_total "Highlights" (get_person_highlights E person_id)
              (JArr []) w) as (h & e1 & H1 & L1 & _).
  pose proof (get_person_highlights_posts person_id w) as P1.
  set (w1 := snd (get_person_highlights E person_id w)) in *.
  destruct (guarded_total "Education" (get_education E person_id)
              (JArr []) w1) as (ed & e2 & H2 & L2 & _).
  pose proof (get_education_posts person_id w1) as P2.
  set (w2 := snd (get_education E person_id w1)) in *.
  destruct (guarded_total "Experience" (get_experience E person_id)
              (JArr []) w2) as (ex & e3 & H3 & L3 & _).
  pose proof (get_experience_posts person_id w2) as P3.
  set (w3 := snd (get_experience E person_id w2)) in *.
  exists h, ed, ex, (e1 ++ e2 ++ e3)%list, w3.
  erewrite bind_ok by (exact H1).
  erewrite bind_ok by (exact H2).
  erewrite bind_ok by (exact H3).
  split; [reflexivity |]. split.
  - rewrite P3, P2, P1. rewrite <- !app_assoc. reflexivity.
  - rewrite !length_app. lia.
Qed.

Lemma hashed_eqb_eq a b : hashed_eqb a b = true <-> a = b.
Proof.
  destruct a, b; simpl; split; intros H; try discriminate H; try reflexivity.
  - apply Z.eqb_eq in H. congruence.
  - inversion H. apply Z.eqb_refl.
  - apply String.eqb_eq in H. congruence.
  - inversion H. apply String.eqb_refl.
Qed.

Lemma fromkeys_distinct values : forall seen out,
  fromkeys seen values = Ok out ->
  distinct_keys out = true /\
  (forall x, In x out ->
     In x values /\
     exists k, hash_key x = Ok k /\ existsb (hashed_eqb k) seen = false).
Proof.
  induction values as [| v rest IH]; intros seen out H; simpl in H.
  - inversion H; subst. split; [reflexivity | intros x []].
  - destruct (hash_key v) as [k | e] eqn:Hk; simpl in H; [| discriminate H].
    destruct (existsb (hashed_eqb k) seen) eqn:Hseen.
    + destruct (IH _ _ H) as [Hd Hin]. split; [exact Hd |].
      intros x Hx. destruct (Hin x Hx) as [Hrest Hkey].
      split; [right; exact Hrest | exact Hkey].
    + destruct (fromkeys (k :: seen) rest) as [tl | e] eqn:Htl; simpl in H;
        [| discriminate H].
      inversion H; subst out; clear H.
      destruct (IH _ _ Htl) as [Hd Hin]. split.
      * simpl. rewrite Hd, andb_true_r. apply negb_true_iff.
        apply not_true_is_false. intros Hex.
        apply existsb_exists in Hex. destruct Hex as (x & Hx & Hsame).
        destruct (Hin x Hx) as [_ (kx & Hkx & Hnot)].
        unfold same_key in Hsame. rewrite Hk, Hkx in Hsame.
        apply hashed_eqb_eq in Hsame. subst kx.
        simpl in Hnot. assert (Hr : hashed_eqb k k = true) by (apply hashed_eqb_eq; reflexivity).
        rewrite Hr in Hnot. discriminate Hnot.
      * intros x [<- | Hx].
        -- split; [left; reflexivity |]. exists k. auto.
        -- destruct (Hin x Hx) as [Hrest (kx & Hkx & Hnot)].
           split; [right; exact Hrest |]. exists kx. split; [exact Hkx |].
           simpl in Hnot. apply orb_false_elim in Hnot. apply Hnot.
Qed.

Lemma categories_truthy highlights : forall cs,
  categories_of highlights = Ok cs -> forallb truthy cs = true.
Proof.
  induction highlights as [| h rest IH]; intros cs H; simpl in H.
  - inversion H; subst. reflexivity.
  - destruct h as [| | | | | kvs]; try discriminate H. simpl in H.
    destruct (dict_find "category" kvs) as [c |] eqn:Hc; simpl in H.
    + destruct (truthy c) eqn:Ht.
      * destruct (categories_of rest) as [tl | e]; simpl in H; [| discriminate H].
        inversion H; subst. simpl. rewrite Ht. apply IH. reflexivity.
      * apply IH. exact H.
    + apply IH. exact H.
Qed.

End ProfileFacts.

Section ProfileProperties.
Import HarmonicErrorNotifier GraphQL HarmonicFullProfileClient.
Context (E : env) {R : Runtime}.

(** X14.  An answer with a 4xx or 5xx status makes [_make_request] raise
    [HTTPError] with that status.  The body is not read: the only
    notification is the one for a 401 or 403, sent before the raise. *)
Theorem make_request_http_error operation payload w resp :
  http E (List.length (posts w)) (BASE_URL ++ "?" ++ operation)%string payload
    = Ok resp ->
  is_http_error (status_code resp) = true ->
  exists w',
    _make_request E operation payload w = (Raise (HTTPError (status_code resp)), w') /\
    List.length (sent w')
    = (List.length (sent w)
       + if andb (messenger E)
                 (orb (status_code resp =? 401)%Z (status_code resp =? 403)%Z)
         then 1 else 0)%nat.
Proof.
  intros Hhttp Hstatus. unfold _make_request. cbv zeta.
  erewrite bind_ok by (unfold requests_post; rewrite Hhttp; reflexivity).
  assert (Hraise : raise_for_status resp = Raise (HTTPError (status_code resp))).
  { unfold raise_for_status. unfold is_http_error in Hstatus. rewrite Hstatus.
    reflexivity. }
  destruct (orb (status_code resp =? 401)%Z (status_code resp =? 403)%Z).
  - unfold notify_auth_failure. destruct (messenger E); simpl.
    + eexists. unfold bind, modify, ret, lift. rewrite Hraise. simpl.
      split; [reflexivity |]. simpl. rewrite length_app. reflexivity.
    + eexists. unfold bind, ret, lift. rewrite Hraise. simpl.
      split; [reflexivity |]. simpl. lia.
  - eexists. unfold bind, ret, lift. rewrite Hraise. simpl.
    split; [reflexivity |]. simpl. rewrite andb_false_r. lia.
Qed.

(** X15.  [get_full_profile] never raises, whatever the server does.  It
    always sends its three requests, highlights, education, experience, in
    this order, one failing fetch not keeping the next from being tried,
    and returns a dictionary with the five keys [person_id], [highlights],
    [education], [experience] and [errors], the last with at most three
    messages. *)
Theorem get_full_profile_never_raises person_id w :
  exists h ed ex (errs : list string) w',
    get_full_profile E person_id w =
      (Ok (JObj [("person_id", JInt person_id); ("highlights", h);
                 ("education", ed); ("experience", ex);
                 ("errors", JArr (map JStr errs))]), w') /\
    posts w' = (posts w ++ profile_requests person_id)%list /\
    (List.length errs <= 3)%nat.
Proof. apply get_full_profile_run. Qed.

(** X16.  What [get_person_highlights] returns is a list of categories
    without a falsy one and without a duplicate. *)
Theorem highlights_deduplicated person_id w v w' :
  get_person_highlights E person_id w = (Ok v, w') ->
  exists l, v = JArr l /\ forallb truthy l = true /\ distinct_keys l = true.
Proof.
  unfold get_person_highlights. cbv zeta. intros H.
  unbind H as data w1 Hreq.
  unbind H as has_errors w2 Herr.
  destruct has_errors.
  - unret H. exists []. repeat split.
  - unbind H as d w3 Hd.
    unbind H as person w4 Hp.
    unbind H as highlights w5 Hh.
    unbind H as items w6 Hi.
    unbind H as categories w7 Hc. unlift Hc.
    unbind H as unique w7 Hu. unlift Hu. unret H.
    exists unique. split; [reflexivity |].
    destruct (fromkeys_distinct _ _ _ Hu) as [Hd' Hin].
    split; [| exact Hd'].
    apply forallb_forall. intros x Hx.
    pose proof (categories_truthy _ _ Hc) as Ht.
    rewrite forallb_forall in Ht. apply Ht. apply Hin. exact Hx.
Qed.

End ProfileProperties.

(* ================================================================== *)
(** * The warehouse sync: dry runs, repeated runs and failed fetches *)
(* ================================================================== *)

Section SyncTraceFacts.
Import HarmonicErrorNotifier HarmonicToBigQuerySync.
Context (E : env) {R : Runtime}.

Lemma keeps_preserves_tables {A} (m : M world A) :
  keeps_warehouse m -> preserves tables m.
Proof. intros Hk w. apply (Hk w). Qed.

Lemma keeps_preserves_inserted {A} (m : M world A) table :
  keeps_warehouse m -> preserves (inserted_rows table) m.
Proof.
  intros Hk w. unfold inserted_rows. destruct (Hk w) as (_ & -> & _). reflexivity.
Qed.

Lemma count_query_preserves_tables table column key :
  preserves tables (count_query table column key).
Proof. intros w. reflexivity. Qed.

Lemma count_query_preserves_inserted t table column key :
  preserves (inserted_rows t) (count_query table column key).
Proof.
  intros w. unfold inserted_rows, count_query. simpl.
  rewrite inserts_into_app. simpl. apply app_nil_r.
Qed.

Lemma dry_run_preserves {X} (f : world -> X) harmonic_id linkedin_id verbose :
  preserves f (HarmonicFullProfileClient.get_full_profile E harmonic_id) ->
  preserves f (get_linkedin_id_from_harmonic E harmonic_id) ->
  (forall table column key, preserves f (count_query table column key)) ->
  (forall name, preserves f (modify (add_transform name))) ->
  preserves f
    (sync_person E (HarmonicFullProfileClient.get_full_profile E) harmonic_id
       linkedin_id true verbose).
Proof.
  intros Hfetch Hlinkedin Hcount Htransform.
  unfold sync_person, sync_fetched, sync_mapping, sync_education,
    sync_experience, sync_profile, check_mapping_exists, check_user_exists,
    transform_education, transform_experience, transform_profile.
  repeat first [ progress cbv beta iota
               | apply Hfetch | apply Hlinkedin | apply Hcount
               | apply Htransform | preserves_step ].
Qed.

Lemma sync_fetched_errors harmonic_id linkedin_id dry_run verbose profile_data
  w report w' :
  sync_fetched E harmonic_id linkedin_id dry_run verbose profile_data w
    = (Ok report, w') ->
  s_errors report = [].
Proof.
  unfold sync_fetched. intros H.
  unbind H as education_list w1 H1.
  unbind H as experience_list w2 H2.
  unbind H as n1 w3 H3.
  unbind H as n2 w4 H4.
  unbind H as linkedin_info w5 H5.
  unbind H as mapping w6 H6.
  unbind H as education w7 H7.
  unbind H as experience w8 H8.
  unbind H as profile w9 H9.
  unret H. reflexivity.
Qed.

Lemma enumerate_rows_raises (row : Z -> json -> result json) x : forall xs idx,
  In x xs ->
  (forall i, exists e, row i x = Raise e) ->
  exists e, enumerate_rows row idx xs = Raise e.
Proof.
  induction xs as [| y rest IH]; intros idx Hin Hrow; [contradiction |].
  simpl. destruct Hin as [-> | Hin].
  - destruct (Hrow idx) as [e ->]. exists e. reflexivity.
  - destruct (row idx y) as [r | e]; simpl; [| eauto].
    destruct (IH (idx + 1) Hin Hrow) as [e ->]. exists e. reflexivity.
Qed.

End SyncTraceFacts.

Section AppendFacts.
Import HarmonicErrorNotifier HarmonicToBigQuerySync.
Context (E : env) {R : Runtime}.

Lemma appends_ret {A} (a : A) : only_appends (ret a).
Proof. intros w table. exists []. rewrite app_nil_r. reflexivity. Qed.

Lemma appends_lift {A} (r : result A) : only_appends (lift r).
Proof. intros w table. exists []. rewrite app_nil_r. reflexivity. Qed.

Lemma appends_bind {A B} (m : M world A) (k : A -> M world B) :
  only_appends m -> (forall a, only_appends (k a)) -> only_appends (bind m k).
Proof.
  intros Hm Hk w table. unfold bind. destruct (Hm w table) as [n1 H1].
  destruct (m w) as [[a | e] w1]; simpl in H1.
  - destruct (Hk a w1 table) as [n2 H2]. exists (n1 ++ n2)%list.
    rewrite H2, H1, app_assoc. reflexivity.
  - exists n1. exact H1.
Qed.

Lemma appends_keeps {A} (m : M world A) : keeps_warehouse m -> only_appends m.
Proof.
  intros Hk w table. exists []. unfold stored. destruct (Hk w) as (-> & _).
  rewrite app_nil_r. reflexivity.
Qed.

Lemma appends_count_query table column key :
  only_appends (count_query table column key).
Proof. intros w t. exists []. rewrite app_nil_r. reflexivity. Qed.

Lemma appends_add_transform name : only_appends (modify (add_transform name)).
Proof. intros w t. exists []. rewrite app_nil_r. reflexivity. Qed.

Lemma rows_of_append_same table new tbls :
  rows_of table (append_rows table new tbls) = (rows_of table tbls ++ new)%list.
Proof.
  induction tbls as [| [name rows] rest IH]; simpl.
  - rewrite String.eqb_refl. reflexivity.
  - destruct (String.eqb table name) eqn:Hn; simpl; rewrite Hn;
      [reflexivity | exact IH].
Qed.

Lemma appends_insert_rows_json table rows :
  only_appends (insert_rows_json E table rows).
Proof.
  intros w t. unfold insert_rows_json, stored. simpl.
  destruct (insert_errors E table rows); simpl.
  - destruct (String.eqb table t) eqn:Ht.
    + apply String.eqb_eq in Ht. subst t. exists rows. apply rows_of_append_same.
    + exists []. rewrite app_nil_r. apply rows_of_append_other. exact Ht.
  - exists []. rewrite app_nil_r. reflexivity.
Qed.

End AppendFacts.

(** Proves [only_appends m] for a computation built from the steps above. *)
Ltac appends_step :=
  first
    [ apply appends_ret | apply appends_lift | apply appends_count_query
    | apply appends_add_transform | apply appends_insert_rows_json
    | apply appends_bind; [| intros ? ]
    | match goal with
      | |- only_appends (if ?b then _ else _) => destruct b
      | |- only_appends (match ?x with _ => _ end) => destruct x
      | |- only_appends (let _ := _ in _) => cbv zeta
      end ].

Section RepeatFacts.
Import HarmonicErrorNotifier HarmonicToBigQuerySync.
Context (E : env) {R : Runtime}.

Lemma appends_sync_education linkedin_id education_list dry_run :
  only_appends (sync_education E linkedin_id education_list dry_run).
Proof.
  unfold sync_education, check_user_exists, transform_education, insert_education.
  repeat appends_step.
Qed.

Lemma appends_sync_experience linkedin_id experience_list dry_run :
  only_appends (sync_experience E linkedin_id experience_list dry_run).
Proof.
  unfold sync_experience, check_user_exists, transform_experience,
    insert_experience.
  repeat appends_step.
Qed.

Lemma appends_sync_profile harmonic_id linkedin_id education_list
  experience_list dry_run :
  only_appends
    (sync_profile E harmonic_id linkedin_id education_list experience_list dry_run).
Proof.
  unfold sync_profile, check_user_exists, transform_profile, insert_profile.
  repeat appends_step.
Qed.

Lemma has_rows_appended t key w w' new :
  stored (table_ref (table_name t)) w'
  = (stored (table_ref (table_name t)) w ++ new)%list ->
  has_rows t key w = true -> has_rows t key w' = true.
Proof.
  unfold has_rows. intros -> H. rewrite filter_app, length_app.
  apply Z.ltb_lt in H. apply Z.ltb_lt. lia.
Qed.

Lemma has_rows_kept {A} (m : M world A) t key w :
  only_appends m -> has_rows t key w = true -> has_rows t key (snd (m w)) = true.
Proof.
  intros Hm H. destruct (Hm w (table_ref (table_name t))) as [new Hnew].
  exact (has_rows_appended t key w _ new Hnew H).
Qed.

Lemma has_rows_inserted t key w table rows x rest w' :
  table = table_ref (table_name t) ->
  rows = x :: rest ->
  row_matches "linkedinId" key x = true ->
  insert_rows_json E table rows w = (Ok [], w') ->
  has_rows t key w' = true.
Proof.
  intros -> -> Hx H. unfold insert_rows_json in H.
  injection H as Herr Hw. rewrite Herr in Hw. subst w'.
  unfold has_rows, stored. simpl. rewrite rows_of_append_same.
  rewrite filter_app, length_app. simpl. rewrite Hx. simpl.
  apply Z.ltb_lt. lia.
Qed.

Lemma education_row_key key idx edu row :
  education_row E key idx edu = Ok row ->
  row_matches "linkedinId" key row = true.
Proof.
  unfold education_row. intros H.
  repeat match type of H with
         | and_then ?x _ = Ok _ =>
             destruct x; cbn [and_then] in H; [| discriminate H]
         end.
  inversion H. simpl. apply String.eqb_refl.
Qed.

Lemma experience_row_key key idx exp row :
  experience_row E key idx exp = Ok row ->
  row_matches "linkedinId" key row = true.
Proof.
  unfold experience_row. intros H.
  repeat match type of H with
         | and_then ?x _ = Ok _ =>
             destruct x; cbn [and_then] in H; [| discriminate H]
         end.
  inversion H. simpl. apply String.eqb_refl.
Qed.

Lemma enumerate_rows_first (row : Z -> json -> result json) (P : json -> Prop) :
  (forall i x r, row i x = Ok r -> P r) ->
  forall xs idx r rest,
    enumerate_rows row idx xs = Ok (r :: rest) -> P r.
Proof.
  intros Hrow xs idx r rest H. destruct xs as [| x xs]; simpl in H;
    [discriminate H |].
  destruct (row idx x) as [r0 | e] eqn:Hr; simpl in H; [| discriminate H].
  destruct (enumerate_rows row (idx + 1) xs); simpl in H; [| discriminate H].
  inversion H; subst. eapply Hrow. exact Hr.
Qed.

Lemma sync_education_inserted key education_list w report w' :
  sync_education E key education_list false w = (Ok report, w') ->
  0 < t_inserted report ->
  has_rows Education key w' = true.
Proof.
  unfold sync_education. intros H Hpos.
  unbind H as b w1 Hcheck.
  destruct b; [unret H; simpl in Hpos; lia |].
  unbind H as rows w2 Htr.
  unbind H as n w3 Hins. unret H. simpl in Hpos.
  unfold transform_education in Htr.
  unbind Htr as u w4 Hmod.
  unbind Htr as items w5 Hit. unlift Htr.
  unfold insert_education in Hins.
  destruct rows as [| x rest]; [unret Hins; lia |].
  unbind Hins as errors w6 Hjson.
  destruct errors; [| unret Hins; lia].
  unret Hins.
  eapply has_rows_inserted; [reflexivity | reflexivity | | exact Hjson].
  eapply (enumerate_rows_first _ (fun r => row_matches "linkedinId" key r = true));
    [| exact Htr].
  intros i y r Hr. eapply education_row_key. exact Hr.
Qed.

Lemma sync_experience_inserted key experience_list w report w' :
  sync_experience E key experience_list false w = (Ok report, w') ->
  0 < t_inserted report ->
  has_rows Experience key w' = true.
Proof.
  unfold sync_experience. intros H Hpos.
  unbind H as b w1 Hcheck.
  destruct b; [unret H; simpl in Hpos; lia |].
  unbind H as rows w2 Htr.
  unbind H as n w3 Hins. unret H. simpl in Hpos.
  unfold transform_experience in Htr.
  unbind Htr as u w4 Hmod.
  unbind Htr as items w5 Hit. unlift Htr.
  unfold insert_experience in Hins.
  destruct rows as [| x rest]; [unret Hins; lia |].
  unbind Hins as errors w6 Hjson.
  destruct errors; [| unret Hins; lia].
  unret Hins.
  eapply has_rows_inserted; [reflexivity | reflexivity | | exact Hjson].
  eapply (enumerate_rows_first _ (fun r => row_matches "linkedinId" key r = true));
    [| exact Htr].
  intros i y r Hr. eapply experience_row_key. exact Hr.
Qed.

Lemma sync_profile_inserted harmonic_id key education_list experience_list
  w report w' :
  sync_profile E harmonic_id key education_list experience_list false w
    = (Ok report, w') ->
  0 < t_inserted report ->
  has_rows Profile key w' = true.
Proof.
  unfold sync_profile. intros H Hpos.
  unbind H as b w1 Hcheck.
  destruct b; [unret H; simpl in Hpos; lia |].
  unbind H as row w2 Htr.
  unbind H as n w3 Hins. unret H. simpl in Hpos.
  unfold transform_profile in Htr.
  unbind Htr as u w4 Hmod.
  unbind Htr as experience w5 H1.
  unbind Htr as headline w6 H2.
  unbind Htr as education w7 H3.
  unbind Htr as is_student w8 H4. unret Htr.
  unfold insert_profile in Hins.
  unbind Hins as errors w9 Hjson.
  destruct errors; [| unret Hins; lia].
  unret Hins.
  eapply has_rows_inserted; [reflexivity | reflexivity | | exact Hjson].
  simpl. apply String.eqb_refl.
Qed.

Lemma sync_fetched_inserted t harmonic_id key verbose profile_data w report w' :
  sync_fetched E harmonic_id key false verbose profile_data w = (Ok report, w') ->
  0 < t_inserted (entry t report) ->
  has_rows t key w' = true.
Proof.
  unfold sync_fetched. intros H Hpos.
  unbind H as education_list w1 H1.
  unbind H as experience_list w2 H2.
  unbind H as n1 w3 H3.
  unbind H as n2 w4 H4.
  unbind H as linkedin_info w5 H5.
  unbind H as mapping w6 H6.
  unbind H as education w7 H7.
  unbind H as experience w8 H8.
  unbind H as profile w9 H9.
  unret H.
  pose proof (has_rows_kept _ t key w7
                (appends_sync_experience key experience_list false)) as K8.
  rewrite H8 in K8. simpl in K8.
  pose proof (has_rows_kept _ t key w8
                (appends_sync_profile harmonic_id key education_list
                   experience_list false)) as K9.
  rewrite H9 in K9. simpl in K9.
  destruct t; simpl in Hpos.
  - apply K9, K8. eapply sync_education_inserted; eassumption.
  - apply K9. eapply sync_experience_inserted; eassumption.
  - eapply sync_profile_inserted; eassumption.
Qed.

End RepeatFacts.

Section SyncRunProperties.
Import HarmonicErrorNotifier HarmonicToBigQuerySync.
Context (E : env) {R : Runtime}.

(** X17.  A dry run writes nothing: with [dry_run = True], whatever the
    server and the warehouse hold and whether [sync_person] returns or
    raises, no table changes and [insert_rows_json] is not called. *)
Theorem dry_run_writes_nothing harmonic_id linkedin_id verbose w table :
  tables
    (snd (sync_person E (HarmonicFullProfileClient.get_full_profile E)
            harmonic_id linkedin_id true verbose w)) = tables w /\
  inserted_rows table
    (snd (sync_person E (HarmonicFullProfileClient.get_full_profile E)
            harmonic_id linkedin_id true verbose w)) = inserted_rows table w.
Proof.
  split.
  - apply (dry_run_preserves E tables).
    + apply keeps_preserves_tables, keeps_get_full_profile.
    + apply keeps_preserves_tables, keeps_get_linkedin_id.
    + apply count_query_preserves_tables.
    + intros name w0. reflexivity.
  - apply (dry_run_preserves E (inserted_rows table)).
    + apply keeps_preserves_inserted, keeps_get_full_profile.
    + apply keeps_preserves_inserted, keeps_get_linkedin_id.
    + apply count_query_preserves_inserted.
    + intros name w0. reflexivity.
Qed.

(** X18.  [sync_person] drops the errors of the fetch: [get_full_profile]
    collects the failures of its three requests in [profile["errors"]] and
    never raises, so whenever [sync_person] returns, its [errors] list is
    empty, also when every request to Harmonic failed. *)
Theorem sync_person_reports_no_errors harmonic_id linkedin_id dry_run verbose
  w report w' :
  sync_person E (HarmonicFullProfileClient.get_full_profile E) harmonic_id
    linkedin_id dry_run verbose w = (Ok report, w') ->
  s_errors report = [].
Proof.
  unfold sync_person. intros H.
  destruct (get_full_profile_run E harmonic_id w)
    as (h & ed & ex & errs & w1 & Hrun & _).
  erewrite bind_ok in H
    by (unfold try_except; erewrite bind_ok by (exact Hrun); reflexivity).
  cbv beta iota in H. eapply sync_fetched_errors. exact H.
Qed.

(** X19.  Running the sync twice inserts once: when a run (not a dry run)
    has returned and reports rows inserted into one of the three content
    tables, that table holds a row for the [linkedin_id] afterwards, and a
    second run for the same person leaves the table alone and, if it
    returns, reports it as skipped. *)
Theorem second_sync_skips t harmonic_id linkedin_id verbose dry_run w report w1 :
  sync_person E (HarmonicFullProfileClient.get_full_profile E) harmonic_id
    linkedin_id false verbose w = (Ok report, w1) ->
  0 < t_inserted (entry t report) ->
  has_rows t linkedin_id w1 = true /\
  stored (table_ref (table_name t))
    (snd (sync_person E (HarmonicFullProfileClient.get_full_profile E)
            harmonic_id linkedin_id dry_run verbose w1))
  = stored (table_ref (table_name t)) w1 /\
  forall report2,
    fst (sync_person E (HarmonicFullProfileClient.get_full_profile E)
           harmonic_id linkedin_id dry_run verbose w1) = Ok report2 ->
    entry t report2 = skipped_report (initial_data t).
Proof.
  intros H Hpos.
  assert (Hrows : has_rows t linkedin_id w1 = true).
  { unfold sync_person in H.
    destruct (get_full_profile_run E harmonic_id w)
      as (h & ed & ex & errs & wa & Hrun & _).
    erewrite bind_ok in H
      by (unfold try_except; erewrite bind_ok by (exact Hrun); reflexivity).
    cbv beta iota in H. eapply sync_fetched_inserted; eassumption. }
  split; [exact Hrows |].
  destruct (get_full_profile_run E harmonic_id w1)
    as (h & ed & ex & errs & wb & Hrun & _).
  pose proof (keeps_get_full_profile E harmonic_id w1) as Hk.
  rewrite Hrun in Hk. simpl in Hk. destruct Hk as (K1 & K2 & K3).
  assert (Hrows' : has_rows t linkedin_id wb = true).
  { unfold has_rows, stored in *. rewrite K1. exact Hrows. }
  unfold sync_person.
  erewrite bind_ok
    by (unfold try_except; erewrite bind_ok by (exact Hrun); reflexivity).
  cbv beta iota.
  destruct (sync_fetched_maintains E t wb harmonic_id linkedin_id dry_run verbose
              (JObj [("person_id", JInt harmonic_id); ("highlights", h);
                     ("education", ed); ("experience", ex);
                     ("errors", JArr (map JStr errs))]) Hrows' wb)
    as [Hu Hrep].
  { repeat split. }
  split.
  - destruct Hu as (Hs & _). rewrite Hs. unfold stored. rewrite K1. reflexivity.
  - exact Hrep.
Qed.

(** X20.  A null school or company is fatal: an education entry whose
    ["school"] is [null] makes [transform_education] raise, and an
    experience entry whose ["company"] is [null] makes
    [transform_experience] raise (the default [{}] of [get] applies to a
    missing key only). *)
Theorem null_school_or_company_raises items linkedin_id w entry kvs :
  In entry items ->
  entry = JObj kvs ->
  (dict_find "school" kvs = Some JNull ->
   exists e, fst (transform_education E (JArr items) linkedin_id w) = Raise e) /\
  (dict_find "company" kvs = Some JNull ->
   exists e, fst (transform_experience E (JArr items) linkedin_id w) = Raise e).
Proof.
  intros Hin ->. split; intros Hnull.
  - destruct (enumerate_rows_raises (education_row E linkedin_id) (JObj kvs)
                items 0 Hin) as [e He].
    { intros i. exists AttributeError. unfold education_row. simpl.
      rewrite Hnull. reflexivity. }
    exists e. unfold transform_education, bind, modify, lift. simpl.
    rewrite He. reflexivity.
  - destruct (enumerate_rows_raises (experience_row E linkedin_id) (JObj kvs)
                items 0 Hin) as [e He].
    { intros i. exists AttributeError. unfold experience_row. simpl.
      rewrite Hnull. reflexivity. }
    exists e. unfold transform_experience, bind, modify, lift. simpl.
    rewrite He. reflexivity.
Qed.

End SyncRunProperties.

(* ================================================================== *)
(** * The LinkedIn id of a person, and the sync during an outage *)
(* ================================================================== *)

Section SegmentFacts.

Lemma append_assoc_str (a b c : string) :
  ((a ++ b) ++ c)%string = (a ++ (b ++ c))%string.
Proof. induction a as [| x a IH]; simpl; [reflexivity | rewrite IH; reflexivity]. Qed.

Lemma rstrip_slash_slashes t : only_char "/" t = true -> rstrip_slash t = EmptyString.
Proof.
  induction t as [| c t IH]; simpl; [reflexivity |].
  intros H. apply andb_prop in H. destruct H as [Hc Ht].
  rewrite (IH Ht), Hc. reflexivity.
Qed.

Lemma rstrip_slash_app_slashes s t :
  only_char "/" t = true -> rstrip_slash (s ++ t) = rstrip_slash s.
Proof.
  intros Ht. induction s as [| c s IH]; simpl.
  - apply rstrip_slash_slashes. exact Ht.
  - rewrite IH. reflexivity.
Qed.

Lemma rstrip_slash_no_slash s :
  s <> EmptyString -> has_char "/" s = false -> rstrip_slash s = s.
Proof.
  induction s as [| c s IH]; intros Hne Hs; [contradiction |].
  simpl in Hs. apply orb_false_elim in Hs. destruct Hs as [Hc Hs].
  simpl. destruct s as [| d s].
  - simpl. rewrite Hc. reflexivity.
  - rewrite (IH ltac:(discriminate) Hs). reflexivity.
Qed.

Lemma rstrip_slash_app_id s id :
  id <> EmptyString -> has_char "/" id = false ->
  rstrip_slash (s ++ id) = (s ++ id)%string.
Proof.
  intros Hne Hid. induction s as [| c s IH]; simpl.
  - apply rstrip_slash_no_slash; assumption.
  - rewrite IH. destruct (s ++ id)%string eqn:Happ; [| reflexivity].
    destruct s; simpl in Happ; [contradiction | discriminate Happ].
Qed.

Lemma split_slash_nonempty s : split_slash s <> [].
Proof.
  destruct s as [| c s]; simpl; [discriminate |].
  destruct (Ascii.eqb c "/"); [discriminate |].
  destruct (split_slash s); discriminate.
Qed.

Lemma split_slash_app a b :
  split_slash (a ++ String "/" b) = (split_slash a ++ split_slash b)%list.
Proof.
  induction a as [| c a IH]; simpl; [reflexivity |].
  rewrite IH. destruct (Ascii.eqb c "/"); [reflexivity |].
  destruct (split_slash a) as [| part parts] eqn:Ha.
  - exfalso. exact (split_slash_nonempty a Ha).
  - reflexivity.
Qed.

Lemma split_slash_no_slash id : has_char "/" id = false -> split_slash id = [id].
Proof.
  induction id as [| c id IH]; simpl; [reflexivity |].
  intros H. apply orb_false_elim in H. destruct H as [Hc Hid].
  rewrite Hc, (IH Hid). reflexivity.
Qed.

(** The last segment of a URL that ends with [/id], followed by any number
    of slashes, is [id]. *)
Lemma last_segment_url pre id t :
  id <> EmptyString -> has_char "/" id = false -> only_char "/" t = true ->
  last_segment (pre ++ String "/" (id ++ t)) = id.
Proof.
  intros Hne Hid Ht. unfold last_segment.
  replace (pre ++ String "/" (id ++ t))%string
    with (((pre ++ String "/" EmptyString) ++ id) ++ t)%string
    by (rewrite !append_assoc_str; reflexivity).
  rewrite rstrip_slash_app_slashes by exact Ht.
  rewrite rstrip_slash_app_id by assumption.
  rewrite append_assoc_str. simpl.
  rewrite split_slash_app. rewrite (split_slash_no_slash id Hid).
  apply last_last.
Qed.

End SegmentFacts.

Section LinkedInProperties.
Import HarmonicErrorNotifier HarmonicToBigQuerySync.
Context (E : env) {R : Runtime}.

(** X21.  The URL the sync writes into the mapping row,
    [https://linkedin.com/in/<id>], is read back as [<id>]: when the answer
    to [GetPersonLinkedIn] is no 4xx or 5xx, has no ["errors"] and gives the
    person a LinkedIn URL that ends with [/<id>], with or without trailing
    slashes, [get_linkedin_id_from_harmonic] returns [<id>] and the
    person's full name. *)
Theorem linkedin_id_round_trip harmonic_id w resp data name pre id t :
  (forall p, http E (List.length (posts w))
               (HARMONIC_BASE_URL ++ "?GetPersonLinkedIn")%string p = Ok resp) ->
  is_http_error (status_code resp) = false ->
  body resp = Some data ->
  contains "errors" data = Ok false ->
  full_name_of data = Ok name ->
  linkedin_url_of data = Ok (JStr (pre ++ String "/" (id ++ t))) ->
  id <> EmptyString ->
  has_char "/" id = false ->
  only_char "/" t = true ->
  fst (get_linkedin_id_from_harmonic E harmonic_id w) = Ok (Some (id, name)).
Proof.
  intros Hhttp Hstatus Hbody Herr Hname Hurl Hne Hid Ht.
  assert (Hauth : orb (status_code resp =? 401)%Z (status_code resp =? 403)%Z = false).
  { unfold is_http_error in Hstatus.
    destruct (Z.eqb_spec (status_code resp) 401) as [H1 | H1];
      [rewrite H1 in Hstatus; discriminate Hstatus |].
    destruct (Z.eqb_spec (status_code resp) 403) as [H3 | H3];
      [rewrite H3 in Hstatus; discriminate Hstatus |].
    reflexivity. }
  assert (Hraise : raise_for_status resp = Ok tt).
  { unfold raise_for_status. unfold is_http_error in Hstatus.
    rewrite Hstatus. reflexivity. }
  unfold full_name_of, linkedin_url_of, person_of in Hname, Hurl.
  destruct (get data "data" (JObj [])) as [d | e] eqn:Hd;
    cbn [and_then] in Hname, Hurl; [| discriminate Hname].
  destruct (get d "getPersonById" (JObj [])) as [person | e] eqn:Hp;
    cbn [and_then] in Hname, Hurl; [| discriminate Hname].
  destruct (get person "socials" (JObj [])) as [socials | e] eqn:Hs;
    cbn [and_then] in Hurl; [| discriminate Hurl].
  destruct (get socials "linkedin" (JObj [])) as [linkedin | e] eqn:Hl;
    cbn [and_then] in Hurl; [| discriminate Hurl].
  assert (Hne' : (pre ++ String "/" (id ++ t))%string <> EmptyString)
    by (destruct pre; discriminate).
  unfold get_linkedin_id_from_harmonic, try_except. cbv zeta.
  erewrite bind_ok by (unfold requests_post; rewrite Hhttp; reflexivity).
  rewrite Hauth.
  erewrite bind_ok by reflexivity.
  erewrite bind_ok by (unfold lift; rewrite Hraise; reflexivity).
  erewrite bind_ok by (unfold lift, response_json; rewrite Hbody; reflexivity).
  erewrite bind_ok by (unfold lift; rewrite Herr; reflexivity).
  cbv beta iota.
  erewrite bind_ok by reflexivity.
  erewrite bind_ok by (unfold lift; rewrite Hd; reflexivity).
  erewrite bind_ok by (unfold lift; rewrite Hp; reflexivity).
  erewrite bind_ok by (unfold lift; rewrite Hname; reflexivity).
  erewrite bind_ok by (unfold lift; rewrite Hs; reflexivity).
  erewrite bind_ok by (unfold lift; rewrite Hl; reflexivity).
  erewrite bind_ok by (unfold lift; rewrite Hurl; reflexivity).
  assert (Htruthy : truthy (JStr (pre ++ String "/" (id ++ t))) = true).
  { simpl. apply negb_true_iff. apply String.eqb_neq. exact Hne'. }
  rewrite Htruthy.
  erewrite bind_ok by reflexivity.
  unfold ret. simpl. rewrite last_segment_url by assumption. reflexivity.
Qed.

End LinkedInProperties.

Section OutageFacts.
Import HarmonicErrorNotifier GraphQL HarmonicFullProfileClient HarmonicToBigQuerySync.
Context (E : env) {R : Runtime}.

Lemma make_request_failed op p w :
  failed (http E (List.length (posts w)) (BASE_URL ++ "?" ++ op)%string p) = true ->
  exists e w', _make_request E op p w = (Raise e, w').
Proof.
  intros Hf. unfold _make_request. cbv zeta.
  destruct (http E (List.length (posts w)) (BASE_URL ++ "?" ++ op)%string p)
    as [resp | e] eqn:Hhttp.
  - simpl in Hf.
    assert (Hraise : raise_for_status resp = Raise (HTTPError (status_code resp))).
    { unfold raise_for_status. unfold is_http_error in Hf. rewrite Hf. reflexivity. }
    erewrite bind_ok by (unfold requests_post; rewrite Hhttp; reflexivity).
    destruct (orb (status_code resp =? 401)%Z (status_code resp =? 403)%Z).
    + destruct (notify_auth_failure_ok E
                  ("HTTP " ++ str_of_int (status_code resp) ++ ": " ++ op)%string
                  (add_post (BASE_URL ++ "?" ++ op)%string p w)) as (b & w1 & Hn).
      eexists _, w1.
      erewrite bind_ok by (erewrite bind_ok by (exact Hn); reflexivity).
      erewrite bind_raise by (unfold lift; rewrite Hraise; reflexivity).
      reflexivity.
    + eexists _, _.
      erewrite bind_ok by reflexivity.
      erewrite bind_raise by (unfold lift; rewrite Hraise; reflexivity).
      reflexivity.
  - eexists _, _.
    erewrite bind_raise by (unfold requests_post; rewrite Hhttp; reflexivity).
    reflexivity.
Qed.

Lemma guarded_raise label (fetch : M world json) default w e w1 :
  fetch w = (Raise e, w1) ->
  guarded label fetch default w
  = (Ok (default, [(label ++ ": " ++ str_of_exn e)%string]), w1).
Proof.
  intros H. unfold guarded, try_except.
  erewrite bind_raise by (exact H). reflexivity.
Qed.

(** During an outage [get_full_profile] returns three empty lists and three
    error messages. *)
Lemma get_full_profile_failed person_id w :
  (forall k url p, failed (http E k url p) = true) ->
  exists errs w1,
    get_full_profile E person_id w =
      (Ok (JObj [("person_id", JInt person_id); ("highlights", JArr []);
                 ("education", JArr []); ("experience", JArr []);
                 ("errors", JArr (map JStr errs))]), w1).
Proof.
  intros Hall. unfold get_full_profile.
  destruct (make_request_failed "GetPersonProfileHeader"
              (by_id_payload "GetPersonProfileHeader" person_id
                 Documents.GetPersonProfileHeader) w (Hall _ _ _))
    as (e1 & w1 & H1).
  erewrite bind_ok
    by (apply guarded_raise; unfold get_person_highlights; cbv zeta;
        erewrite bind_raise by (exact H1); reflexivity).
  destruct (make_request_failed "GetPersonEducation"
              (by_id_payload "GetPersonEducation" person_id
                 Documents.GetPersonEducation) w1 (Hall _ _ _))
    as (e2 & w2 & H2).
  erewrite bind_ok
    by (apply guarded_raise; unfold get_education; cbv zeta;
        erewrite bind_raise by (exact H2); reflexivity).
  destruct (make_request_failed "GetPersonExperience"
              (by_id_payload "GetPersonExperience" person_id
                 Documents.GetPersonExperience) w2 (Hall _ _ _))
    as (e3 & w3 & H3).
  erewrite bind_ok
    by (apply guarded_raise; unfold get_experience; cbv zeta;
        erewrite bind_raise by (exact H3); reflexivity).
  exists [("Highlights" ++ ": " ++ str_of_exn e1)%string;
          ("Education" ++ ": " ++ str_of_exn e2)%string;
          ("Experience" ++ ": " ++ str_of_exn e3)%string], w3.
  reflexivity.
Qed.

Lemma get_linkedin_id_total harmonic_id w :
  exists r w', get_linkedin_id_from_harmonic E harmonic_id w = (Ok r, w').
Proof.
  unfold get_linkedin_id_from_harmonic, try_except. cbv zeta.
  match goal with
  | |- exists r w', (match ?x with _ => _ end) = _ =>
      destruct x as [[a | e] w1]
  end; eexists _, _; reflexivity.
Qed.

Lemma sync_mapping_total harmonic_id key full_name url dry_run w :
  exists rep w',
    sync_mapping E harmonic_id key full_name url dry_run w = (Ok rep, w').
Proof.
  unfold sync_mapping, check_mapping_exists, count_query, insert_mapping,
    insert_rows_json, bind. simpl.
  destruct (0 <? _)%Z; [eexists _, _; reflexivity |].
  destruct dry_run; [eexists _, _; reflexivity |].
  simpl. destruct (insert_errors E _ _); eexists _, _; reflexivity.
Qed.

Lemma sync_education_empty key dry_run w :
  exists rep w',
    sync_education E key (JArr []) dry_run w = (Ok rep, w') /\
    t_data rep = JArr [].
Proof.
  unfold sync_education, check_user_exists, count_query, transform_education,
    insert_education, bind, modify, lift, ret. simpl.
  destruct (0 <? _)%Z; [eexists _, _; split; reflexivity |].
  destruct dry_run; eexists _, _; split; reflexivity.
Qed.

Lemma sync_experience_empty key dry_run w :
  exists rep w',
    sync_experience E key (JArr []) dry_run w = (Ok rep, w') /\
    t_data rep = JArr [].
Proof.
  unfold sync_experience, check_user_exists, count_query, transform_experience,
    insert_experience, bind, modify, lift, ret. simpl.
  destruct (0 <? _)%Z; [eexists _, _; split; reflexivity |].
  destruct dry_run; eexists _, _; split; reflexivity.
Qed.

(** A person without a profile row and without education and experience:
    [sync_profile] inserts a row without headline. *)
Lemma sync_profile_placeholder harmonic_id key w :
  has_rows Profile key w = false ->
  (forall rows, insert_errors E (table_ref "linkedin_profile") rows = []) ->
  exists rep w',
    sync_profile E harmonic_id key (JArr []) (JArr []) false w = (Ok rep, w') /\
    t_inserted rep = 1 /\
    subscript (t_data rep) "headline" = Ok JNull /\
    subscript (t_data rep) "student" = Ok (JBool false) /\
    has_rows Profile key w' = true.
Proof.
  intros Hrows Hins.
  unfold sync_profile.
  erewrite bind_ok
    by (unfold check_user_exists, count_query;
        change (0 <? Z.of_nat
                       (List.length
                          (filter (row_matches "linkedinId" key)
                             (rows_of (table_ref "linkedin_profile") (tables w)))))%Z
          with (has_rows Profile key w);
        rewrite Hrows; reflexivity).
  cbv beta iota.
  erewrite bind_ok by (unfold transform_profile, bind, modify, lift, ret; simpl;
                       reflexivity).
  erewrite bind_ok
    by (unfold insert_profile;
        erewrite bind_ok by (unfold insert_rows_json; rewrite Hins; reflexivity);
        reflexivity).
  eexists _, _. split; [reflexivity |]. simpl.
  repeat split.
  unfold has_rows, stored. simpl. rewrite rows_of_append_same.
  rewrite filter_app, length_app. simpl. rewrite String.eqb_refl. simpl.
  apply Z.ltb_lt. lia.
Qed.

Lemma untouched_refl t w : untouched t w w.
Proof. repeat split. Qed.

Lemma untouched_has_rows t key w0 w :
  untouched t w0 w -> has_rows t key w = has_rows t key w0.
Proof. intros (H & _). unfold has_rows. rewrite H. reflexivity. Qed.

Lemma maintains_step {A} t w0 (m : M world A) Q w a w' :
  maintains t w0 m Q -> untouched t w0 w -> m w = (Ok a, w') ->
  untouched t w0 w'.
Proof.
  intros Hm Hu Hrun. destruct (Hm w Hu) as [H _]. rewrite Hrun in H. exact H.
Qed.

End OutageFacts.

Section OutageProperties.
Import HarmonicErrorNotifier GraphQL HarmonicFullProfileClient HarmonicToBigQuerySync.
Context (E : env) {R : Runtime}.

(** X22.  An outage is written into the warehouse: when every request to
    Harmonic fails (no connection, or a 4xx or 5xx), the person has no
    profile row yet and BigQuery accepts the insert, [sync_person] (not a
    dry run) does not fail.  It returns a report without errors, with no
    education and no experience rows, and has inserted a profile row
    without headline and with [student] false; the profile table holds a
    row for the person afterwards. *)
Theorem outage_still_writes_profile harmonic_id linkedin_id verbose w :
  (forall k url p, failed (http E k url p) = true) ->
  has_rows Profile linkedin_id w = false ->
  (forall rows, insert_errors E (table_ref "linkedin_profile") rows = []) ->
  exists report w',
    sync_person E (get_full_profile E) harmonic_id linkedin_id false verbose w
      = (Ok report, w') /\
    s_errors report = [] /\
    t_data (s_education report) = JArr [] /\
    t_data (s_experience report) = JArr [] /\
    t_inserted (s_profile report) = 1 /\
    subscript (t_data (s_profile report)) "headline" = Ok JNull /\
    subscript (t_data (s_profile report)) "student" = Ok (JBool false) /\
    has_rows Profile linkedin_id w' = true.
Proof.
  intros Hall Hrows Hins.
  destruct (get_full_profile_failed E harmonic_id w Hall) as (errs & w1 & Hfetch).
  assert (U1 : untouched Profile w w1).
  { eapply (maintains_step Profile w (get_full_profile E harmonic_id));
      [apply keeps_maintains, keeps_get_full_profile | apply untouched_refl
       | exact Hfetch]. }
  destruct (get_linkedin_id_total E harmonic_id w1) as (info & w2 & Hinfo).
  assert (U2 : untouched Profile w w2).
  { eapply (maintains_step Profile w (get_linkedin_id_from_harmonic E harmonic_id));
      [apply keeps_maintains, keeps_get_linkedin_id | exact U1 | exact Hinfo]. }
  destruct (sync_mapping_total E harmonic_id linkedin_id
              (match info with Some (_, name) => name | None => JNull end)
              ("https://linkedin.com/in/" ++ linkedin_id)%string false w2)
    as (mapping & w3 & Hmap).
  assert (U3 : untouched Profile w w3).
  { eapply maintains_step; [apply sync_mapping_maintains | exact U2 | exact Hmap]. }
  destruct (sync_education_empty E linkedin_id false w3) as (edu & w4 & Hedu & Dedu).
  assert (U4 : untouched Profile w w4).
  { eapply (maintains_step Profile w
              (sync_education E linkedin_id (JArr []) false) (fun _ => True));
      [| exact U3 | exact Hedu].
    unfold sync_education.
    apply other_table_maintains.
    apply (education_rest_maintains E Profile w linkedin_id (JArr []) false).
    discriminate. }
  destruct (sync_experience_empty E linkedin_id false w4) as (exp & w5 & Hexp & Dexp).
  assert (U5 : untouched Profile w w5).
  { eapply (maintains_step Profile w
              (sync_experience E linkedin_id (JArr []) false) (fun _ => True));
      [| exact U4 | exact Hexp].
    unfold sync_experience.
    apply other_table_maintains.
    apply (experience_rest_maintains E Profile w linkedin_id (JArr []) false).
    discriminate. }
  assert (Hrows5 : has_rows Profile linkedin_id w5 = false)
    by (rewrite (untouched_has_rows _ _ _ _ U5); exact Hrows).
  destruct (sync_profile_placeholder E harmonic_id linkedin_id w5 Hrows5 Hins)
    as (prof & w6 & Hprof & Pins & Phead & Pstud & Prows).
  exists {| s_harmonic_id := harmonic_id; s_linkedin_id := linkedin_id;
            s_mapping := mapping; s_education := edu; s_experience := exp;
            s_profile := prof; s_errors := [] |}, w6.
  split; [| simpl; repeat split; assumption].
  unfold sync_person.
  erewrite bind_ok
    by (unfold try_except; erewrite bind_ok by (exact Hfetch); reflexivity).
  cbv beta iota. unfold sync_fetched.
  erewrite bind_ok by reflexivity.
  erewrite bind_ok by reflexivity.
  erewrite bind_ok by reflexivity.
  erewrite bind_ok by reflexivity.
  erewrite bind_ok by (exact Hinfo). cbv zeta.
  erewrite bind_ok by (exact Hmap).
  erewrite bind_ok by (exact Hedu).
  erewrite bind_ok by (exact Hexp).
  erewrite bind_ok by (exact Hprof).
  reflexivity.
Qed.

End OutageProperties.

(* ================================================================== *)
(** * lookup_by_linkedin.py: the id of a URL, and the lookup after a sync *)
(* ================================================================== *)

Section ExtractFacts.
Import LinkedInToHarmonicLookup.

Lemma id_char_no_space c : id_char c = true -> is_space c = false.
Proof.
  unfold id_char. intros H. apply negb_true_iff in H.
  apply orb_false_elim in H. destruct H as [_ H].
  apply orb_false_elim in H. apply H.
Qed.

Lemma id_char_no_slash c : id_char c = true -> Ascii.eqb c "/" = false.
Proof.
  unfold id_char. intros H. apply negb_true_iff in H.
  apply orb_false_elim in H. apply H.
Qed.

Lemma id_chars_no_space id : all_chars id_char id = true -> no_space id = true.
Proof.
  unfold no_space. induction id as [| c id IH]; simpl; [reflexivity |].
  intros H. apply andb_prop in H. destruct H as [Hc Hid].
  rewrite (id_char_no_space c Hc), (IH Hid). reflexivity.
Qed.

Lemma id_chars_no_slash id : all_chars id_char id = true -> has_char "/" id = false.
Proof.
  induction id as [| c id IH]; simpl; [reflexivity |].
  intros H. apply andb_prop in H. destruct H as [Hc Hid].
  rewrite (id_char_no_slash c Hc), (IH Hid). reflexivity.
Qed.

Lemma no_space_app a b :
  no_space (a ++ b) = andb (no_space a) (no_space b).
Proof.
  unfold no_space. induction a as [| c a IH]; simpl; [reflexivity |].
  rewrite IH, andb_assoc. reflexivity.
Qed.

Lemma lstrip_no_space s : no_space s = true -> lstrip s = s.
Proof.
  destruct s as [| c s]; simpl; [reflexivity |].
  unfold no_space. simpl. intros H. apply andb_prop in H. destruct H as [Hc _].
  apply negb_true_iff in Hc. rewrite Hc. reflexivity.
Qed.

Lemma rstrip_no_space s : no_space s = true -> rstrip s = s.
Proof.
  unfold no_space. induction s as [| c s IH]; simpl; [reflexivity |].
  intros H. apply andb_prop in H. destruct H as [Hc Hs].
  apply negb_true_iff in Hc. rewrite (IH Hs), Hc.
  destruct s; reflexivity.
Qed.

Lemma strip_no_space s : no_space s = true -> strip s = s.
Proof.
  intros H. unfold strip. rewrite (lstrip_no_space s H). apply rstrip_no_space, H.
Qed.

Lemma id_prefix_stops id t :
  all_chars id_char id = true -> ends_id t = true -> id_prefix (id ++ t) = id.
Proof.
  intros Hid Ht. induction id as [| c id IH]; simpl.
  - destruct t as [| c t]; [reflexivity |]. simpl in Ht.
    apply negb_true_iff in Ht. simpl. rewrite Ht. reflexivity.
  - simpl in Hid. apply andb_prop in Hid. destruct Hid as [Hc Hid].
    rewrite Hc, (IH Hid). reflexivity.
Qed.

Lemma search_in_no_slash s : has_char "/" s = false -> search_in s = None.
Proof.
  induction s as [| c s IH]; [reflexivity |].
  intros H. simpl in H. apply orb_false_elim in H. destruct H as [Hc Hs].
  cbn [search_in]. unfold after_in. 
  assert (Hp : String.prefix "/in/" (String c s) = false).
  { change (String.prefix "/in/" (String c s))
      with (if Ascii.ascii_dec "/" c then String.prefix "in/" s else false).
    destruct (Ascii.ascii_dec "/" c) as [He | He]; [| reflexivity].
    subst c. rewrite Ascii.eqb_refl in Hc. discriminate Hc. }
  rewrite Hp. apply IH, Hs.
Qed.

(** The match of the pattern at a leading [/in/]. *)
Lemma search_in_here id t :
  id <> EmptyString -> all_chars id_char id = true -> ends_id t = true ->
  search_in ("/in/" ++ id ++ t) = Some id.
Proof.
  intros Hne Hid Ht.
  change ("/in/" ++ id ++ t)%string
    with (String "/" (String "i" (String "n" (String "/" (id ++ t))))).
  cbn [search_in]. unfold after_in.
  assert (Hp : String.prefix "/in/"
                 (String "/" (String "i" (String "n" (String "/" (id ++ t)))))
               = true)
    by (cbn; destruct (id ++ t)%string; reflexivity).
  rewrite Hp. rewrite (id_prefix_stops id t Hid Ht).
  destruct id; [contradiction | reflexivity].
Qed.

End ExtractFacts.

Section ExtractProperties.
Import LinkedInToHarmonicLookup.

(** X23.  [extract_linkedin_id] gives back the id in each form of its
    docstring: for a non-empty id without slash, question mark and
    whitespace (Python's: NEXT LINE and NO-BREAK SPACE are whitespace too),
    the id itself, [https://linkedin.com/in/<id>] and
    [https://www.linkedin.com/in/<id>] all yield the id, the URLs also when
    the id is followed by a slash or by a query string.  The characters are
    code points below 256. *)
Theorem extract_linkedin_id_round_trip id t :
  id <> EmptyString ->
  all_chars id_char id = true ->
  ends_id t = true ->
  no_space t = true ->
  extract_linkedin_id id = id /\
  extract_linkedin_id ("https://linkedin.com/in/" ++ id ++ t) = id /\
  extract_linkedin_id ("https://www.linkedin.com/in/" ++ id ++ t) = id.
Proof.
  intros Hne Hid Ht Hns.
  pose proof (id_chars_no_space id Hid) as Hsp.
  pose proof (id_chars_no_slash id Hid) as Hsl.
  assert (Htail : no_space (id ++ t) = true)
    by (rewrite no_space_app, Hsp, Hns; reflexivity).
  split; [| split].
  - unfold extract_linkedin_id. cbv zeta. rewrite (strip_no_space id Hsp).
    rewrite (search_in_no_slash id Hsl).
    destruct (str_contains "linkedin.com" id);
      apply rstrip_slash_no_slash; assumption.
  - unfold extract_linkedin_id. cbv zeta.
    rewrite strip_no_space
      by (change ("https://linkedin.com/in/" ++ id ++ t)%string
            with ("https://linkedin.com/in/" ++ (id ++ t))%string;
          rewrite no_space_app, Htail; reflexivity).
    change (str_contains "linkedin.com" ("https://linkedin.com/in/" ++ id ++ t))
      with true.
    cbv iota.
    change (search_in ("https://linkedin.com/in/" ++ id ++ t))
      with (search_in ("/in/" ++ id ++ t)).
    rewrite (search_in_here id t Hne Hid Ht). reflexivity.
  - unfold extract_linkedin_id. cbv zeta.
    rewrite strip_no_space
      by (change ("https://www.linkedin.com/in/" ++ id ++ t)%string
            with ("https://www.linkedin.com/in/" ++ (id ++ t))%string;
          rewrite no_space_app, Htail; reflexivity).
    change (str_contains "linkedin.com" ("https://www.linkedin.com/in/" ++ id ++ t))
      with true.
    cbv iota.
    change (search_in ("https://www.linkedin.com/in/" ++ id ++ t))
      with (search_in ("/in/" ++ id ++ t)).
    rewrite (search_in_here id t Hne Hid Ht). reflexivity.
Qed.

End ExtractProperties.

Section LookupFacts.
Import HarmonicErrorNotifier HarmonicToBigQuerySync LinkedInToHarmonicLookup.
Context (E : env) {R : Runtime}.

Lemma count_query_preserves_stored t table column key :
  preserves (stored t) (count_query table column key).
Proof. intros w. reflexivity. Qed.

Lemma insert_rows_json_preserves_stored t table rows :
  String.eqb table t = false ->
  preserves (stored t) (insert_rows_json E table rows).
Proof.
  intros Hne w. unfold insert_rows_json, stored. simpl.
  destruct (insert_errors E table rows); simpl; [| reflexivity].
  apply rows_of_append_other. exact Hne.
Qed.

Lemma sync_education_keeps_mapping key education_list dry_run :
  preserves (stored (table_ref "linkedin_harmonic_mapping"))
    (sync_education E key education_list dry_run).
Proof.
  unfold sync_education, check_user_exists, transform_education, insert_education.
  repeat first [ apply count_query_preserves_stored
               | apply insert_rows_json_preserves_stored; reflexivity
               | preserves_step ].
Qed.

Lemma sync_experience_keeps_mapping key experience_list dry_run :
  preserves (stored (table_ref "linkedin_harmonic_mapping"))
    (sync_experience E key experience_list dry_run).
Proof.
  unfold sync_experience, check_user_exists, transform_experience,
    insert_experience.
  repeat first [ apply count_query_preserves_stored
               | apply insert_rows_json_preserves_stored; reflexivity
               | preserves_step ].
Qed.

Lemma sync_profile_keeps_mapping harmonic_id key education_list experience_list
  dry_run :
  preserves (stored (table_ref "linkedin_harmonic_mapping"))
    (sync_profile E harmonic_id key education_list experience_list dry_run).
Proof.
  unfold sync_profile, check_user_exists, transform_profile, insert_profile.
  repeat first [ apply count_query_preserves_stored
               | apply insert_rows_json_preserves_stored; reflexivity
               | preserves_step ].
Qed.

(** The mapping row a sync has inserted is the only one for the id. *)
Lemma sync_mapping_inserted harmonic_id key full_name url w rep w' :
  sync_mapping E harmonic_id key full_name url false w = (Ok rep, w') ->
  t_inserted rep = 1 ->
  exists row,
    mapped key w' = [row] /\
    column "harmonic_id" row = JInt harmonic_id /\
    column "full_name" row = full_name.
Proof.
  unfold sync_mapping, check_mapping_exists. intros H Hins.
  unbind H as b w1 Hcheck.
  unfold count_query in Hcheck. injection Hcheck as Hb Hw1.
  destruct b; [unret H; discriminate Hins |].
  unbind H as n w2 Hrun. unret H. simpl in Hins. subst n.
  unfold insert_mapping in Hrun.
  unbind Hrun as errors w3 Hjson.
  destruct errors; [| unret Hrun].
  unret Hrun.
  unfold insert_rows_json in Hjson. injection Hjson as Herr Hw.
  rewrite Herr in Hw. subst w3.
  eexists. unfold mapped, stored. simpl. rewrite rows_of_append_same.
  rewrite filter_app. simpl. rewrite String.eqb_refl.
  assert (Hnone : filter (row_matches "linkedin_id" key)
                    (rows_of (table_ref "linkedin_harmonic_mapping") (tables w))
                  = []).
  { apply length_zero_iff_nil. apply Z.ltb_ge in Hb. lia. }
  rewrite Hnone. split; [reflexivity |]. split; reflexivity.
Qed.

Lemma sync_fetched_mapping harmonic_id key verbose profile_data w report w' :
  sync_fetched E harmonic_id key false verbose profile_data w = (Ok report, w') ->
  t_inserted (s_mapping report) = 1 ->
  exists row,
    mapped key w' = [row] /\ column "harmonic_id" row = JInt harmonic_id.
Proof.
  unfold sync_fetched. intros H Hins.
  unbind H as education_list w1 H1.
  unbind H as experience_list w2 H2.
  unbind H as n1 w3 H3.
  unbind H as n2 w4 H4.
  unbind H as linkedin_info w5 H5.
  unbind H as mapping w6 H6.
  unbind H as education w7 H7.
  unbind H as experience w8 H8.
  unbind H as profile w9 H9.
  unret H. simpl in Hins.
  destruct (sync_mapping_inserted _ _ _ _ _ _ _ H6 Hins) as (row & Hrow & Hid & _).
  exists row. split; [| exact Hid].
  pose proof (sync_education_keeps_mapping key education_list false w6) as K7.
  rewrite H7 in K7. simpl in K7.
  pose proof (sync_experience_keeps_mapping key experience_list false w7) as K8.
  rewrite H8 in K8. simpl in K8.
  pose proof (sync_profile_keeps_mapping harmonic_id key education_list
                experience_list false w8) as K9.
  rewrite H9 in K9. simpl in K9.
  unfold mapped in *. rewrite K9, K8, K7. exact Hrow.
Qed.

(** A lookup that finds an integer in the mapping returns a result. *)
Lemma lookup_found url w row rest harmonic_id :
  mapped (extract_linkedin_id url) w = row :: rest ->
  column "harmonic_id" row = JInt harmonic_id ->
  exists education experience errors w',
    lookup E url w =
      (Ok (Some (lookup_result url (extract_linkedin_id url) (JInt harmonic_id)
                   (column "full_name" row) true education experience errors)),
       w') /\
    posts w' = (posts w ++ profile_requests harmonic_id)%list.
Proof.
  intros Hrow Hid. unfold lookup. cbv zeta.
  erewrite bind_ok
    by (unfold lookup_harmonic_id; unfold mapped, stored in Hrow; rewrite Hrow;
        rewrite Hid; reflexivity).
  cbv beta iota.
  destruct (get_full_profile_run E harmonic_id w)
    as (h & ed & ex & errs & w1 & Hrun & Hposts & _).
  erewrite bind_ok
    by (unfold try_except, fetch_harmonic_data;
        erewrite bind_ok by (exact Hrun); reflexivity).
  cbv beta iota. simpl get. cbn [and_then].
  destruct errs as [| e errs]; simpl; eexists _, _, _, w1;
    (split; [reflexivity | exact Hposts]).
Qed.

End LookupFacts.

Section LookupProperties.
Import HarmonicErrorNotifier HarmonicToBigQuerySync LinkedInToHarmonicLookup.
Context (E : env) {R : Runtime}.

(** X24.  What the sync writes, the lookup finds: after a [sync_person]
    (not a dry run) that returned and reports the mapping as inserted, a
    [lookup] of any URL or id that [extract_linkedin_id] turns into the
    synced [linkedin_id] does not raise and returns a result with
    [found_in_mapping] true and the synced [harmonic_id], after asking
    Harmonic for that person's profile. *)
Theorem sync_then_lookup harmonic_id linkedin_id verbose w report w1 url :
  sync_person E (HarmonicFullProfileClient.get_full_profile E) harmonic_id
    linkedin_id false verbose w = (Ok report, w1) ->
  t_inserted (s_mapping report) = 1 ->
  extract_linkedin_id url = linkedin_id ->
  exists result w2,
    lookup E url w1 = (Ok (Some result), w2) /\
    subscript result "found_in_mapping" = Ok (JBool true) /\
    subscript result "harmonic_id" = Ok (JInt harmonic_id) /\
    subscript result "linkedin_id" = Ok (JStr linkedin_id) /\
    posts w2 = (posts w1 ++ profile_requests harmonic_id)%list.
Proof.
  intros H Hins Hkey.
  unfold sync_person in H.
  destruct (get_full_profile_run E harmonic_id w)
    as (h & ed & ex & errs & wa & Hrun & _).
  erewrite bind_ok in H
    by (unfold try_except; erewrite bind_ok by (exact Hrun); reflexivity).
  cbv beta iota in H.
  destruct (sync_fetched_mapping E _ _ _ _ _ _ _ H Hins) as (row & Hrow & Hid).
  rewrite <- Hkey in Hrow.
  destruct (lookup_found E url w1 row [] harmonic_id Hrow Hid)
    as (education & experience & errors & w2 & Hlook & Hposts).
  eexists _, w2. split; [exact Hlook |].
  rewrite Hkey. repeat split. exact Hposts.
Qed.

End LookupProperties.

(* ================================================================== *)
(** * [get_companies_by_id] and the rows of [transform_education] *)
(* ================================================================== *)

Section ByIdFacts.
Import HarmonicErrorNotifier HarmonicClient.
Context (E : env) {R : Runtime}.

(** The error check on a body that is a JSON object. *)
Lemma check_and_notify_object r kvs w :
  body r = Some (JObj kvs) ->
  exists w',
    _check_and_notify_error E (Some r) (JObj kvs) w
      = (Ok (is_error_answer r), w') /\
    files w' = files w /\
    List.length (sent w')
    = (List.length (sent w)
       + if andb (is_error_answer r) (messenger E) then 1 else 0)%nat.
Proof.
  intros Hb. unfold is_error_answer. rewrite Hb.
  unfold _check_and_notify_error.
  destruct (is_auth_status (status_code r)) eqn:Hs; cbn [orb].
  - destruct (notify_auth_failure_count E
                ("HTTP " ++ str_of_int (status_code r)
                 ++ ": Authentication/authorization failed")%string w)
      as (b & w' & Hn & Hf & Hl).
    exists w'. erewrite bind_ok by (exact Hn).
    split; [reflexivity |]. split; [exact Hf | exact Hl].
  - unfold check_graphql_errors.
    destruct (dict_find "errors" kvs) as [errs |] eqn:Herrs.
    + assert (Htruthy : truthy (JObj kvs) = true)
        by (destruct kvs; [discriminate Herrs | reflexivity]).
      rewrite Htruthy.
      erewrite bind_ok by (unfold lift; simpl; rewrite Herrs; reflexivity).
      cbv beta iota.
      erewrite bind_ok by (unfold lift; simpl; rewrite Herrs; reflexivity).
      cbv zeta. destruct (existsb _ _).
      * destruct (notify_auth_failure_count E
                    (str_prefix 500 (if is_list errs then json_dumps errs
                                     else py_str errs)) w)
          as (b & w' & Hn & Hf & Hl).
        exists w'. erewrite bind_ok by (exact Hn).
        split; [reflexivity |]. split; assumption.
      * destruct (notify_api_error_count E "GraphQL Error"
                    (str_prefix 500 (if is_list errs then json_dumps errs
                                     else py_str errs)) w)
          as (b & w' & Hn & Hf & Hl).
        exists w'. erewrite bind_ok by (exact Hn).
        split; [reflexivity |]. split; assumption.
    + exists w. split.
      * destruct (truthy (JObj kvs)); [| reflexivity].
        erewrite bind_ok by (unfold lift; simpl; rewrite Herrs; reflexivity).
        reflexivity.
      * split; [reflexivity |]. simpl. lia.
Qed.

End ByIdFacts.

Section ByIdProperties.
Import HarmonicErrorNotifier HarmonicClient.
Context (E : env) {R : Runtime}.

(** X25.  [get_companies_by_id] hands an error back like a success: for
    every answer whose body is a JSON object, whatever the status code and
    whether the body has an ["errors"] entry, the method sends its one
    request and notifies once when the answer is an error (and the
    messenger is there).  With the directory [harmonic_client] in the
    working directory it then writes the body to
    [harmonic_client/company_by_id_output.json] and returns it; without
    the directory [open] raises [FileNotFoundError], nothing is written and
    the answer is lost to the caller. *)
Theorem get_companies_by_id_returns_body package_dir query w r kvs :
  http E (List.length (posts w)) by_ids_url query = Ok r ->
  body r = Some (JObj kvs) ->
  exists w',
    get_companies_by_id E package_dir query w
      = (if package_dir then Ok (JObj kvs)
         else Raise (FileNotFoundError
                       "harmonic_client/company_by_id_output.json"), w') /\
    posts w' = (posts w ++ [(by_ids_url, query)])%list /\
    files w' =
      (files w
       ++ if package_dir
          then [OutputFile "harmonic_client/company_by_id_output.json"
                  (JObj kvs)]
          else [])%list /\
    List.length (sent w')
    = (List.length (sent w)
       + if andb (is_error_answer r) (messenger E) then 1 else 0)%nat.
Proof.
  intros Hhttp Hb.
  destruct (check_and_notify_object E r kvs (add_post by_ids_url query w) Hb)
    as (w1 & Hcheck & Hf & Hl).
  assert (Hp : posts w1 = posts (add_post by_ids_url query w)).
  { apply check_and_notify_world in Hcheck.
    destruct Hcheck as [-> | (m & ->)]; reflexivity. }
  unfold get_companies_by_id.
  erewrite bind_ok by (unfold requests_post; rewrite Hhttp; reflexivity).
  erewrite bind_ok by (unfold lift, response_json; rewrite Hb; reflexivity).
  erewrite bind_ok by (exact Hcheck).
  destruct package_dir.
  - erewrite bind_ok by reflexivity.
    eexists. split; [reflexivity |]. simpl. rewrite Hp, Hf, Hl.
    repeat split; reflexivity.
  - erewrite bind_raise by reflexivity.
    eexists. split; [reflexivity |]. rewrite Hp, Hf, Hl, app_nil_r.
    repeat split; reflexivity.
Qed.

End ByIdProperties.

Section RowFacts.
Import HarmonicErrorNotifier HarmonicToBigQuerySync.
Context (E : env) {R : Runtime}.

(** The dates never raise: whatever a dictionary holds at the key. *)
Lemma date_prefix_total kvs key default :
  exists d, date_prefix (JObj kvs) key default = Ok d.
Proof.
  unfold date_prefix. simpl.
  destruct (dict_find key kvs) as [v |]; cbn [and_then].
  - destruct (truthy v); [| eauto].
    destruct (slice_prefix 10 v); eauto.
  - simpl. eauto.
Qed.

Lemma school_urn_total url :
  orb (negb (truthy url)) (is_string url) = true ->
  exists urn, school_urn_of url = Ok urn.
Proof.
  unfold school_urn_of. destruct (truthy url); simpl; [| eauto].
  destruct url; simpl; try discriminate. eauto.
Qed.

Lemma education_row_total key idx edu :
  well_formed_education edu = true ->
  exists row,
    education_row E key idx edu = Ok row /\
    subscript row "entityUrn"
    = Ok (JStr ("urn:li:fs_education:harmonic_" ++ key ++ "_" ++ str_of_int idx)) /\
    subscript row "linkedinId" = Ok (JStr key).
Proof.
  unfold well_formed_education. destruct edu as [| | | | | kvs]; try discriminate.
  intros Hwf. unfold education_row.
  destruct (date_prefix_total kvs "startDate" JNull) as [sd Hsd].
  destruct (date_prefix_total kvs "endDate" JNull) as [ed Hed].
  destruct (get_dict kvs "field" JNull) as [field Hfield].
  destruct (get_dict kvs "degree" JNull) as [degree Hdegree].
  assert (Hschool : exists school name url logo urn,
            get (JObj kvs) "school" (JObj []) = Ok school /\
            get school "name" (JStr EmptyString) = Ok name /\
            get school "linkedinUrl" (JStr EmptyString) = Ok url /\
            get school "logoUrl" JNull = Ok logo /\
            school_urn_of url = Ok urn).
  { simpl. destruct (dict_find "school" kvs) as [school |].
    - destruct school as [| | | | | skvs]; try discriminate Hwf.
      destruct (get_dict skvs "name" (JStr EmptyString)) as [name Hname].
      destruct (get_dict skvs "logoUrl" JNull) as [logo Hlogo].
      destruct (dict_find "linkedinUrl" skvs) as [url |] eqn:Hurl.
      + destruct (school_urn_total url Hwf) as [urn Hurn].
        exists (JObj skvs), name, url, logo, urn. repeat split; try assumption.
        simpl. rewrite Hurl. reflexivity.
      + exists (JObj skvs), name, (JStr EmptyString), logo, EmptyString.
        repeat split; try assumption. simpl. rewrite Hurl. reflexivity.
    - exists (JObj []), (JStr EmptyString), (JStr EmptyString), JNull, EmptyString.
      repeat split. }
  destruct Hschool as (school & name & url & logo & urn & H1 & H2 & H3 & H4 & H5).
  rewrite H1. cbn [and_then]. rewrite H2. cbn [and_then].
  rewrite H3. cbn [and_then]. rewrite H4. cbn [and_then]. cbv zeta.
  rewrite H5. cbn [and_then]. rewrite Hsd. cbn [and_then].
  rewrite Hed. cbn [and_then]. rewrite Hfield. cbn [and_then].
  rewrite Hdegree. cbn [and_then].
  eexists. split; [reflexivity |]. split; reflexivity.
Qed.

Lemma enumerate_rows_total (row : Z -> json -> result json)
  (ok : json -> bool) (P : Z -> json -> Prop) :
  (forall idx x, ok x = true -> exists r, row idx x = Ok r /\ P idx r) ->
  forall xs idx,
    forallb ok xs = true ->
    exists rows,
      enumerate_rows row idx xs = Ok rows /\
      List.length rows = List.length xs /\
      forall i r, nth_error rows i = Some r -> P (idx + Z.of_nat i) r.
Proof.
  intros Hrow. induction xs as [| x xs IH]; intros idx Hall.
  - exists []. simpl. repeat split. intros i r H. destruct i; discriminate H.
  - simpl in Hall. apply andb_prop in Hall. destruct Hall as [Hx Hxs].
    destruct (Hrow idx x Hx) as (r0 & Hr0 & HP).
    destruct (IH (idx + 1) Hxs) as (rows & Hrows & Hlen & Hnth).
    exists (r0 :: rows). simpl. rewrite Hr0. cbn [and_then].
    rewrite Hrows. cbn [and_then]. split; [reflexivity |].
    split; [simpl; rewrite Hlen; reflexivity |].
    intros i r H. destruct i as [| i]; simpl in H.
    + inversion H; subst. replace (idx + Z.of_nat 0) with idx by lia. exact HP.
    + replace (idx + Z.of_nat (S i)) with (idx + 1 + Z.of_nat i) by lia.
      apply Hnth. exact H.
Qed.

End RowFacts.

Section RowProperties.
Import HarmonicErrorNotifier HarmonicToBigQuerySync.
Context (E : env) {R : Runtime}.

(** X26.  One row per education entry: when every entry is a dictionary
    whose school is absent or a dictionary (its [linkedinUrl] absent, falsy
    or a string), [transform_education] does not raise, whatever the
    dates, the degree and the field are.  It returns as many rows as there
    are entries, in order; the row of entry [i] (from 0) carries the
    [linkedin_id] and the URN [urn:li:fs_education:harmonic_<id>_<i>]. *)
Theorem transform_education_rows items linkedin_id w :
  forallb well_formed_education items = true ->
  exists rows w',
    transform_education E (JArr items) linkedin_id w = (Ok rows, w') /\
    List.length rows = List.length items /\
    forall i row,
      nth_error rows i = Some row ->
      subscript row "entityUrn"
      = Ok (JStr ("urn:li:fs_education:harmonic_" ++ linkedin_id ++ "_"
                  ++ str_of_int (Z.of_nat i))) /\
      subscript row "linkedinId" = Ok (JStr linkedin_id).
Proof.
  intros Hall.
  destruct (enumerate_rows_total (education_row E linkedin_id)
              well_formed_education
              (fun idx row =>
                 subscript row "entityUrn"
                 = Ok (JStr ("urn:li:fs_education:harmonic_" ++ linkedin_id ++ "_"
                             ++ str_of_int idx)) /\
                 subscript row "linkedinId" = Ok (JStr linkedin_id))
              (fun idx x Hx => education_row_total E linkedin_id idx x Hx)
              items 0 Hall) as (rows & Hrows & Hlen & Hnth).
  exists rows. eexists. unfold transform_education.
  erewrite bind_ok by reflexivity.
  erewrite bind_ok by reflexivity.
  unfold lift. rewrite Hrows. split; [reflexivity |]. split; [exact Hlen |].
  intros i row Hi. exact (Hnth i row Hi).
Qed.

End RowProperties.

(* ================================================================== *)
(** * The headline and the student flag of the profile row *)
(* ================================================================== *)

Section ProfileRowFacts.
Import HarmonicErrorNotifier HarmonicToBigQuerySync.
Context (E : env) {R : Runtime}.

(** The loop passes over the positions that are not current. *)
Lemma headline_of_skip before rest :
  forallb not_current before = true ->
  headline_of (before ++ rest) = headline_of rest.
Proof.
  induction before as [| exp before IH]; intros Hall; [reflexivity |].
  simpl in Hall. apply andb_prop in Hall. destruct Hall as [Hexp Hbefore].
  destruct exp as [| | | | | kvs]; try discriminate Hexp.
  simpl in Hexp |- *.
  destruct (dict_find "isCurrentPosition" kvs) as [v |]; cbn [and_then].
  - apply negb_true_iff in Hexp. rewrite Hexp. apply IH, Hbefore.
  - simpl. apply IH, Hbefore.
Qed.

(** The loop stops at a current position. *)
Lemma headline_of_current cur after :
  is_current cur = true ->
  headline_of (cur :: after) = headline_of [cur].
Proof.
  intros Hcur. destruct cur as [| | | | | kvs]; try discriminate Hcur.
  simpl in Hcur |- *.
  destruct (dict_find "isCurrentPosition" kvs) as [v |]; [| discriminate Hcur].
  cbn [and_then]. rewrite Hcur. reflexivity.
Qed.

(** The row depends on the experience only through the headline. *)
Lemma transform_profile_headline harmonic_id key education l1 l2 w :
  headline_of l1 = headline_of l2 ->
  transform_profile E harmonic_id key education (JArr l1) w
  = transform_profile E harmonic_id key education (JArr l2) w.
Proof.
  intros H. unfold transform_profile, bind, modify, lift.
  cbn [iterate]. rewrite H. reflexivity.
Qed.

(** The student flag over entries that are dictionaries. *)
Lemma is_student_of_exists education :
  forallb is_dictionary education = true ->
  is_student_of E education
  = Ok (existsb (ends_this_year_or_later E) education).
Proof.
  induction education as [| edu rest IH]; intros Hall; [reflexivity |].
  simpl in Hall. apply andb_prop in Hall. destruct Hall as [Hedu Hrest].
  specialize (IH Hrest).
  destruct edu as [| | | | | kvs]; try discriminate Hedu.
  cbn [is_student_of existsb ends_this_year_or_later get].
  destruct (dict_find "endDate" kvs) as [v |]; cbn [and_then].
  - destruct v as [| b | n | s | l | o];
      try (destruct (truthy _); exact IH).
    destruct (truthy (JStr s)); [| exact IH]. cbn [andb].
    destruct (py_int (str_prefix 4 s)) as [y |]; [| exact IH].
    destruct (y >=? current_year E)%Z; [reflexivity | exact IH].
  - simpl. exact IH.
Qed.

End ProfileRowFacts.

Section ProfileRowProperties.
Import HarmonicErrorNotifier HarmonicToBigQuerySync.
Context (E : env) {R : Runtime}.

(** X27.  The first current position decides the headline, and the loop
    stops there: when the positions before it are dictionaries that are not
    current, [transform_profile] gives the same result, row or exception,
    whatever follows the first current position.  A later current position
    with title and company does not make up for a first one that lacks
    them, and a later entry that is no dictionary does not make the
    transform raise. *)
Theorem headline_from_first_current before cur after harmonic_id key education w :
  forallb not_current before = true ->
  is_current cur = true ->
  transform_profile E harmonic_id key education (JArr (before ++ cur :: after)) w
  = transform_profile E harmonic_id key education (JArr (before ++ [cur])) w.
Proof.
  intros Hbefore Hcur. apply transform_profile_headline.
  rewrite !headline_of_skip by exact Hbefore.
  apply headline_of_current, Hcur.
Qed.

(** X28.  The student flag: over education entries that are dictionaries
    [transform_profile] does not raise in the student loop, and the row's
    ["student"] is [True] exactly when some entry has a non-empty string
    ["endDate"] whose first four characters read as a year not before the
    current one.  An end date that is no string, or does not begin with a
    year, is passed over. *)
Theorem student_flag harmonic_id key education experience headline w :
  forallb is_dictionary education = true ->
  headline_of experience = Ok headline ->
  exists row w',
    transform_profile E harmonic_id key (JArr education) (JArr experience) w
      = (Ok row, w') /\
    subscript row "student"
    = Ok (JBool (existsb (ends_this_year_or_later E) education)) /\
    subscript row "headline" = Ok headline /\
    tables w' = tables w.
Proof.
  intros Hedu Hhead. unfold transform_profile.
  erewrite bind_ok by reflexivity.
  erewrite bind_ok by reflexivity.
  erewrite bind_ok by (unfold lift; rewrite Hhead; reflexivity).
  erewrite bind_ok by reflexivity.
  erewrite bind_ok
    by (unfold lift; rewrite (is_student_of_exists E education Hedu); reflexivity).
  eexists _, _. split; [reflexivity |]. repeat split.
Qed.

End ProfileRowProperties.

(* ================================================================== *)
(** * More properties on concrete runs *)
(* ================================================================== *)

Section RequestExamples.
Import HarmonicErrorNotifier HarmonicClient Sample Scenarios.

(** X1 on the three pages. *)
Lemma pages_fetched_is_request_count_witness :
  exists r w',
    get_company_saved_search_results (R := runtime) three_pages_env saved_search
      10 2 empty_world = (Ok (Some r), w') /\
    1 <= r_pages_fetched (returned r) /\
    Z.of_nat (List.length (posts w'))
    = Z.of_nat (List.length (posts empty_world)) + r_pages_fetched (returned r).
Proof.
  eexists _, _. split.
  - vm_compute. reflexivity.
  - apply (pages_fetched_is_request_count three_pages_env (R := runtime)
             saved_search 10 2 empty_world).
    vm_compute. reflexivity.
Defined.

(** X3 on the three pages, with batches of two. *)
Lemma batch_files_numbered_witness :
  exists r w',
    get_company_saved_search_results (R := runtime) three_pages_env saved_search
      10 2 empty_world = (Ok (Some r), w') /\
    exists batches,
      files w' =
        (files empty_world ++ batches ++
         [OutputFile "harmonic_companies_output.json"
            (JObj [("companies", JArr (r_companies (returned r)))])])%list /\
      numbered_from 1 batches = true.
Proof.
  eexists _, _. split.
  - vm_compute. reflexivity.
  - apply (batch_files_numbered three_pages_env (R := runtime) saved_search 10 2
             empty_world).
    vm_compute. reflexivity.
Defined.

(** X4 on the three pages, with batches of two. *)
Lemma batch_files_filled_witness :
  1 <= 2 /\
  exists r w',
    get_company_saved_search_results (R := runtime) three_pages_env saved_search
      10 2 empty_world = (Ok (Some r), w') /\
    files w' = (files empty_world ++ three_pages_batches ++ [three_pages_output])%list /\
    filled_but_last 2 three_pages_batches = true.
Proof.
  assert (H1 : 1 <= 2) by lia.
  split; [exact H1 |].
  eexists _, _. split; [vm_compute; reflexivity |].
  split; [vm_compute; reflexivity |].
  eapply (batch_files_filled three_pages_env (R := runtime) saved_search 10 2
            empty_world _ _ three_pages_batches three_pages_output H1).
  - vm_compute. reflexivity.
  - vm_compute. reflexivity.
Defined.

(** X5 on the first two requests of the three pages. *)
Lemma cursor_chain_witness :
  nth_error
    (posts (snd (get_company_saved_search_results (R := runtime) three_pages_env
                   saved_search 10 2 empty_world)))
    (List.length (posts empty_world) + 0) = Some first_request /\
  nth_error
    (posts (snd (get_company_saved_search_results (R := runtime) three_pages_env
                   saved_search 10 2 empty_world)))
    (List.length (posts empty_world) + 1) = Some second_request /\
  exists cursor,
    end_cursor_of
      (http three_pages_env (List.length (posts empty_world) + 0)
         (fst first_request) (snd first_request)) = Ok cursor /\
    cursor_of (snd second_request) = Ok cursor.
Proof.
  assert (H1 : nth_error
                 (posts (snd (get_company_saved_search_results (R := runtime)
                                three_pages_env saved_search 10 2 empty_world)))
                 (List.length (posts empty_world) + 0) = Some first_request)
    by (vm_compute; reflexivity).
  assert (H2 : nth_error
                 (posts (snd (get_company_saved_search_results (R := runtime)
                                three_pages_env saved_search 10 2 empty_world)))
                 (List.length (posts empty_world) + 1) = Some second_request)
    by (vm_compute; reflexivity).
  split; [exact H1 |]. split; [exact H2 |].
  exact (cursor_chain three_pages_env (R := runtime) saved_search 10 2 empty_world
           0 first_request second_request H1 H2).
Defined.

(** X6 on the three pages: two pauses. *)
Lemma pauses_between_requests_witness :
  (forall k, (0 <= random three_pages_env k < 1)%Q) /\
  exists r w',
    get_company_saved_search_results (R := runtime) three_pages_env saved_search
      10 2 empty_world = (Ok (Some r), w') /\
    exists pauses,
      slept w' = (slept empty_world ++ pauses)%list /\
      Z.of_nat (List.length pauses) = r_pages_fetched (returned r) - 1 /\
      Forall (fun d => short_pause d \/ long_pause d) pauses.
Proof.
  assert (H1 : forall k, (0 <= random three_pages_env k < 1)%Q).
  { intros k. simpl. split; [apply Qle_refl | reflexivity]. }
  split; [exact H1 |].
  eexists _, _. split.
  - vm_compute. reflexivity.
  - apply (pauses_between_requests three_pages_env (R := runtime) saved_search
             10 2 empty_world _ _ H1).
    vm_compute. reflexivity.
Defined.

(** X7 on a 401 as the first answer. *)
Lemma first_page_error_returns_empty_witness :
  http unauthorized_first_env (List.length (posts empty_world)) base_url
    (payload_of saved_search) = Ok unauthorized /\
  is_error_answer unauthorized = true /\
  exists r w',
    get_company_saved_search_results (R := runtime) unauthorized_first_env
      saved_search 10 2 empty_world = (Ok (Some r), w') /\
    exit r = StopError /\
    returned r = {| r_total_count := JNull; r_companies := [];
                    r_pages_fetched := 1 |} /\
    files w' =
      (files empty_world ++ [OutputFile "harmonic_companies_output.json"
                               (JObj [("companies", JArr [])])])%list /\
    List.length (sent w')
    = (List.length (sent empty_world)
       + if messenger unauthorized_first_env then 1 else 0)%nat.
Proof.
  split; [reflexivity |]. split; [reflexivity |].
  exact (first_page_error_returns_empty unauthorized_first_env (R := runtime)
           saved_search 10 2 empty_world unauthorized eq_refl eq_refl).
Defined.

(** X8 on the three pages, asked for with a string. *)
Lemma string_query_cannot_paginate_witness :
  2 <= 10 /\
  reports_next
    (http three_pages_env (List.length (posts empty_world)) base_url
       (payload_of string_query)) = true /\
  fst (get_company_saved_search_results (R := runtime) three_pages_env
         string_query 10 2 empty_world) = Raise (KeyError "variables") /\
  List.length
    (posts (snd (get_company_saved_search_results (R := runtime) three_pages_env
                   string_query 10 2 empty_world)))
  = S (List.length (posts empty_world)).
Proof.
  assert (H1 : 2 <= 10) by lia.
  split; [exact H1 |]. split; [reflexivity |].
  exact (string_query_cannot_paginate three_pages_env (R := runtime)
           "query GetCompanySavedSearchResults { ... }" 10 2 empty_world
           H1 eq_refl).
Defined.

(** X10 on a page of people that reports a next page. *)
Lemma search_people_raises_on_next_page_witness :
  2 <= 239 /\
  people_reports_next
    (http people_env (List.length (posts empty_world)) base_url
       (JObj [("query", people_query)])) = true /\
  fst (search_people (R := runtime) people_env people_query 239 200 empty_world)
  = Raise (KeyError "variables").
Proof.
  assert (H1 : 2 <= 239) by lia.
  split; [exact H1 |]. split; [reflexivity |].
  exact (search_people_raises_on_next_page people_env (R := runtime) people_query
           239 200 empty_world H1 eq_refl).
Defined.

End RequestExamples.

Section QueryExamples.
Import HarmonicErrorNotifier HarmonicClient Sample Scenarios.

(** X11 on the saved-search query. *)
Lemma add_saved_search_id_replaces_witness :
  exists q',
    add_saved_search_id (R := runtime) saved_search_query (JInt 150000) = Ok q' /\
    q' <> JNull /\
    variable "idOrUrn" q' = Ok (JStr "150000") /\
    has_variables q' = true.
Proof.
  eexists. split; [vm_compute; reflexivity |].
  split; [discriminate |].
  destruct (add_saved_search_id_replaces (R := runtime) saved_search_query
              (JInt 150000) _ eq_refl ltac:(discriminate))
    as (_ & H1 & H2 & _).
  split; [exact H1 | exact H2].
Defined.

(** X12 on a query with the ids 1 and 2, adding 2, 3, 3 and 62363328. *)
Lemma add_company_ids_appends_witness :
  variable "ids" by_ids_query = Ok (JArr [JInt 1; JInt 2]) /\
  exists q' added,
    add_company_ids by_ids_query new_company_ids = Ok q' /\
    variable "ids" q' = Ok (JArr ([JInt 1; JInt 2] ++ added)) /\
    NoDup added.
Proof.
  split; [reflexivity |].
  destruct (add_company_ids_appends by_ids_query new_company_ids
              [JInt 1; JInt 2] eq_refl) as (q' & added & H1 & H2 & _ & _ & H3).
  exists q', added. repeat split; assumption.
Defined.

(** X13 on the same query. *)
Lemma add_company_ids_idempotent_witness :
  variable "ids" by_ids_query = Ok (JArr [JInt 1; JInt 2]) /\
  exists q',
    add_company_ids by_ids_query new_company_ids = Ok q' /\
    add_company_ids q' new_company_ids = Ok q'.
Proof.
  split; [reflexivity |].
  exact (add_company_ids_idempotent by_ids_query new_company_ids
           [JInt 1; JInt 2] eq_refl).
Defined.

End QueryExamples.

Section ProfileExamples.
Import HarmonicErrorNotifier GraphQL HarmonicFullProfileClient Sample Scenarios.

(** X14 on a 401. *)
Lemma make_request_http_error_witness :
  http unauthorized_first_env (List.length (posts empty_world))
    (BASE_URL ++ "?" ++ "GetPersonEducation")%string
    (by_id_payload "GetPersonEducation" person Documents.GetPersonEducation)
    = Ok unauthorized /\
  is_http_error (status_code unauthorized) = true /\
  exists w',
    _make_request (R := runtime) unauthorized_first_env "GetPersonEducation"
      (by_id_payload "GetPersonEducation" person Documents.GetPersonEducation)
      empty_world = (Raise (HTTPError 401), w') /\
    List.length (sent w') = 1%nat.
Proof.
  split; [reflexivity |]. split; [reflexivity |].
  destruct (make_request_http_error unauthorized_first_env (R := runtime)
              "GetPersonEducation"
              (by_id_payload "GetPersonEducation" person Documents.GetPersonEducation)
              empty_world unauthorized eq_refl eq_refl) as (w' & H1 & H2).
  exists w'. split; [exact H1 | exact H2].
Defined.

(** X16 on the profile header of the sample person. *)
Lemma highlights_deduplicated_witness :
  exists v w',
    get_person_highlights (R := runtime) sync_env person empty_world = (Ok v, w') /\
    exists l, v = JArr l /\ forallb truthy l = true /\ distinct_keys l = true.
Proof.
  eexists _, _. split.
  - vm_compute. reflexivity.
  - eapply (highlights_deduplicated sync_env (R := runtime) person empty_world).
    vm_compute. reflexivity.
Defined.

End ProfileExamples.

Section SyncRunExamples.
Import HarmonicErrorNotifier HarmonicToBigQuerySync Sample Scenarios.

(** X18 on the sample person. *)
Lemma sync_person_reports_no_errors_witness :
  exists report w',
    sync_person (R := runtime) sync_env
      (HarmonicFullProfileClient.get_full_profile (R := runtime) sync_env) person linkedin_key
      false false empty_world = (Ok report, w') /\
    s_errors report = [].
Proof.
  eexists _, _. split.
  - vm_compute. reflexivity.
  - eapply (sync_person_reports_no_errors sync_env (R := runtime) person
              linkedin_key false false empty_world).
    vm_compute. reflexivity.
Defined.

(** X19 on the sample person: the first run inserts the education row, a
    second run skips the table. *)
Lemma second_sync_skips_witness :
  exists report w1,
    sync_person (R := runtime) sync_env
      (HarmonicFullProfileClient.get_full_profile (R := runtime) sync_env) person linkedin_key
      false false empty_world = (Ok report, w1) /\
    0 < t_inserted (entry Education report) /\
    has_rows Education linkedin_key w1 = true /\
    forall report2,
      fst (sync_person (R := runtime) sync_env
             (HarmonicFullProfileClient.get_full_profile (R := runtime) sync_env) person
             linkedin_key false false w1) = Ok report2 ->
      entry Education report2 = skipped_report (initial_data Education).
Proof.
  eexists _, _.
  split; [vm_compute; reflexivity |].
  split; [vm_compute; reflexivity |].
  refine (let H := second_sync_skips sync_env (R := runtime) Education person
                     linkedin_key false false empty_world _ _ _ _ in
          conj (proj1 H) (proj2 (proj2 H))).
  - vm_compute. reflexivity.
  - vm_compute. reflexivity.
Defined.

(** X20 on a list whose second entry has a null school and company. *)
Lemma null_school_or_company_raises_witness :
  In null_entry [education_item; null_entry] /\
  null_entry = JObj null_entry_fields /\
  (exists e,
     fst (transform_education sync_env (JArr [education_item; null_entry])
            linkedin_key empty_world) = Raise e) /\
  (exists e,
     fst (transform_experience (R := runtime) sync_env (JArr [education_item; null_entry])
            linkedin_key empty_world) = Raise e).
Proof.
  assert (H1 : In null_entry [education_item; null_entry])
    by (simpl; right; left; reflexivity).
  split; [exact H1 |]. split; [reflexivity |].
  destruct (null_school_or_company_raises sync_env (R := runtime)
              [education_item; null_entry] linkedin_key empty_world null_entry
              null_entry_fields H1 eq_refl) as [A B].
  split; [apply A; reflexivity | apply B; reflexivity].
Defined.

End SyncRunExamples.

Section OutageExamples.
Import HarmonicErrorNotifier HarmonicToBigQuerySync Sample Scenarios.

(** X21 on the sample person, the URL with a trailing slash. *)
Lemma linkedin_id_round_trip_witness :
  (forall p, http linkedin_env (List.length (posts empty_world))
               (HARMONIC_BASE_URL ++ "?GetPersonLinkedIn")%string p
             = Ok linkedin_answer) /\
  is_http_error (status_code linkedin_answer) = false /\
  body linkedin_answer = Some linkedin_body /\
  contains "errors" linkedin_body = Ok false /\
  full_name_of linkedin_body = Ok (JStr "Daniel Sun") /\
  linkedin_url_of linkedin_body
  = Ok (JStr ("https://linkedin.com/in" ++ String "/" (linkedin_key ++ "/"))) /\
  linkedin_key <> EmptyString /\
  has_char "/" linkedin_key = false /\
  only_char "/" "/" = true /\
  fst (get_linkedin_id_from_harmonic (R := runtime) linkedin_env person empty_world)
  = Ok (Some (linkedin_key, JStr "Daniel Sun")).
Proof.
  assert (H1 : forall p, http linkedin_env (List.length (posts empty_world))
                           (HARMONIC_BASE_URL ++ "?GetPersonLinkedIn")%string p
                         = Ok linkedin_answer) by (intros; reflexivity).
  assert (H2 : linkedin_key <> EmptyString) by discriminate.
  split; [exact H1 |]. split; [reflexivity |]. split; [reflexivity |].
  split; [reflexivity |]. split; [reflexivity |]. split; [reflexivity |].
  split; [exact H2 |]. split; [reflexivity |]. split; [reflexivity |].
  exact (linkedin_id_round_trip linkedin_env (R := runtime) person empty_world
           linkedin_answer linkedin_body (JStr "Daniel Sun")
           "https://linkedin.com/in" linkedin_key "/"
           H1 eq_refl eq_refl eq_refl eq_refl eq_refl H2 eq_refl eq_refl).
Defined.

(** X22 on a server that cannot be reached and an empty warehouse. *)
Lemma outage_still_writes_profile_witness :
  (forall k url p, failed (http outage_env k url p) = true) /\
  has_rows Profile linkedin_key empty_world = false /\
  (forall rows, insert_errors outage_env (table_ref "linkedin_profile") rows = []) /\
  exists report w',
    sync_person (R := runtime) outage_env
      (HarmonicFullProfileClient.get_full_profile (R := runtime) outage_env)
      person linkedin_key false false empty_world = (Ok report, w') /\
    s_errors report = [] /\
    t_inserted (s_profile report) = 1 /\
    has_rows Profile linkedin_key w' = true.
Proof.
  assert (H1 : forall k url p, failed (http outage_env k url p) = true).
  { intros k url p. unfold outage_env, environment, serve. simpl.
    destruct k; reflexivity. }
  assert (H3 : forall rows,
            insert_errors outage_env (table_ref "linkedin_profile") rows = [])
    by (intros; reflexivity).
  split; [exact H1 |]. split; [reflexivity |]. split; [exact H3 |].
  destruct (outage_still_writes_profile outage_env (R := runtime) person
              linkedin_key false empty_world H1 eq_refl H3)
    as (report & w' & Hrun & He & _ & _ & Hi & _ & _ & Hr).
  exists report, w'. repeat split; assumption.
Defined.

End OutageExamples.

Section LookupExamples.
Import HarmonicErrorNotifier HarmonicToBigQuerySync LinkedInToHarmonicLookup.
Import Sample Scenarios.

(** X23 on the id of the sample person, followed by a slash. *)
Lemma extract_linkedin_id_round_trip_witness :
  linkedin_key <> EmptyString /\
  all_chars id_char linkedin_key = true /\
  ends_id "/" = true /\
  no_space "/" = true /\
  extract_linkedin_id linkedin_key = linkedin_key /\
  extract_linkedin_id ("https://linkedin.com/in/" ++ linkedin_key ++ "/")
  = linkedin_key /\
  extract_linkedin_id ("https://www.linkedin.com/in/" ++ linkedin_key ++ "/")
  = linkedin_key.
Proof.
  assert (H1 : linkedin_key <> EmptyString) by discriminate.
  split; [exact H1 |]. split; [reflexivity |]. split; [reflexivity |].
  split; [reflexivity |].
  exact (extract_linkedin_id_round_trip linkedin_key "/" H1 eq_refl eq_refl
           eq_refl).
Defined.

(** X24 on the sample person: the sync, then the lookup of the profile
    URL. *)
Lemma sync_then_lookup_witness :
  exists report w1,
    sync_person (R := runtime) sync_env
      (HarmonicFullProfileClient.get_full_profile (R := runtime) sync_env)
      person linkedin_key false false empty_world = (Ok report, w1) /\
    t_inserted (s_mapping report) = 1 /\
    extract_linkedin_id profile_url = linkedin_key /\
    exists result w2,
      lookup (R := runtime) sync_env profile_url w1 = (Ok (Some result), w2) /\
      subscript result "found_in_mapping" = Ok (JBool true) /\
      subscript result "harmonic_id" = Ok (JInt person).
Proof.
  eexists _, _.
  split; [vm_compute; reflexivity |].
  split; [vm_compute; reflexivity |].
  split; [vm_compute; reflexivity |].
  edestruct (sync_then_lookup sync_env (R := runtime) person linkedin_key false
               empty_world) with (url := profile_url)
    as (result & w2 & H1 & H2 & H3 & _).
  - vm_compute. reflexivity.
  - vm_compute. reflexivity.
  - vm_compute. reflexivity.
  - exists result, w2. repeat split; assumption.
Defined.

End LookupExamples.

Section ByIdExamples.
Import HarmonicErrorNotifier HarmonicClient HarmonicToBigQuerySync Sample Scenarios.

(** X25 on an HTTP 401, with the directory and without it. *)
Lemma get_companies_by_id_returns_body_witness :
  http unauthorized_first_env (List.length (posts empty_world)) by_ids_url
    by_ids_query = Ok unauthorized /\
  body unauthorized = Some (JObj [("message", JStr "Unauthorized")]) /\
  (exists w',
     get_companies_by_id (R := runtime) unauthorized_first_env true by_ids_query
       empty_world
     = (Ok (JObj [("message", JStr "Unauthorized")]), w') /\
     posts w' = [(by_ids_url, by_ids_query)] /\
     files w' =
       [OutputFile "harmonic_client/company_by_id_output.json"
          (JObj [("message", JStr "Unauthorized")])] /\
     List.length (sent w') = 1%nat) /\
  (exists w',
     get_companies_by_id (R := runtime) unauthorized_first_env false by_ids_query
       empty_world
     = (Raise (FileNotFoundError "harmonic_client/company_by_id_output.json"),
        w') /\
     posts w' = [(by_ids_url, by_ids_query)] /\
     files w' = [] /\
     List.length (sent w') = 1%nat).
Proof.
  split; [reflexivity |]. split; [reflexivity |]. split.
  - exact (get_companies_by_id_returns_body unauthorized_first_env (R := runtime)
             true by_ids_query empty_world unauthorized
             [("message", JStr "Unauthorized")] eq_refl eq_refl).
  - exact (get_companies_by_id_returns_body unauthorized_first_env (R := runtime)
             false by_ids_query empty_world unauthorized
             [("message", JStr "Unauthorized")] eq_refl eq_refl).
Defined.

(** X26 on the sample entry followed by an entry with odd dates. *)
Lemma transform_education_rows_witness :
  forallb well_formed_education [education_item; odd_dates_entry] = true /\
  exists rows w',
    transform_education sync_env (JArr [education_item; odd_dates_entry])
      linkedin_key empty_world = (Ok rows, w') /\
    List.length rows = 2%nat /\
    forall i row,
      nth_error rows i = Some row ->
      subscript row "entityUrn"
      = Ok (JStr ("urn:li:fs_education:harmonic_" ++ linkedin_key ++ "_"
                  ++ str_of_int (Z.of_nat i))) /\
      subscript row "linkedinId" = Ok (JStr linkedin_key).
Proof.
  split; [reflexivity |].
  exact (transform_education_rows sync_env
           [education_item; odd_dates_entry] linkedin_key empty_world eq_refl).
Defined.

End ByIdExamples.

Section ProfileRowExamples.
Import HarmonicErrorNotifier HarmonicToBigQuerySync Sample Scenarios.

(** X27 on a current position without a title that is followed by a
    complete one and by a string. *)
Lemma headline_from_first_current_witness :
  forallb not_current [past_position] = true /\
  is_current untitled_position = true /\
  transform_profile (R := runtime) sync_env person linkedin_key (JArr [])
    (JArr ([past_position] ++ untitled_position
             :: [complete_position; JStr "stray"])) empty_world
  = transform_profile (R := runtime) sync_env person linkedin_key (JArr [])
      (JArr ([past_position] ++ [untitled_position])) empty_world.
Proof.
  split; [reflexivity |]. split; [reflexivity |].
  exact (headline_from_first_current sync_env (R := runtime) [past_position]
           untitled_position [complete_position; JStr "stray"] person
           linkedin_key (JArr []) empty_world eq_refl eq_refl).
Defined.

(** X28 on the sample entry, which ends in the current year, and an entry
    with odd dates. *)
Lemma student_flag_witness :
  forallb is_dictionary [education_item; odd_dates_entry] = true /\
  headline_of (R := runtime) [complete_position]
  = Ok (JStr "Founder at Stealth") /\
  exists row w',
    transform_profile (R := runtime) sync_env person linkedin_key
      (JArr [education_item; odd_dates_entry]) (JArr [complete_position])
      empty_world = (Ok row, w') /\
    subscript row "student"
    = Ok (JBool (existsb (ends_this_year_or_later (R := runtime) sync_env)
                   [education_item; odd_dates_entry])) /\
    subscript row "headline" = Ok (JStr "Founder at Stealth") /\
    tables w' = tables empty_world.
Proof.
  split; [reflexivity |]. split; [reflexivity |].
  exact (student_flag sync_env (R := runtime) person linkedin_key
           [education_item; odd_dates_entry] [complete_position]
           (JStr "Founder at Stealth") empty_world eq_refl eq_refl).
Defined.

End ProfileRowExamples.
